(** * SEOanalysis: a shallow embedding of [seo_analyzer.py]

    The definitions follow the source file:

    - [PyStr]      the Python [str] operations the program uses ([lower],
                   [split], [strip], [len], [in], [join], f-string integers);
    - [Re]         the three regular expressions of [extract_keywords] and
                   the leftmost, greedy, backtracking matching of [re.sub]
                   and [re.findall];
    - [Keywords]   [SEOAnalyzer.extract_keywords] with [collections.Counter];
    - [Soup]       the BeautifulSoup document tree and the queries the
                   program makes on it;
    - [Json]       [json.dump] with [indent=2], and [json.load];
    - [Analyzer]   [fetch_page], [analyze_page], [generate_seo_issues],
                   [generate_report] and [main], with what is printed, the
                   file written and uncaught exceptions made explicit.

    They are followed by the vocabulary of the specification ([KeywordSpec],
    [Messages], [PageSpec], [RunSpec], [ArtifactSpec]), sample pages, and
    then the lemmas and the theorems for the claims C1 to C10.

    Text is modelled by [string]: a Python [str] whose code points are below
    256 (Latin-1), one [ascii] per code point.  The character classes of
    [re] ([\s], [\w], [\b]) and [str.lower] are the Unicode ones restricted
    to that range.  The libraries ([requests], the HTML parser, the
    interpreter) are the [world] a run takes place in. *)

From Stdlib Require Import List String Ascii ZArith NArith Lia Bool Arith.
From Stdlib Require Import DecimalString Sorted.
From Stdlib Require Decimal DecimalFacts DecimalPos.
Import ListNotations.
Local Open Scope string_scope.
Local Open Scope list_scope.

(* ================================================================== *)
(** * Python strings *)
(* ================================================================== *)

Module PyStr.

Definition code (c : ascii) : N := N_of_ascii c.

Definition in_range (lo hi : N) (c : ascii) : bool :=
  ((lo <=? code c) && (code c <=? hi))%N.

(** [a-z] of the keyword pattern. *)
Definition is_az (c : ascii) : bool := in_range 97 122 c.

(** [Py_UNICODE_ISSPACE]: what [\s], [str.split()] and [str.strip()] treat as
    white space.  Below 256 these are TAB..CR, FS..US, SPACE, NEL and NBSP. *)
Definition is_space (c : ascii) : bool :=
  in_range 9 13 c || in_range 28 32 c || (code c =? 133)%N || (code c =? 160)%N.

(** [Py_UNICODE_ISALNUM]: alphabetic, decimal, digit or numeric. *)
Definition is_alnum (c : ascii) : bool :=
  in_range 48 57 c || in_range 65 90 c || in_range 97 122 c
  || (code c =? 170)%N || in_range 178 179 c || (code c =? 181)%N
  || in_range 185 186 c || in_range 188 190 c
  || in_range 192 214 c || in_range 216 246 c || in_range 248 255 c.

(** [\w] for a [str] pattern: alphanumeric or underscore. *)
Definition is_word (c : ascii) : bool := is_alnum c || (code c =? 95)%N.

(** [str.lower] on one code point: A-Z and the Latin-1 capitals. *)
Definition lower_char (c : ascii) : ascii :=
  if in_range 65 90 c || in_range 192 214 c || in_range 216 222 c
  then ascii_of_N (code c + 32) else c.

Fixpoint lower (s : string) : string :=
  match s with
  | EmptyString => EmptyString
  | String c s' => String (lower_char c) (lower s')
  end.

(** [len(s)] *)
Definition len (s : string) : Z := Z.of_nat (String.length s).

(** Truthiness of a [str]: non-empty. *)
Definition truthy (s : string) : bool :=
  match s with EmptyString => false | _ => true end.

(** [str(n)] and [f"{n}"] for an [int]. *)
Definition str_int (n : Z) : string := NilZero.string_of_int (Z.to_int n).

(** [f"{n:2d}"]: right-aligned in a field of width two. *)
Definition str_int_2d (n : Z) : string :=
  let s := str_int n in
  if (String.length s <? 2)%nat then " " ++ s else s.

(** [str(b)] for a [bool]. *)
Definition str_bool (b : bool) : string := if b then "True" else "False".

(** [f"{x}"] where [x] is a [str] or [None]. *)
Definition str_opt (o : option string) : string :=
  match o with Some s => s | None => "None" end.

(** [s[:n]] *)
Fixpoint take (n : nat) (s : string) : string :=
  match n, s with
  | S n', String c s' => String c (take n' s')
  | _, _ => EmptyString
  end.

(** [sep.join(ls)] *)
Fixpoint join (sep : string) (ls : list string) : string :=
  match ls with
  | [] => EmptyString
  | [x] => x
  | x :: ls' => x ++ sep ++ join sep ls'
  end.

Fixpoint starts_with (p s : string) : bool :=
  match p, s with
  | EmptyString, _ => true
  | String a p', String b s' => Ascii.eqb a b && starts_with p' s'
  | String _ _, EmptyString => false
  end.

(** [p in s] for two strings: [p] occurs as a substring of [s]. *)
Fixpoint contains (s p : string) : bool :=
  starts_with p s ||
  match s with
  | EmptyString => false
  | String _ s' => contains s' p
  end.

(** [s.split()]: the maximal runs of non-space characters, in order.
    [cur] is the run being read, reversed. *)
Fixpoint rev_string (acc s : string) : string :=
  match s with
  | EmptyString => acc
  | String c s' => rev_string (String c acc) s'
  end.

Fixpoint split_from (cur : string) (s : string) : list string :=
  match s with
  | EmptyString =>
      match cur with EmptyString => [] | _ => [rev_string "" cur] end
  | String c s' =>
      if is_space c
      then match cur with
           | EmptyString => split_from "" s'
           | _ => rev_string "" cur :: split_from "" s'
           end
      else split_from (String c cur) s'
  end.

Definition split (s : string) : list string := split_from "" s.

(** [s.strip()]: leading and trailing white space removed. *)
Fixpoint lstrip (s : string) : string :=
  match s with
  | String c s' => if is_space c then lstrip s' else s
  | EmptyString => EmptyString
  end.

Definition strip (s : string) : string :=
  rev_string "" (lstrip (rev_string "" (lstrip s))).

(** [s.upper()] on the ASCII letters; the program applies it to the literal
    keys ['h1'], ['h2'], ['h3'] only. *)
Definition upper_char (c : ascii) : ascii :=
  if in_range 97 122 c then ascii_of_N (code c - 32) else c.

Fixpoint upper (s : string) : string :=
  match s with
  | EmptyString => EmptyString
  | String c s' => String (upper_char c) (upper s')
  end.

End PyStr.

(* ================================================================== *)
(** * Regular expressions of [extract_keywords] *)
(* ================================================================== *)

Module Re.
Import PyStr.

(** The patterns of the program are sequences of three kinds of items. *)
Inductive atom :=
| Chr (p : ascii -> bool)               (* one character of a class        *)
| Rep (min : nat) (p : ascii -> bool)   (* [p{min,}], greedy               *)
| WordBoundary.                         (* [\b]                            *)

Definition regex := list atom.

Definition is_char (c : ascii) : ascii -> bool := Ascii.eqb c.
Definition not_char (c : ascii) : ascii -> bool := fun a => negb (Ascii.eqb c a).

(** [r'<[^>]+>'] *)
Definition tag_re : regex := [Chr (is_char "<"); Rep 1 (not_char ">"); Chr (is_char ">")].
(** [r'\s+'] *)
Definition ws_re : regex := [Rep 1 is_space].
(** The character U+0008. *)
Definition backspace : ascii := "008"%char.

(** [r'\b[a-z]{' + str(min_length) + ',}\b']: the first literal is raw, the
    second one is not, so its backslash-b is the character U+0008.  The
    pattern is a word boundary, [min_length] or more letters a-z, and then
    the character U+0008. *)
Definition word_re (min_length : nat) : regex :=
  [WordBoundary; Rep min_length is_az; Chr (is_char backspace)].

Definition word_before (prev : option ascii) : bool :=
  match prev with Some c => is_word c | None => false end.

Definition word_after (s : string) : bool :=
  match s with String c _ => is_word c | EmptyString => false end.

(** [\b] holds where exactly one side is a word character; the ends of the
    string count as non-word. *)
Definition at_boundary (prev : option ascii) (s : string) : bool :=
  xorb (word_before prev) (word_after s).

Definition cons_match (a : ascii) (r : option (string * string)) :=
  match r with
  | Some (m, rest) => Some (String a m, rest)
  | None => None
  end.

(** A greedy repetition [c{min,}] followed by the rest of the pattern [k]:
    first take one more character; only when what follows then fails, stop
    here (if [cnt], the number of characters taken, has reached [min]) and
    try [k]. *)
Fixpoint rep_match (min : nat) (c : ascii -> bool)
    (k : option ascii -> string -> option (string * string))
    (cnt : nat) (prev : option ascii) (s : string) {struct s}
  : option (string * string) :=
  let stop := if (min <=? cnt)%nat then k prev s else None in
  match s with
  | String a s' =>
      if c a then
        match rep_match min c k (S cnt) (Some a) s' with
        | Some (m, rest) => Some (String a m, rest)
        | None => stop
        end
      else stop
  | EmptyString => stop
  end.

(** Match [p] at the head of [s], [prev] being the character before it.
    Returns the matched text and what follows. *)
Fixpoint match_here (p : regex) : option ascii -> string -> option (string * string) :=
  match p with
  | [] => fun _ s => Some (EmptyString, s)
  | Chr c :: k => fun _ s =>
      match s with
      | String a s' => if c a then cons_match a (match_here k (Some a) s') else None
      | EmptyString => None
      end
  | WordBoundary :: k => fun prev s =>
      if at_boundary prev s then match_here k prev s else None
  | Rep min c :: k => rep_match min c (match_here k) 0
  end.

Fixpoint last_char (a : ascii) (m : string) : ascii :=
  match m with
  | EmptyString => a
  | String b m' => last_char b m'
  end.

(** [re.sub(p, repl, s)]: scan left to right; where [p] matches, emit [repl]
    and resume after the match, otherwise copy one character.  None of the
    patterns above matches the empty string ([match_here_nonempty] below),
    so an empty match is treated as no match.  [fuel] bounds the number of
    scan steps. *)
Fixpoint sub_from (fuel : nat) (p : regex) (repl : string)
    (prev : option ascii) (s : string) : string :=
  match fuel with
  | O => s
  | S fuel' =>
      match match_here p prev s with
      | Some (String a m, rest) =>
          repl ++ sub_from fuel' p repl (Some (last_char a m)) rest
      | _ =>
          match s with
          | EmptyString => EmptyString
          | String a s' => String a (sub_from fuel' p repl (Some a) s')
          end
      end
  end.

Definition sub (p : regex) (repl s : string) : string :=
  sub_from (S (String.length s)) p repl None s.

(** [re.findall(p, s)] for a pattern without groups: the matched texts. *)
Fixpoint findall_from (fuel : nat) (p : regex)
    (prev : option ascii) (s : string) : list string :=
  match fuel with
  | O => []
  | S fuel' =>
      match match_here p prev s with
      | Some (String a m, rest) =>
          String a m :: findall_from fuel' p (Some (last_char a m)) rest
      | _ =>
          match s with
          | EmptyString => []
          | String a s' => findall_from fuel' p (Some a) s'
          end
      end
  end.

Definition findall (p : regex) (s : string) : list string :=
  findall_from (S (String.length s)) p None s.

End Re.

(* ================================================================== *)
(** * [SEOAnalyzer.extract_keywords] *)
(* ================================================================== *)

Module Keywords.
Import PyStr.

(** The set literal [stop_words] of lines 42-50. *)
Definition stop_words : list string :=
  [ "the"; "a"; "an"; "and"; "or"; "but"; "in"; "on"; "at"; "to"; "for";
    "of"; "with"; "by"; "is"; "are"; "was"; "were"; "be"; "been"; "have";
    "has"; "had"; "do"; "does"; "did"; "will"; "would"; "should"; "could";
    "can"; "may"; "might"; "this"; "that"; "these"; "those"; "i"; "you";
    "he"; "she"; "it"; "we"; "they"; "me"; "him"; "her"; "us"; "them";
    "get"; "go"; "come"; "see"; "know"; "think"; "want"; "need"; "use";
    "work"; "call"; "try"; "ask"; "feel"; "become"; "leave"; "put" ].

(** [word in stop_words] *)
Definition mem (w : string) (l : list string) : bool := existsb (String.eqb w) l.

(** A [Counter] is a [dict]: keys in insertion order, each with its count. *)
Definition counter := list (string * Z).

(** [c[w] += 1]: an existing key keeps its place, a new key goes last. *)
Fixpoint counter_incr (w : string) (c : counter) : counter :=
  match c with
  | [] => [(w, 1%Z)]
  | (k, n) :: c' =>
      if String.eqb k w then (k, (n + 1)%Z) :: c' else (k, n) :: counter_incr w c'
  end.

(** [Counter(words)] *)
Definition Counter (words : list string) : counter :=
  fold_left (fun c w => counter_incr w c) words [].

(** [sorted(items, key=itemgetter(1), reverse=True)]: a stable sort, so items
    with equal counts keep their order.  [insert_desc x l] puts [x], which
    comes before every item of [l] in the input, ahead of the first item
    whose count is not greater. *)
Fixpoint insert_desc (x : string * Z) (l : list (string * Z)) : list (string * Z) :=
  match l with
  | [] => [x]
  | y :: l' =>
      if (snd y <=? snd x)%Z then x :: y :: l' else y :: insert_desc x l'
  end.

Definition sorted_desc (l : list (string * Z)) : list (string * Z) :=
  fold_right insert_desc [] l.

(** [Counter.most_common(n)] is [heapq.nlargest(n, items, key=itemgetter(1))],
    that is [sorted(items, key=itemgetter(1), reverse=True)[:n]]. *)
Definition most_common (n : nat) (c : counter) : list (string * Z) :=
  firstn n (sorted_desc c).

Definition extract_keywords (text : string) (min_length max_keywords : nat)
  : list (string * Z) :=
  let text := Re.sub Re.tag_re " " text in
  let text := Re.sub Re.ws_re " " (lower text) in
  let words := Re.findall (Re.word_re min_length) text in
  let words := filter (fun word => negb (mem word stop_words)) words in
  most_common max_keywords (Counter words).

End Keywords.


(* ================================================================== *)
(** * The BeautifulSoup document tree *)
(* ================================================================== *)

Module Soup.

(** A parsed document.  Every string of the tree has a class, and
    [get_text()] goes by the class alone.  [NavigableString] stands for the
    classes [NavigableString] and [CData]; [Comment] for [Comment],
    [Doctype], [Declaration] and [ProcessingInstruction];
    [ContainerString c] for the class the builder gives to the text it
    reads inside an element named [c] of its string containers: [Script],
    [Stylesheet], [TemplateString], [RubyTextString],
    [RubyParenthesisString]. *)
#[warnings="-register-all"]
Inductive node :=
| NavigableString (s : string)
| Comment (s : string)
| ContainerString (container : string) (s : string)
| Tag (name : string) (attrs : list (string * string)) (contents : list node).

(** The [BeautifulSoup] object: the top-level nodes of the document. *)
Definition soup := list node.

(** [tag.get(key)]: [None] when the attribute is absent. *)
Fixpoint get (attrs : list (string * string)) (key : string) : option string :=
  match attrs with
  | [] => None
  | (k, v) :: attrs' => if String.eqb k key then Some v else get attrs' key
  end.

(** [tag.get(key, default)] *)
Definition get_default (attrs : list (string * string)) (key default : string) : string :=
  match get attrs key with Some v => v | None => default end.

(** All tags below a node, the node included, in document order. *)
Fixpoint tags_of (n : node) : list node :=
  match n with
  | Tag _ _ contents =>
      n :: (fix go (l : list node) : list node :=
              match l with [] => [] | c :: l' => tags_of c ++ go l' end) contents
  | _ => []
  end.

Definition descendants (doc : soup) : list node := flat_map tags_of doc.

Definition matches (p : string -> list (string * string) -> bool) (n : node) : bool :=
  match n with Tag name attrs _ => p name attrs | _ => false end.

(** [soup.find_all(...)] and [soup.find(...)] with a test on name and attributes. *)
Definition find_all (p : string -> list (string * string) -> bool) (doc : soup) : list node :=
  filter (matches p) (descendants doc).

Definition find (p : string -> list (string * string) -> bool) (doc : soup) : option node :=
  hd_error (find_all p doc).

Definition named (name : string) : string -> list (string * string) -> bool :=
  fun n _ => String.eqb n name.

Definition named_any (names : list string) : string -> list (string * string) -> bool :=
  fun n _ => existsb (String.eqb n) names.

Definition named_with (name key value : string) : string -> list (string * string) -> bool :=
  fun n attrs =>
    String.eqb n name &&
    match get attrs key with Some v => String.eqb v value | None => false end.

(** [builder.string_containers] of the HTML tree builders. *)
Definition string_containers : list string :=
  ["rt"; "rp"; "style"; "script"; "template"].

(** [tag.interesting_string_types]: [None] is the default, the classes
    [NavigableString] and [CData]; a string container is interested in the
    strings of its own class only. *)
Definition interesting_string_types (name : string) : option string :=
  if existsb (String.eqb name) string_containers then Some name else None.

(** [_all_strings(types=types)], joined: the strings below a node whose
    class is one of [types], in document order. *)
Fixpoint strings (types : option string) (n : node) : string :=
  match n with
  | NavigableString s => match types with None => s | Some _ => EmptyString end
  | Comment _ => EmptyString
  | ContainerString c s =>
      match types with
      | Some c' => if String.eqb c c' then s else EmptyString
      | None => EmptyString
      end
  | Tag _ _ contents =>
      (fix go (l : list node) : string :=
         match l with
         | [] => EmptyString
         | c :: l' => (strings types c ++ go l')%string
         end) contents
  end.

Fixpoint strings_all (types : option string) (l : list node) : string :=
  match l with
  | [] => EmptyString
  | c :: l' => (strings types c ++ strings_all types l')%string
  end.

(** [node.get_text()]: for a tag, the strings below it of the classes the
    tag is interested in; a string gives itself when it is text. *)
Definition get_text (n : node) : string :=
  match n with
  | Tag name _ contents => strings_all (interesting_string_types name) contents
  | NavigableString s => s
  | Comment _ => EmptyString
  | ContainerString _ _ => EmptyString
  end.

(** [soup.get_text()]: the [BeautifulSoup] object has the default classes. *)
Definition get_text_all (doc : soup) : string := strings_all None doc.

Definition attrs_of (n : node) : list (string * string) :=
  match n with Tag _ attrs _ => attrs | _ => [] end.

(** [for t in soup(names): t.decompose()]: every tag with one of the names is
    removed from the tree, with all it contains. *)
Fixpoint decompose (names : list string) (n : node) : list node :=
  match n with
  | Tag name attrs contents =>
      if existsb (String.eqb name) names then []
      else [Tag name attrs
              ((fix go (l : list node) : list node :=
                  match l with [] => [] | c :: l' => decompose names c ++ go l' end)
                 contents)]
  | _ => [n]
  end.

Definition decompose_all (names : list string) (doc : soup) : soup :=
  flat_map (decompose names) doc.

(** [tag.get_text()] for a tag found before the decomposition and read after
    it: the tag is the same object as in the tree, so the elements removed
    from the tree are gone from it too. *)
Definition get_text_after (names : list string) (n : node) : string :=
  match decompose names n with
  | n' :: _ => get_text n'
  | [] => EmptyString
  end.

End Soup.

(* ================================================================== *)
(** * [json.dump(obj, f, indent=2)] *)
(* ================================================================== *)

Module Json.
Import PyStr.
Local Open Scope string_scope.

(** The Python values the program hands to [json.dump]. *)
#[warnings="-register-all"]
Inductive pyval :=
| PyNone
| PyBool (b : bool)
| PyInt (n : Z)
| PyStr (s : string)
| PyList (items : list pyval)
| PyTuple (items : list pyval)
| PyDict (items : list (string * pyval)).

Definition quote : ascii := "034"%char.
Definition backslash : ascii := "092"%char.
Definition newline : ascii := "010"%char.

Definition hex_digit (n : N) : ascii :=
  if (n <? 10)%N then ascii_of_N (48 + n) else ascii_of_N (87 + n).

(** One character under [ESCAPE_ASCII]: the quote and the backslash get a
    backslash, the five short escapes are used, any other character outside
    space..tilde becomes [\u00XX]. *)
Definition escape_char (c : ascii) : string :=
  if Ascii.eqb c quote then String backslash (String quote "")
  else if Ascii.eqb c backslash then String backslash (String backslash "")
  else if (code c =? 8)%N then String backslash "b"
  else if (code c =? 12)%N then String backslash "f"
  else if (code c =? 10)%N then String backslash "n"
  else if (code c =? 13)%N then String backslash "r"
  else if (code c =? 9)%N then String backslash "t"
  else if in_range 32 126 c then String c ""
  else String backslash
         (String "u" (String "0" (String "0"
            (String (hex_digit (code c / 16)) (String (hex_digit (code c mod 16)) ""))))).

Fixpoint escape (s : string) : string :=
  match s with
  | EmptyString => EmptyString
  | String c s' => escape_char c ++ escape s'
  end.

(** [encode_basestring_ascii] *)
Definition encode_str (s : string) : string :=
  String quote (escape s ++ String quote "").

Fixpoint spaces (n : nat) : string :=
  match n with O => EmptyString | S n' => String " " (spaces n') end.

(** ['\n' + ' ' * (indent * level)] with [indent = 2] *)
Definition newline_indent (level : nat) : string :=
  String newline (spaces (2 * level)).

(** [_iterencode] at nesting depth [level]: lists and tuples alike become
    arrays, dicts become objects, one item per line. *)
Fixpoint encode (level : nat) (v : pyval) : string :=
  match v with
  | PyNone => "null"
  | PyBool true => "true"
  | PyBool false => "false"
  | PyInt n => str_int n
  | PyStr s => encode_str s
  | PyList [] | PyTuple [] => "[]"
  | PyList (x :: items) | PyTuple (x :: items) =>
      "[" ++ newline_indent (S level) ++ encode (S level) x ++
      (fix go (l : list pyval) : string :=
         match l with
         | [] => EmptyString
         | y :: l' => "," ++ newline_indent (S level) ++ encode (S level) y ++ go l'
         end) items
      ++ newline_indent level ++ "]"
  | PyDict [] => "{}"
  | PyDict ((k, x) :: items) =>
      "{" ++ newline_indent (S level) ++ encode_str k ++ ": " ++ encode (S level) x ++
      (fix go (l : list (string * pyval)) : string :=
         match l with
         | [] => EmptyString
         | (k', y) :: l' =>
             "," ++ newline_indent (S level) ++ encode_str k' ++ ": "
             ++ encode (S level) y ++ go l'
         end) items
      ++ newline_indent level ++ "}"
  end.

Definition dumps (v : pyval) : string := encode 0 v.

(** ** [json.load]

    The reader follows [json.decoder] and [json.scanner]: white space is
    space, tab, newline and carriage return; a string ends at the first
    unescaped quote and may not hold a control character; a number is an
    optional minus sign, then a zero or a run of digits that does not start
    with a zero; arrays become lists and objects dicts.  Floats and
    [\u] escapes of code points above 255 are outside the model: the reader
    answers [None] there, as it does where [json.load] raises. *)

Definition is_json_ws (c : ascii) : bool :=
  Ascii.eqb c " " || (code c =? 9)%N || (code c =? 10)%N || (code c =? 13)%N.

Fixpoint skip_ws (s : string) : string :=
  match s with
  | String c s' => if is_json_ws c then skip_ws s' else s
  | EmptyString => EmptyString
  end.

Definition is_digit (c : ascii) : bool := in_range 48 57 c.

Definition hex_value (c : ascii) : option N :=
  if in_range 48 57 c then Some (code c - 48)%N
  else if in_range 97 102 c then Some (code c - 87)%N
  else if in_range 65 70 c then Some (code c - 55)%N
  else None.

Definition hex4 (a b c d : ascii) : option N :=
  match hex_value a, hex_value b, hex_value c, hex_value d with
  | Some x, Some y, Some z, Some t => Some (((x * 16 + y) * 16 + z) * 16 + t)%N
  | _, _, _, _ => None
  end.

(** The character a short escape stands for ([BACKSLASH] of [json.decoder]). *)
Definition unescape (e : ascii) : option ascii :=
  if Ascii.eqb e quote then Some quote
  else if Ascii.eqb e backslash then Some backslash
  else if Ascii.eqb e "/" then Some "/"%char
  else if Ascii.eqb e "b" then Some "008"%char
  else if Ascii.eqb e "f" then Some "012"%char
  else if Ascii.eqb e "n" then Some "010"%char
  else if Ascii.eqb e "r" then Some "013"%char
  else if Ascii.eqb e "t" then Some "009"%char
  else None.

Definition cons_char (c : ascii) (r : option (string * string)) : option (string * string) :=
  match r with
  | Some (s, rest) => Some (String c s, rest)
  | None => None
  end.

(** [py_scanstring], strict: the text after the opening quote, up to the
    closing one. *)
Fixpoint scanstring (s : string) : option (string * string) :=
  match s with
  | EmptyString => None
  | String c s' =>
      if Ascii.eqb c quote then Some (EmptyString, s')
      else if Ascii.eqb c backslash then
        match s' with
        | String e s'' =>
            if Ascii.eqb e "u" then
              match s'' with
              | String x1 (String x2 (String x3 (String x4 r))) =>
                  match hex4 x1 x2 x3 x4 with
                  | Some n =>
                      if (n <? 256)%N then cons_char (ascii_of_N n) (scanstring r)
                      else None
                  | None => None
                  end
              | _ => None
              end
            else
              match unescape e with
              | Some ch => cons_char ch (scanstring s'')
              | None => None
              end
        | EmptyString => None
        end
      else if (code c <? 32)%N then None
      else cons_char c (scanstring s')
  end.

(** The longest prefix of digits, and what follows. *)
Fixpoint span_digits (s : string) : string * string :=
  match s with
  | String c s' =>
      if is_digit c then let (d, r) := span_digits s' in (String c d, r)
      else (EmptyString, s)
  | EmptyString => (EmptyString, EmptyString)
  end.

Definition starts_float_part (s : string) : bool :=
  match s with
  | String c _ => Ascii.eqb c "." || Ascii.eqb c "e" || Ascii.eqb c "E"
  | EmptyString => false
  end.

(** The digits of a number: after a leading zero the number is over. *)
Definition scan_digits (s : string) : option (Z * string) :=
  match s with
  | String c s' =>
      if Ascii.eqb c "0" then Some (0%Z, s')
      else
        let (d, r) := span_digits s in
        match NilEmpty.uint_of_string d with
        | Some u => match d with EmptyString => None | _ => Some (Z.of_uint u, r) end
        | None => None
        end
  | EmptyString => None
  end.

Definition scan_number (s : string) : option (Z * string) :=
  let signed :=
    match s with
    | String c s' =>
        if Ascii.eqb c "-" then
          match scan_digits s' with
          | Some (n, r) => Some ((- n)%Z, r)
          | None => None
          end
        else scan_digits s
    | EmptyString => None
    end in
  match signed with
  | Some (n, r) => if starts_float_part r then None else Some (n, r)
  | None => None
  end.

Fixpoint drop (n : nat) (s : string) : string :=
  match n, s with
  | S n', String _ s' => drop n' s'
  | _, _ => s
  end.

(** [d[k] = v] on a dict: an existing key keeps its place. *)
Fixpoint dict_set (k : string) (v : pyval) (d : list (string * pyval)) : list (string * pyval) :=
  match d with
  | [] => [(k, v)]
  | (k', v') :: d' =>
      if String.eqb k' k then (k', v) :: d' else (k', v') :: dict_set k v d'
  end.

(** [dict(pairs)] *)
Definition dict_of_pairs (pairs : list (string * pyval)) : list (string * pyval) :=
  fold_left (fun d kv => dict_set (fst kv) (snd kv) d) pairs [].

(** [scan_once], [JSONArray] and [JSONObject].  [fuel] bounds the number of
    values read; [loads] gives one unit per character. *)
Fixpoint scan_once (fuel : nat) (s : string) : option (pyval * string) :=
  match fuel with
  | O => None
  | S fuel' =>
      match s with
      | EmptyString => None
      | String c s' =>
          if Ascii.eqb c quote then
            match scanstring s' with
            | Some (str, r) => Some (PyStr str, r)
            | None => None
            end
          else if Ascii.eqb c "{" then
            match skip_ws s' with
            | String c1 r1 =>
                if Ascii.eqb c1 "}" then Some (PyDict [], r1)
                else
                  match scan_members fuel' (String c1 r1) with
                  | Some (pairs, r) => Some (PyDict (dict_of_pairs pairs), r)
                  | None => None
                  end
            | EmptyString => None
            end
          else if Ascii.eqb c "[" then
            match skip_ws s' with
            | String c1 r1 =>
                if Ascii.eqb c1 "]" then Some (PyList [], r1)
                else
                  match scan_items fuel' (String c1 r1) with
                  | Some (items, r) => Some (PyList items, r)
                  | None => None
                  end
            | EmptyString => None
            end
          else if starts_with "null" s then Some (PyNone, drop 4 s)
          else if starts_with "true" s then Some (PyBool true, drop 4 s)
          else if starts_with "false" s then Some (PyBool false, drop 5 s)
          else
            match scan_number s with
            | Some (n, r) => Some (PyInt n, r)
            | None => None
            end
      end
  end

with scan_items (fuel : nat) (s : string) : option (list pyval * string) :=
  match fuel with
  | O => None
  | S fuel' =>
      match scan_once fuel' s with
      | Some (v, r) =>
          match skip_ws r with
          | String c r1 =>
              if Ascii.eqb c "]" then Some ([v], r1)
              else if Ascii.eqb c "," then
                match scan_items fuel' (skip_ws r1) with
                | Some (items, r2) => Some (v :: items, r2)
                | None => None
                end
              else None
          | EmptyString => None
          end
      | None => None
      end
  end

with scan_members (fuel : nat) (s : string) : option (list (string * pyval) * string) :=
  match fuel with
  | O => None
  | S fuel' =>
      match s with
      | String c s' =>
          if Ascii.eqb c quote then
            match scanstring s' with
            | Some (key, r) =>
                match skip_ws r with
                | String c1 r1 =>
                    if Ascii.eqb c1 ":" then
                      match scan_once fuel' (skip_ws r1) with
                      | Some (v, r2) =>
                          match skip_ws r2 with
                          | String c2 r3 =>
                              if Ascii.eqb c2 "}" then Some ([(key, v)], r3)
                              else if Ascii.eqb c2 "," then
                                match scan_members fuel' (skip_ws r3) with
                                | Some (pairs, r4) => Some ((key, v) :: pairs, r4)
                                | None => None
                                end
                              else None
                          | EmptyString => None
                          end
                      | None => None
                      end
                    else None
                | EmptyString => None
                end
            | None => None
            end
          else None
      | EmptyString => None
      end
  end.

(** [json.loads(s)]: one value, white space around it, nothing after. *)
Definition loads (s : string) : option pyval :=
  match scan_once (S (String.length s)) (skip_ws s) with
  | Some (v, r) => match skip_ws r with EmptyString => Some v | _ => None end
  | None => None
  end.

(** What a tuple comes back as: a list, at every depth. *)
Fixpoint listify (v : pyval) : pyval :=
  match v with
  | PyList items => PyList (map listify items)
  | PyTuple items => PyList (map listify items)
  | PyDict items =>
      PyDict ((fix go (l : list (string * pyval)) : list (string * pyval) :=
                 match l with
                 | [] => []
                 | (k, x) :: l' => (k, listify x) :: go l'
                 end) items)
  | _ => v
  end.

(** [a == b] on the values of the program: a tuple never equals a list. *)
Fixpoint py_eq (a b : pyval) : bool :=
  match a, b with
  | PyNone, PyNone => true
  | PyBool x, PyBool y => Bool.eqb x y
  | PyInt x, PyInt y => (x =? y)%Z
  | PyStr x, PyStr y => String.eqb x y
  | PyList xs, PyList ys | PyTuple xs, PyTuple ys =>
      (fix go (l : list pyval) (m : list pyval) : bool :=
         match l, m with
         | [], [] => true
         | x :: l', y :: m' => py_eq x y && go l' m'
         | _, _ => false
         end) xs ys
  | PyDict xs, PyDict ys =>
      (fix go (l : list (string * pyval)) (m : list (string * pyval)) : bool :=
         match l, m with
         | [], [] => true
         | (k, x) :: l', (k', y) :: m' => String.eqb k k' && py_eq x y && go l' m'
         | _, _ => false
         end) xs ys
  | _, _ => false
  end.

(** ** Measures and shapes used to state the round trip *)

(** The items after the first one of an array, as [encode] writes them. *)
Fixpoint encode_more (level : nat) (l : list pyval) : string :=
  match l with
  | [] => EmptyString
  | y :: l' =>
      "," ++ newline_indent (S level) ++ encode (S level) y ++ encode_more level l'
  end.

(** The members after the first one of an object. *)
Fixpoint encode_more_members (level : nat) (l : list (string * pyval)) : string :=
  match l with
  | [] => EmptyString
  | (k, y) :: l' =>
      "," ++ newline_indent (S level) ++ encode_str k ++ ": "
      ++ encode (S level) y ++ encode_more_members level l'
  end.

(** The number of values in a value, itself included, plus one per item:
    the fuel [scan_once] needs to read it back. *)
Fixpoint size (v : pyval) : nat :=
  match v with
  | PyList items | PyTuple items =>
      S ((fix go (l : list pyval) : nat :=
            match l with [] => O | x :: l' => S (size x) + go l' end) items)
  | PyDict items =>
      S ((fix go (l : list (string * pyval)) : nat :=
            match l with [] => O | (_, x) :: l' => S (size x) + go l' end) items)
  | _ => 1%nat
  end.

Fixpoint sizes (l : list pyval) : nat :=
  match l with [] => O | x :: l' => S (size x) + sizes l' end.

Fixpoint member_sizes (l : list (string * pyval)) : nat :=
  match l with [] => O | (_, x) :: l' => S (size x) + member_sizes l' end.

Fixpoint distinct (keys : list string) : bool :=
  match keys with
  | [] => true
  | k :: keys' => negb (existsb (String.eqb k) keys') && distinct keys'
  end.

(** A value whose dicts are dicts: no key twice, at any depth. *)
Fixpoint well_formed (v : pyval) : bool :=
  match v with
  | PyList items | PyTuple items =>
      (fix go (l : list pyval) : bool :=
         match l with [] => true | x :: l' => well_formed x && go l' end) items
  | PyDict items =>
      distinct (map fst items) &&
      (fix go (l : list (string * pyval)) : bool :=
         match l with [] => true | (_, x) :: l' => well_formed x && go l' end) items
  | _ => true
  end.

(** The characters a value can start with. *)
Definition value_start (c : ascii) : bool :=
  Ascii.eqb c quote || Ascii.eqb c "{" || Ascii.eqb c "[" || Ascii.eqb c "n"
  || Ascii.eqb c "t" || Ascii.eqb c "f" || Ascii.eqb c "-" || is_digit c.

(** What may follow a value in the text [encode] writes: the end, a comma,
    or a line break. *)
Definition terminated (rest : string) : Prop :=
  match rest with
  | EmptyString => True
  | String c _ => c = ","%char \/ c = newline
  end.

End Json.

(* ================================================================== *)
(** * [SEOAnalyzer] and [main] *)
(* ================================================================== *)

Module Analyzer.
Import PyStr.
Local Open Scope string_scope.
Local Open Scope Z_scope.

(** ** What the program does to the outside, and how it can stop *)

Inductive event :=
| Print (line : string)                      (* [print(line)] *)
| WriteFile (path : string) (content : string).
                                             (* [open(path, 'w')] and the text written *)

(** The exceptions a run can end with.  [LibraryError] is an exception
    that [requests] or the parser raises and that the program has no handler
    for, by its class name: [LocationParseError], [ParserRejectedMarkup]. *)
Inductive exn :=
| TypeError
| ValueError
| SystemExit (status : Z)
| LibraryError (name : string).

Inductive result (A : Type) :=
| Ok (a : A)
| Raised (e : exn).
Arguments Ok {A} a.
Arguments Raised {A} e.

(** A computation: the events so far, and a value or an uncaught exception. *)
Definition M (A : Type) : Type := list event * result A.

Definition ret {A} (a : A) : M A := ([], Ok a).

Definition bind {A B} (m : M A) (f : A -> M B) : M B :=
  match m with
  | (t, Ok a) => let (t', r) := f a in ((t ++ t')%list, r)
  | (t, Raised e) => (t, Raised e)
  end.

Definition raise {A} (e : exn) : M A := ([], Raised e).
Definition print (line : string) : M unit := ([Print line], Ok tt).
Definition write_file (path content : string) : M unit := ([WriteFile path content], Ok tt).

Notation "x <- m ;; k" := (bind m (fun x => k))
  (at level 61, m at next level, right associativity).
Notation "m ;; k" := (bind m (fun _ => k))
  (at level 61, right associativity).

(** [for x in xs: body(x)] *)
Fixpoint for_each {A} (xs : list A) (body : A -> M unit) : M unit :=
  match xs with
  | [] => ret tt
  | x :: xs' => body x ;; for_each xs' body
  end.

(** [enumerate(xs, start)] *)
Fixpoint enumerate {A} (start : Z) (xs : list A) : list (Z * A) :=
  match xs with
  | [] => []
  | x :: xs' => (start, x) :: enumerate (start + 1) xs'
  end.

(** ** The world the program runs in *)

Record response := {
  status_code : Z;
  reason : string;
  response_url : string;
  text : string
}.

Inductive request_error := ConnectionError | Timeout | OtherRequestException.

(** [requests.get(url, headers=headers, timeout=10)]: a [RequestException]
    with its message, a response, or an exception of another class, which
    the [except] clause of line 31 does not catch. *)
Inductive get_outcome :=
| GetRaises (kind : request_error) (message : string)
| GetReturns (r : response)
| GetCrashes (name : string).

(** [BeautifulSoup(html, 'html.parser')]: the tree, or the exception raised
    for markup the parser rejects. *)
Inductive parse_outcome :=
| Parsed (doc : Soup.soup)
| Rejected (name : string).

Record world := {
  argv : list string;                         (* [sys.argv] *)
  sys_version : string;                       (* [sys.version] *)
  clock : Z;                                  (* time of the run; never read *)
  urlparse : string -> option string;         (* [urlparse(u).netloc]; [None]: [ValueError] *)
  requests_get : string -> get_outcome;
  parse : string -> parse_outcome             (* [BeautifulSoup(html, 'html.parser')] *)
}.

(** The tree the parser builds; no node where it rejects the markup. *)
Definition html_parser (w : world) (html : string) : Soup.soup :=
  match parse w html with
  | Parsed doc => doc
  | Rejected _ => []
  end.

(** [response.raise_for_status()]: the message of the [HTTPError] raised for
    a 4xx or 5xx status, [None] when it returns. *)
Definition raise_for_status (r : response) : option string :=
  if (400 <=? status_code r) && (status_code r <? 500) then
    Some (str_int (status_code r) ++ " Client Error: " ++ reason r
          ++ " for url: " ++ response_url r)
  else if (500 <=? status_code r) && (status_code r <? 600) then
    Some (str_int (status_code r) ++ " Server Error: " ++ reason r
          ++ " for url: " ++ response_url r)
  else None.

(** ** The page data dict and the report dict *)

Record Image := { src : string; alt : string; has_alt : bool }.

Record Headings := { h1 : list string; h2 : list string; h3 : list string }.

Record PageData := {
  url : string;
  title : option string;
  title_length : Z;
  meta_description : option string;
  meta_desc_length : Z;
  meta_keywords : option string;
  headings : Headings;
  images : list Image;
  images_without_alt : Z;
  total_images : Z;
  keywords : list (string * Z);
  word_count : Z;
  has_structured_data : bool;
  structured_data_count : Z
}.

Record Report := {
  score : Z;
  issues : list string;
  recommendations : list string
}.

(** Truthiness of [s] where [s] is a [str] or [None]. *)
Definition truthy_opt (o : option string) : bool :=
  match o with Some s => truthy s | None => false end.

(** [len(l)] *)
Definition llen {A} (l : list A) : Z := Z.of_nat (List.length l).

(** ** [fetch_page] *)

Definition fetch_page (w : world) (url : string) : M (option string) :=
  match requests_get w url with
  | GetRaises _ e =>
      print ("Error fetching " ++ url ++ ": " ++ e) ;; ret None
  | GetReturns r =>
      match raise_for_status r with
      | Some e => print ("Error fetching " ++ url ++ ": " ++ e) ;; ret None
      | None => ret (Some (text r))
      end
  | GetCrashes name => raise (LibraryError name)
  end.

(** ** [analyze_page] *)

Definition heading_texts (name : string) (doc : Soup.soup) : list string :=
  map (fun h => strip (Soup.get_text h)) (Soup.find_all (Soup.named name) doc).

Definition image_of (img : Soup.node) : Image :=
  {| src := Soup.get_default (Soup.attrs_of img) "src" "";
     alt := Soup.get_default (Soup.attrs_of img) "alt" "";
     has_alt := truthy_opt (Soup.get (Soup.attrs_of img) "alt") |}.

(** [len(tag.get('content')) if tag else 0]: [len(None)] is a [TypeError]. *)
Definition content_length (tag : option Soup.node) : M Z :=
  match tag with
  | None => ret 0
  | Some t =>
      match Soup.get (Soup.attrs_of t) "content" with
      | Some c => ret (len c)
      | None => raise TypeError
      end
  end.

Definition content_of (tag : option Soup.node) : option string :=
  match tag with
  | None => None
  | Some t => Soup.get (Soup.attrs_of t) "content"
  end.

(** Lines 65-114: everything after the fetch. *)
Definition extract (u : string) (doc : Soup.soup) : M PageData :=
  let title := Soup.find (Soup.named "title") doc in
  let meta_desc := Soup.find (Soup.named_with "meta" "name" "description") doc in
  let meta_keywords := Soup.find (Soup.named_with "meta" "name" "keywords") doc in
  let headings :=
    {| h1 := heading_texts "h1" doc;
       h2 := heading_texts "h2" doc;
       h3 := heading_texts "h3" doc |} in
  let images := map image_of (Soup.find_all (Soup.named "img") doc) in
  let title_text := Soup.get_text_after ["script"; "style"] in
  let doc := Soup.decompose_all ["script"; "style"] doc in
  let text_content := Soup.get_text_all doc in
  let keywords := Keywords.extract_keywords text_content 3 50 in
  let structured_data :=
    Soup.find_all (Soup.named_with "script" "type" "application/ld+json") doc in
  meta_desc_length <- content_length meta_desc ;;
  ret {| url := u;
         title := option_map title_text title;
         title_length := match title with Some t => len (title_text t) | None => 0 end;
         meta_description := content_of meta_desc;
         meta_desc_length := meta_desc_length;
         meta_keywords := content_of meta_keywords;
         headings := headings;
         images := images;
         images_without_alt := llen (filter (fun img => negb (has_alt img)) images);
         total_images := llen images;
         keywords := keywords;
         word_count := llen (split text_content);
         has_structured_data := 0 <? llen structured_data;
         structured_data_count := llen structured_data |}.

(** Line 65: the parser's exception is not caught. *)
Definition BeautifulSoup (w : world) (html : string) : M Soup.soup :=
  match parse w html with
  | Parsed doc => ret doc
  | Rejected name => raise (LibraryError name)
  end.

Definition analyze_page (w : world) (u : string) : M (option PageData) :=
  html <- fetch_page w u ;;
  match html with
  | Some h =>
      if negb (truthy h) then ret None
      else
        soup <- BeautifulSoup w h ;;
        page_data <- extract u soup ;;
        ret (Some page_data)
  | None => ret None
  end.

(** ** [generate_seo_issues] *)

Definition title_issues (page_data : PageData) : list string :=
  if negb (truthy_opt (title page_data)) then
    ["Missing title tag"]
  else if title_length page_data <? 30 then
    ["Title too short (" ++ str_int (title_length page_data)
       ++ " chars). Aim for 30-60 characters"]
  else if title_length page_data >? 60 then
    ["Title too long (" ++ str_int (title_length page_data)
       ++ " chars). Aim for 30-60 characters"]
  else [].

Definition meta_issues (page_data : PageData) : list string :=
  if negb (truthy_opt (meta_description page_data)) then
    ["Missing meta description"]
  else if meta_desc_length page_data <? 120 then
    ["Meta description too short (" ++ str_int (meta_desc_length page_data)
       ++ " chars). Aim for 120-160 characters"]
  else if meta_desc_length page_data >? 160 then
    ["Meta description too long (" ++ str_int (meta_desc_length page_data)
       ++ " chars). Aim for 120-160 characters"]
  else [].

Definition heading_issues (page_data : PageData) : list string :=
  match h1 (headings page_data) with
  | [] => ["Missing H1 tag"]
  | hs =>
      if llen hs >? 1 then
        ["Multiple H1 tags (" ++ str_int (llen hs) ++ "). Use only one H1 per page"]
      else []
  end.

Definition image_issues (page_data : PageData) : list string :=
  if images_without_alt page_data >? 0 then
    [str_int (images_without_alt page_data) ++ " images missing alt text"]
  else [].

Definition content_issues (page_data : PageData) : list string :=
  if word_count page_data <? 300 then
    ["Low word count (" ++ str_int (word_count page_data)
       ++ "). Aim for at least 300 words"]
  else [].

Definition it_keywords : list string :=
  ["computer"; "repair"; "support"; "network"; "security"; "managed";
   "services"; "business"; "wichita"].

Definition structured_data_recommendations (page_data : PageData) : list string :=
  if negb (has_structured_data page_data) then
    ["Add structured data (JSON-LD) for better search visibility"]
  else [].

Definition keyword_recommendations (page_data : PageData) : list string :=
  let found_keywords := map fst (firstn 10 (keywords page_data)) in
  let missing_it_keywords :=
    filter (fun kw => negb (contains (join " " found_keywords) kw)) it_keywords in
  match missing_it_keywords with
  | [] => []
  | _ => ["Consider adding IT-related keywords: "
            ++ join ", " (firstn 5 missing_it_keywords)]
  end.

(** The five checks append to [issues] in this order, the two
    recommendation rules to [recommendations]. *)
Definition generate_seo_issues (page_data : PageData) : list string * list string :=
  ((title_issues page_data ++ meta_issues page_data ++ heading_issues page_data
    ++ image_issues page_data ++ content_issues page_data)%list,
   (structured_data_recommendations page_data ++ keyword_recommendations page_data)%list).

(** ** [generate_report] *)

Fixpoint repeat_string (s : string) (n : nat) : string :=
  match n with O => EmptyString | S n' => s ++ repeat_string s n' end.

Definition nl : string := String "010"%char EmptyString.

Definition print_heading_level (level : string) (hs : list string) : M unit :=
  print (upper level ++ ": " ++ str_int (llen hs) ++ " tags") ;;
  for_each (firstn 3 hs) (fun heading => print ("  - " ++ take 60 heading ++ "...")).

Definition print_numbered (items : list string) : M unit :=
  for_each (enumerate 1 items)
    (fun '(i, item) => print (str_int_2d i ++ ". " ++ item)).

(** Lines 208-211. *)
Definition seo_score (issues : list string) : Z :=
  let score := 100 in
  let score := score - llen issues * 10 in
  Z.max 0 score.

Definition generate_report (page_data : PageData) : M Report :=
  let (issues, recommendations) := generate_seo_issues page_data in
  print (repeat_string "=" 70) ;;
  print ("SEO ANALYSIS REPORT FOR: " ++ url page_data) ;;
  print (repeat_string "=" 70) ;;
  print (nl ++ "BASIC INFO:") ;;
  print ("Title: " ++ str_opt (title page_data)) ;;
  print ("Title Length: " ++ str_int (title_length page_data) ++ " characters") ;;
  print ("Meta Description: " ++ str_opt (meta_description page_data)) ;;
  print ("Meta Description Length: " ++ str_int (meta_desc_length page_data)
         ++ " characters") ;;
  print ("Word Count: " ++ str_int (word_count page_data)) ;;
  print (nl ++ "HEADINGS:") ;;
  print_heading_level "h1" (h1 (headings page_data)) ;;
  print_heading_level "h2" (h2 (headings page_data)) ;;
  print_heading_level "h3" (h3 (headings page_data)) ;;
  print (nl ++ "IMAGES:") ;;
  print ("Total Images: " ++ str_int (total_images page_data)) ;;
  print ("Images Without Alt Text: " ++ str_int (images_without_alt page_data)) ;;
  print (nl ++ "TOP 10 KEYWORDS:") ;;
  for_each (enumerate 1 (firstn 10 (keywords page_data)))
    (fun '(i, (keyword, count)) =>
       print (str_int_2d i ++ ". " ++ keyword ++ " (" ++ str_int count ++ " times)")) ;;
  print (nl ++ "STRUCTURED DATA:") ;;
  print ("Has Structured Data: " ++ str_bool (has_structured_data page_data)) ;;
  print ("Structured Data Blocks: " ++ str_int (structured_data_count page_data)) ;;
  match issues with
  | [] => ret tt
  | _ => print (nl ++ "ISSUES TO FIX:") ;; print_numbered issues
  end ;;
  match recommendations with
  | [] => ret tt
  | _ => print (nl ++ "RECOMMENDations:") ;; print_numbered recommendations
  end ;;
  let score := seo_score issues in
  print (nl ++ "SEO SCORE: " ++ str_int score ++ "/100") ;;
  print (repeat_string "=" 70) ;;
  ret {| score := score; issues := issues; recommendations := recommendations |}.

(** ** The dicts as [json.dump] sees them *)

Import Json.

Definition opt_value (o : option string) : pyval :=
  match o with Some s => PyStr s | None => PyNone end.

Definition image_value (img : Image) : pyval :=
  PyDict [("src", PyStr (src img)); ("alt", PyStr (alt img)); ("has_alt", PyBool (has_alt img))].

Definition keyword_value (kw : string * Z) : pyval :=
  PyTuple [PyStr (fst kw); PyInt (snd kw)].

Definition page_data_value (page_data : PageData) : pyval :=
  PyDict
    [("url", PyStr (url page_data));
     ("title", opt_value (title page_data));
     ("title_length", PyInt (title_length page_data));
     ("meta_description", opt_value (meta_description page_data));
     ("meta_desc_length", PyInt (meta_desc_length page_data));
     ("meta_keywords", opt_value (meta_keywords page_data));
     ("headings",
      PyDict [("h1", PyList (map PyStr (h1 (headings page_data))));
              ("h2", PyList (map PyStr (h2 (headings page_data))));
              ("h3", PyList (map PyStr (h3 (headings page_data))))]);
     ("images", PyList (map image_value (images page_data)));
     ("images_without_alt", PyInt (images_without_alt page_data));
     ("total_images", PyInt (total_images page_data));
     ("keywords", PyList (map keyword_value (keywords page_data)));
     ("word_count", PyInt (word_count page_data));
     ("has_structured_data", PyBool (has_structured_data page_data));
     ("structured_data_count", PyInt (structured_data_count page_data))].

Definition report_value (report : Report) : pyval :=
  PyDict
    [("score", PyInt (score report));
     ("issues", PyList (map PyStr (issues report)));
     ("recommendations", PyList (map PyStr (recommendations report)))].

(** The dict literal of lines 242-246. *)
Definition artifact (w : world) (page_data : PageData) (report : Report) : pyval :=
  PyDict
    [("analysis_date", PyStr (sys_version w));
     ("page_data", page_data_value page_data);
     ("report", report_value report)].

(** ** [main] *)

Definition main (w : world) : M unit :=
  match argv w with
  | [_; u] =>
      match urlparse w u with
      | None => raise ValueError
      | Some _ =>
          print ("Analyzing website: " ++ u) ;;
          print "Please wait..." ;;
          page_data <- analyze_page w u ;;
          match page_data with
          | Some page_data =>
              report <- generate_report page_data ;;
              write_file "seo_analysis.json" (dumps (artifact w page_data report)) ;;
              print (nl ++ "Detailed results saved to: seo_analysis.json")
          | None =>
              print "Failed to analyze the website. Check the URL and try again."
          end
      end
  | _ =>
      print "Usage: python3 seo_analyzer.py <website_url>" ;;
      print "Example: python3 seo_analyzer.py https://wichitacomputersolutions.com" ;;
      raise (SystemExit 1)
  end.

End Analyzer.

(* ================================================================== *)
(** * The keyword ranker: as the specification describes it, and as the pattern reads *)
(* ================================================================== *)

Module KeywordSpec.
Import PyStr.

(** The longest prefix of characters of class [p], and what follows. *)
Fixpoint span (p : ascii -> bool) (s : string) : string * string :=
  match s with
  | String c s' =>
      if p c then let (l, rest) := span p s' in (String c l, rest)
      else (EmptyString, s)
  | EmptyString => (EmptyString, EmptyString)
  end.

(** The string starts with a character of class [p]. *)
Definition starts_with_class (p : ascii -> bool) (s : string) : bool :=
  match s with String c _ => p c | EmptyString => false end.

(** The first character, if any, and what follows it. *)
Definition head_char (s : string) : option ascii :=
  match s with String c _ => Some c | EmptyString => None end.

Definition drop_first (s : string) : string :=
  match s with String _ s' => s' | EmptyString => EmptyString end.

(** A word with the character U+0008 after it. *)
Definition marked (w : string) : string :=
  (w ++ String Re.backspace EmptyString)%string.

(** The character U+0008 does not occur in the string. *)
Fixpoint no_backspace (s : string) : bool :=
  match s with
  | EmptyString => true
  | String c s' => negb (Re.is_char Re.backspace c) && no_backspace s'
  end.

(** The maximal runs of characters of class [p], in order. *)
Fixpoint runs (p : ascii -> bool) (s : string) : list string :=
  match s with
  | EmptyString => []
  | String c s' =>
      if p c then
        match s' with
        | String c' _ =>
            if p c' then
              match runs p s' with
              | r :: rs => String c r :: rs
              | [] => [String c EmptyString]
              end
            else String c EmptyString :: runs p s'
        | EmptyString => [String c EmptyString]
        end
      else runs p s'
  end.

(** The maximal runs of characters of class [p], in order, each with the
    character that follows it. *)
Fixpoint runs_next (p : ascii -> bool) (s : string) : list (string * option ascii) :=
  match s with
  | EmptyString => []
  | String c s' =>
      if p c then
        match s' with
        | String c' _ =>
            if p c' then
              match runs_next p s' with
              | (r, next) :: rs => (String c r, next) :: rs
              | [] => [(String c EmptyString, None)]
              end
            else (String c EmptyString, Some c') :: runs_next p s'
        | EmptyString => [(String c EmptyString, None)]
        end
      else runs_next p s'
  end.

Fixpoint all_chars (p : ascii -> bool) (s : string) : bool :=
  match s with
  | EmptyString => true
  | String c s' => p c && all_chars p s'
  end.

(** The text the tokens are read from: tags replaced, lowercased, white
    space collapsed. *)
Definition normalize (text : string) : string :=
  Re.sub Re.ws_re " " (lower (Re.sub Re.tag_re " " text)).

(** Tokens as the specification words them: the runs of letters a-z that
    are at least [min_length] long. *)
Definition letter_runs (min_length : nat) (s : string) : list string :=
  filter (fun w => (min_length <=? String.length w)%nat) (runs is_az s).

(** A run of word characters (letters, digits, underscore) that is made of
    letters a-z only and is at least [min_length] long. *)
Definition is_token (min_length : nat) (w : string) : bool :=
  all_chars is_az w && (min_length <=? String.length w)%nat.

(** The run is directly followed by the character U+0008. *)
Definition followed_by_backspace (next : option ascii) : bool :=
  match next with
  | Some c => Re.is_char Re.backspace c
  | None => false
  end.

(** What the pattern of line 53 finds: the runs of word characters that are
    made of letters a-z only, are at least [min_length] long and are
    directly followed by the character U+0008, each with that character. *)
Definition backspace_tokens (min_length : nat) (s : string) : list string :=
  map (fun r => marked (fst r))
      (filter (fun r => is_token min_length (fst r) && followed_by_backspace (snd r))
              (runs_next is_word s)).

Definition drop_stop_words (tokens : list string) : list string :=
  filter (fun w => negb (Keywords.mem w Keywords.stop_words)) tokens.

(** The distinct tokens, each at the place of its first occurrence. *)
Fixpoint first_occurrences (tokens : list string) : list string :=
  match tokens with
  | [] => []
  | w :: tokens' =>
      w :: filter (fun x => negb (String.eqb x w)) (first_occurrences tokens')
  end.

Definition occurrences (w : string) (tokens : list string) : Z :=
  Z.of_nat (count_occ string_dec tokens w).

Definition count_tokens (tokens : list string) : list (string * Z) :=
  map (fun w => (w, occurrences w tokens)) (first_occurrences tokens).

(** The entry with the greatest count among [x :: l], the earliest one
    when several share it. *)
Fixpoint best (x : string * Z) (l : list (string * Z)) : string * Z :=
  match l with
  | [] => x
  | y :: l' => if (snd x <? snd y)%Z then best y l' else best x l'
  end.

Definition entry_eqb (a b : string * Z) : bool :=
  String.eqb (fst a) (fst b) && (snd a =? snd b)%Z.

Fixpoint remove_first (e : string * Z) (l : list (string * Z)) : list (string * Z) :=
  match l with
  | [] => []
  | y :: l' => if entry_eqb y e then l' else y :: remove_first e l'
  end.

(** The top [n] by descending count, ties in the order of the list: take the
    best entry, then the top [n - 1] of the others. *)
Fixpoint top (n : nat) (l : list (string * Z)) : list (string * Z) :=
  match n with
  | O => []
  | S n' =>
      match l with
      | [] => []
      | x :: l' => best x l' :: top n' (remove_first (best x l') l)
      end
  end.

(** The ranker with tokens read as runs of letters. *)
Definition rank_letter_runs (text : string) : list (string * Z) :=
  top 50 (count_tokens (drop_stop_words (letter_runs 3 (normalize text)))).

(** The ranker as the code has it: the tokens are the letter runs followed
    by U+0008, with that character; none of them is a stop word. *)
Definition rank_backspace_tokens (text : string) : list (string * Z) :=
  top 50 (count_tokens (backspace_tokens 3 (normalize text))).

End KeywordSpec.

(* ================================================================== *)
(** * The issue messages, as the claims name them *)
(* ================================================================== *)

Module Messages.
Import PyStr.
Local Open Scope string_scope.

Definition missing_title : string := "Missing title tag".
Definition title_too_short (n : Z) : string :=
  "Title too short (" ++ str_int n ++ " chars). Aim for 30-60 characters".
Definition title_too_long (n : Z) : string :=
  "Title too long (" ++ str_int n ++ " chars). Aim for 30-60 characters".
Definition missing_meta_description : string := "Missing meta description".
Definition meta_too_short (n : Z) : string :=
  "Meta description too short (" ++ str_int n ++ " chars). Aim for 120-160 characters".
Definition meta_too_long (n : Z) : string :=
  "Meta description too long (" ++ str_int n ++ " chars). Aim for 120-160 characters".
Definition images_missing_alt (n : Z) : string :=
  str_int n ++ " images missing alt text".
Definition low_word_count (n : Z) : string :=
  "Low word count (" ++ str_int n ++ "). Aim for at least 300 words".

(** A message of the title-length check, of either kind. *)
Definition is_title_length_issue (s : string) : bool := starts_with "Title too " s.
(** A message of the meta-description-length check, of either kind. *)
Definition is_meta_length_issue (s : string) : bool :=
  starts_with "Meta description too " s.

End Messages.

(* ================================================================== *)
(** * Running computations *)
(* ================================================================== *)

Module Run.
Import Analyzer.

(** The events of a computation, and how it ended. *)
Definition trace {A} (m : M A) : list event := fst m.
Definition outcome {A} (m : M A) : result A := snd m.

Definition is_write (e : event) : bool :=
  match e with WriteFile _ _ => true | Print _ => false end.

(** The files written, in order. *)
Definition writes {A} (m : M A) : list event := filter is_write (trace m).

Definition printed {A} (line : string) (m : M A) : Prop := In (Print line) (trace m).

End Run.

(* ================================================================== *)
(** * Pages, as the claims describe them *)
(* ================================================================== *)

Module PageSpec.
Import PyStr Analyzer.

(** The [img]'s alt attribute is present and is not the empty string. *)
Definition alt_nonempty (img : Soup.node) : bool :=
  match Soup.get (Soup.attrs_of img) "alt" with
  | Some v => negb (String.eqb v "")
  | None => false
  end.

(** The document's [img] elements, in document order. *)
Definition imgs (doc : Soup.soup) : list Soup.node :=
  Soup.find_all (Soup.named "img") doc.

(** The title is present: the check of line 122 lets it through. *)
Definition title_present (page_data : PageData) : Prop :=
  exists t, title page_data = Some t /\ t <> EmptyString.

(** The issues of a page. *)
Definition issues_of (page_data : PageData) : list string :=
  fst (generate_seo_issues page_data).

(** [extract] returned this page data. *)
Definition extracted (u : string) (doc : Soup.soup) (page_data : PageData) : Prop :=
  snd (extract u doc) = Ok page_data.

End PageSpec.

(* ================================================================== *)
(** * Sample pages and worlds *)
(* ================================================================== *)

Module Samples.
Import PyStr Analyzer Soup.
Local Open Scope string_scope.

Definition sample_url : string := "https://example.test/".

Definition empty_page : PageData :=
  {| url := ""; title := None; title_length := 0; meta_description := None;
     meta_desc_length := 0; meta_keywords := None;
     headings := {| h1 := []; h2 := []; h3 := [] |};
     images := []; images_without_alt := 0; total_images := 0; keywords := [];
     word_count := 0; has_structured_data := false; structured_data_count := 0 |}.

(** The page data [extract] returns for a document. *)
Definition page_of (doc : soup) : PageData :=
  match snd (extract sample_url doc) with
  | Ok page_data => page_data
  | Raised _ => empty_page
  end.

Definition line_break : node := NavigableString nl.

(** A small page with the given [head] elements. *)
Definition page_with_head (head : list node) : soup :=
  [Tag "html" []
     [Tag "head" [] head; line_break;
      Tag "body" []
        [Tag "h1" [] [NavigableString "Computer repair"]; line_break;
         Tag "p" [] [NavigableString "Network support and security for business."]]]].

Definition title_tag (t : string) : node := Tag "title" [] [NavigableString t].

Definition meta_description_tag (content : string) : node :=
  Tag "meta" [("name", "description"); ("content", content)] [].

Definition title_29 : string := "Computer Repair in Wichita KS".
Definition title_44 : string := "Wichita Computer Solutions | Managed IT Help".
Definition title_61 : string :=
  "Wichita Computer Solutions | Managed IT Services and Support!".

Definition doc_title_29 : soup := page_with_head [title_tag title_29].
Definition doc_title_44 : soup := page_with_head [title_tag title_44].
Definition doc_title_61 : soup := page_with_head [title_tag title_61].
Definition doc_no_title : soup := page_with_head [meta_description_tag "IT support"].
Definition doc_empty_title : soup := page_with_head [Tag "title" [] []].
Definition doc_empty_meta : soup :=
  page_with_head [title_tag title_44; meta_description_tag ""].

(** Three images: one with alt text, one with an empty alt, one without. *)
Definition doc_three_images : soup :=
  [Tag "body" []
     [Tag "img" [("src", "logo.png"); ("alt", "Company logo")] [];
      Tag "img" [("src", "spacer.gif"); ("alt", "")] [];
      Tag "p" [] [Tag "img" [("src", "team.jpg")] []]]].

(** The page of the end-to-end example: the title, one H1, two images of
    which one has no alt text, 250 words in all, a JSON-LD free body. *)
Definition prose (words : nat) : string := repeat_string "service " words.

Definition doc_end_to_end : soup :=
  [Tag "html" []
     [Tag "head" [] [title_tag "Home | IT Support Wichita"]; line_break;
      Tag "body" []
        [Tag "h1" [] [NavigableString "Welcome"]; line_break;
         Tag "img" [("src", "logo.png"); ("alt", "Company logo")] [];
         Tag "img" [("src", "team.jpg")] [];
         Tag "p" [] [NavigableString (prose 244)]]]].

Definition ok_response (body : string) (status : Z) (why : string) : response :=
  {| status_code := status; reason := why; response_url := sample_url; text := body |}.

(** A world where the page is fetched with the given outcome and parses to
    [doc]. *)
Definition world_with (fetched : get_outcome) (doc : soup) (time : Z) : world :=
  {| argv := ["seo_analyzer.py"; sample_url];
     sys_version := "3.11.4 (main, Jun  7 2023, 10:13:09) [GCC 12.2.0]";
     clock := time;
     urlparse := fun _ => Some "example.test";
     requests_get := fun _ => fetched;
     parse := fun _ => Parsed doc |}.

Definition world_ok : world :=
  world_with (GetReturns (ok_response "<html>...</html>" 200 "OK")) doc_end_to_end 1700000000.

Definition world_later : world :=
  world_with (GetReturns (ok_response "<html>...</html>" 200 "OK")) doc_end_to_end 1800000000.

Definition world_timeout : world :=
  world_with (GetRaises Timeout "Read timed out. (read timeout=10)") doc_end_to_end 1700000000.

Definition world_refused : world :=
  world_with (GetRaises ConnectionError "Connection refused") doc_end_to_end 1700000000.

Definition world_404 : world :=
  world_with (GetReturns (ok_response "<html>not here</html>" 404 "Not Found"))
             doc_end_to_end 1700000000.

Definition world_300 : world :=
  world_with (GetReturns (ok_response "<html>choices</html>" 300 "Multiple Choices"))
             doc_end_to_end 1700000000.

End Samples.

(* ================================================================== *)
(** * Runs, as the claims describe them *)
(* ================================================================== *)

Module RunSpec.
Import PyStr Analyzer Run.
Local Open Scope string_scope.
Local Open Scope Z_scope.

(** The fetch fails as [requests] sees it: [requests.get] raises a
    [RequestException] (transport error, timeout, ...) or the status is 4xx
    or 5xx, for which [raise_for_status] raises one. *)
Definition fetch_raises (o : get_outcome) : Prop :=
  match o with
  | GetRaises _ _ => True
  | GetReturns r => 400 <= status_code r < 600
  | GetCrashes _ => False
  end.

(** The fetch fails as the specification words it: a transport error, a
    timeout, or a status outside 200..299. *)
Definition fetch_fails_by_status (o : get_outcome) : Prop :=
  match o with
  | GetRaises _ _ => True
  | GetReturns r => ~ (200 <= status_code r < 300)
  | GetCrashes _ => True
  end.

(** The first line of the printed report. *)
Definition report_banner : string := repeat_string "=" 70.

Definition output_file : string := "seo_analysis.json".

(** The same world at another time. *)
Definition at_time (t : Z) (w : world) : world :=
  {| argv := argv w; sys_version := sys_version w; clock := t;
     urlparse := urlparse w; requests_get := requests_get w;
     parse := parse w |}.

(** The value stored under [key] in a dict. *)
Fixpoint field (key : string) (items : list (string * Json.pyval)) : option Json.pyval :=
  match items with
  | [] => None
  | (k, v) :: items' => if String.eqb k key then Some v else field key items'
  end.

Definition dict_field (key : string) (v : Json.pyval) : option Json.pyval :=
  match v with Json.PyDict items => field key items | _ => None end.

End RunSpec.

(* ================================================================== *)
(** * The artifact, as it is read back *)
(* ================================================================== *)

Module ArtifactSpec.
Import PyStr Analyzer Json.
Local Open Scope string_scope.

(** A keyword pair as a two-element list. *)
Definition keyword_list (kw : string * Z) : pyval :=
  PyList [PyStr (fst kw); PyInt (snd kw)].

(** The page data with every keyword pair a list instead of a tuple, all
    else as in memory. *)
Definition page_data_read_back (page_data : PageData) : pyval :=
  PyDict
    [("url", PyStr (url page_data));
     ("title", opt_value (title page_data));
     ("title_length", PyInt (title_length page_data));
     ("meta_description", opt_value (meta_description page_data));
     ("meta_desc_length", PyInt (meta_desc_length page_data));
     ("meta_keywords", opt_value (meta_keywords page_data));
     ("headings",
      PyDict [("h1", PyList (map PyStr (h1 (headings page_data))));
              ("h2", PyList (map PyStr (h2 (headings page_data))));
              ("h3", PyList (map PyStr (h3 (headings page_data))))]);
     ("images", PyList (map image_value (images page_data)));
     ("images_without_alt", PyInt (images_without_alt page_data));
     ("total_images", PyInt (total_images page_data));
     ("keywords", PyList (map keyword_list (keywords page_data)));
     ("word_count", PyInt (word_count page_data));
     ("has_structured_data", PyBool (has_structured_data page_data));
     ("structured_data_count", PyInt (structured_data_count page_data))].

Definition artifact_read_back (w : world) (page_data : PageData) (report : Report) : pyval :=
  PyDict
    [("analysis_date", PyStr (sys_version w));
     ("page_data", page_data_read_back page_data);
     ("report", report_value report)].

(** The report [generate_report] returns for a page. *)
Definition report_of (page_data : PageData) : Report :=
  match snd (generate_report page_data) with
  | Ok report => report
  | Raised _ => {| score := 0; issues := []; recommendations := [] |}
  end.

End ArtifactSpec.

(* ================================================================== *)
(** * A page with a JSON-LD block *)
(* ================================================================== *)

Module StructuredDataSample.
Import Analyzer Soup.
Local Open Scope string_scope.

Definition structured_data_recommendation : string :=
  "Add structured data (JSON-LD) for better search visibility".

(** The number of JSON-LD blocks of the document as parsed. *)
Definition json_ld_blocks (doc : soup) : list node :=
  find_all (named_with "script" "type" "application/ld+json") doc.

Definition doc_with_json_ld : soup :=
  [Tag "html" []
     [Tag "head" []
        [Samples.title_tag Samples.title_44;
         Tag "script" [("type", "application/ld+json")]
           [ContainerString "script" "{ }"]];
      Tag "body" [] [Tag "h1" [] [NavigableString "Computer repair"]]]].

End StructuredDataSample.

(* ================================================================== *)
(** * More vocabulary for the issue engine and the runs *)
(* ================================================================== *)

Module CheckSpec.
Import PyStr Analyzer.
Local Open Scope string_scope.
Local Open Scope Z_scope.

Definition missing_h1 : string := "Missing H1 tag".
Definition multiple_h1 (n : Z) : string :=
  "Multiple H1 tags (" ++ str_int n ++ "). Use only one H1 per page".

(** A message of the H1 check, of either kind. *)
Definition is_h1_issue (s : string) : bool :=
  starts_with "Missing H1" s || starts_with "Multiple H1" s.

(** The meta description is present: the check of line 130 lets it through. *)
Definition meta_present (page_data : PageData) : Prop :=
  exists d, meta_description page_data = Some d /\ d <> EmptyString.

(** The page passes every check of the issue engine. *)
Definition passes_all (page_data : PageData) : Prop :=
  (exists t, title page_data = Some t /\ t <> EmptyString) /\
  30 <= title_length page_data <= 60 /\
  (exists d, meta_description page_data = Some d /\ d <> EmptyString) /\
  120 <= meta_desc_length page_data <= 160 /\
  List.length (h1 (headings page_data)) = 1%nat /\
  images_without_alt page_data <= 0 /\
  300 <= word_count page_data.

(** A page that passes every check. *)
Definition good_page : PageData :=
  {| url := "https://example.test/";
     title := Some "Wichita Computer Solutions | Managed IT Help";
     title_length := 44;
     meta_description :=
       Some ("Wichita Computer Solutions offers computer repair, network support, "
             ++ "security and managed services for local business customers.");
     meta_desc_length := 127;
     meta_keywords := None;
     headings := {| h1 := ["Computer repair"]; h2 := []; h3 := [] |};
     images := [{| src := "logo.png"; alt := "Company logo"; has_alt := true |}];
     images_without_alt := 0;
     total_images := 1;
     keywords := [("computer", 4); ("repair", 3)];
     word_count := 420;
     has_structured_data := false;
     structured_data_count := 0 |}.

(** The same page with other headings, description and word count. *)
Definition with_h1 (hs : list string) (page_data : PageData) : PageData :=
  {| url := url page_data; title := title page_data;
     title_length := title_length page_data;
     meta_description := meta_description page_data;
     meta_desc_length := meta_desc_length page_data;
     meta_keywords := meta_keywords page_data;
     headings := {| h1 := hs; h2 := h2 (headings page_data); h3 := h3 (headings page_data) |};
     images := images page_data;
     images_without_alt := images_without_alt page_data;
     total_images := total_images page_data;
     keywords := keywords page_data;
     word_count := word_count page_data;
     has_structured_data := has_structured_data page_data;
     structured_data_count := structured_data_count page_data |}.

Definition with_meta (d : option string) (n : Z) (page_data : PageData) : PageData :=
  {| url := url page_data; title := title page_data;
     title_length := title_length page_data;
     meta_description := d;
     meta_desc_length := n;
     meta_keywords := meta_keywords page_data;
     headings := headings page_data;
     images := images page_data;
     images_without_alt := images_without_alt page_data;
     total_images := total_images page_data;
     keywords := keywords page_data;
     word_count := word_count page_data;
     has_structured_data := has_structured_data page_data;
     structured_data_count := structured_data_count page_data |}.

Definition with_keywords (kws : list (string * Z)) (page_data : PageData) : PageData :=
  {| url := url page_data; title := title page_data;
     title_length := title_length page_data;
     meta_description := meta_description page_data;
     meta_desc_length := meta_desc_length page_data;
     meta_keywords := meta_keywords page_data;
     headings := headings page_data;
     images := images page_data;
     images_without_alt := images_without_alt page_data;
     total_images := total_images page_data;
     keywords := kws;
     word_count := word_count page_data;
     has_structured_data := has_structured_data page_data;
     structured_data_count := structured_data_count page_data |}.

End CheckSpec.

(* ================================================================== *)
(** * More sample pages and worlds *)
(* ================================================================== *)

Module RunSamples.
Import PyStr Analyzer Soup.
Local Open Scope string_scope.

(** A description tag without a [content] attribute. *)
Definition bare_description_tag : node := Tag "meta" [("name", "description")] [].

(** A keywords tag without a [content] attribute. *)
Definition bare_keywords_tag : node := Tag "meta" [("name", "keywords")] [].

Definition doc_bare_description : soup :=
  Samples.page_with_head [Samples.title_tag Samples.title_44; bare_description_tag].

Definition doc_bare_keywords : soup :=
  Samples.page_with_head [Samples.title_tag Samples.title_44; bare_keywords_tag].

Definition world_bare_description : world :=
  Samples.world_with
    (GetReturns (Samples.ok_response "<html>...</html>" 200 "OK"))
    doc_bare_description 1700000000.

Definition world_empty_body : world :=
  Samples.world_with (GetReturns (Samples.ok_response "" 204 "No Content"))
    Samples.doc_end_to_end 1700000000.

Definition world_no_argument : world :=
  {| argv := ["seo_analyzer.py"];
     sys_version := "3.11.4";
     clock := 1700000000;
     urlparse := fun _ => Some "example.test";
     requests_get :=
       fun _ => GetReturns (Samples.ok_response "<html>...</html>" 200 "OK");
     parse := fun _ => Parsed Samples.doc_end_to_end |}.

Definition usage_lines : list event :=
  [Print "Usage: python3 seo_analyzer.py <website_url>";
   Print "Example: python3 seo_analyzer.py https://wichitacomputersolutions.com"].

Definition failure_notice : event :=
  Print "Failed to analyze the website. Check the URL and try again.".

End RunSamples.

(* ================================================================== *)
(** * The keyword gap, term by term *)
(* ================================================================== *)

Module GapSpec.
Import PyStr Analyzer.
Local Open Scope string_scope.

(** The terms of the ten top-ranked keywords. *)
Definition top_terms (page_data : PageData) : list string :=
  map fst (firstn 10 (keywords page_data)).

(** A target term is covered when one of the top terms contains it. *)
Definition covered (page_data : PageData) (target : string) : bool :=
  existsb (fun k => contains k target) (top_terms page_data).

Definition missing_targets (page_data : PageData) : list string :=
  filter (fun target => negb (covered page_data target)) it_keywords.

Definition gap_message (missing : list string) : string :=
  "Consider adding IT-related keywords: " ++ join ", " (firstn 5 missing).

(** No space in the string. *)
Fixpoint no_space (s : string) : bool :=
  match s with
  | EmptyString => true
  | String c s' => negb (Ascii.eqb c " ") && no_space s'
  end.

(** A page whose keywords are all beyond rank ten except ten fillers. *)
Definition fillers : list (string * Z) :=
  [("alpha", 9%Z); ("bravo", 9%Z); ("charlie", 9%Z); ("delta", 9%Z); ("echo", 9%Z);
   ("foxtrot", 9%Z); ("golf", 9%Z); ("hotel", 9%Z); ("india", 9%Z); ("juliett", 9%Z)].

End GapSpec.

(* ================================================================== *)
(** * The counts before the ranking *)
(* ================================================================== *)

Module RankSpec.
Import PyStr Keywords.

(** The tokens of lines 38-54: after normalisation, matching and the stop
    word filter. *)
Definition tokens_of (text : string) (min_length : nat) : list string :=
  filter (fun word => negb (mem word stop_words))
    (Re.findall (Re.word_re min_length)
       (Re.sub Re.ws_re " " (lower (Re.sub Re.tag_re " " text)))).

(** [Counter(words)] of line 57, before [most_common]. *)
Definition all_counts (text : string) (min_length : nat) : counter :=
  Counter (tokens_of text min_length).

End RankSpec.

(* ================================================================== *)
(** * Letter case and the visible text *)
(* ================================================================== *)

Module TextSpec.
Import PyStr Re Soup.
Local Open Scope string_scope.

(** A match, with both parts in small letters. *)
Definition lower_match (r : option (string * string)) : option (string * string) :=
  match r with
  | Some (m, rest) => Some (lower m, lower rest)
  | None => None
  end.

(** A pattern without [\b] whose classes do not tell a capital from its
    small letter. *)
Fixpoint caseless (p : regex) : Prop :=
  match p with
  | [] => True
  | Chr c :: k => (forall a, c (lower_char a) = c a) /\ caseless k
  | Rep _ c :: k => (forall a, c (lower_char a) = c a) /\ caseless k
  | WordBoundary :: _ => False
  end.

(** The strings of class [NavigableString] below a node that lie in no
    element with one of the names, concatenated. *)
Fixpoint visible_text (names : list string) (n : node) : string :=
  match n with
  | NavigableString s => s
  | Comment _ => EmptyString
  | ContainerString _ _ => EmptyString
  | Tag name _ contents =>
      if existsb (String.eqb name) names then EmptyString
      else (fix go (l : list node) : string :=
              match l with
              | [] => EmptyString
              | c :: l' => visible_text names c ++ go l'
              end) contents
  end.

Fixpoint visible_text_all (names : list string) (doc : soup) : string :=
  match doc with
  | [] => EmptyString
  | c :: doc' => visible_text names c ++ visible_text_all names doc'
  end.

(** The elements with one of the names hold no string of class
    [NavigableString]: so the parser builds [script] and [style], whose
    text it reads as one string of their own class. *)
Definition hold_no_text (names : list string) (doc : soup) : Prop :=
  forall t, In t (descendants doc) -> matches (named_any names) t = true ->
            strings None t = EmptyString.

(** A page with a script and a style in the head, a script inside the
    first heading, a comment, a template and a script in the body.  Two
    words of the paragraph, one of a script and one of the template are
    followed by the character U+0008. *)
Definition doc_with_scripts : soup :=
  [Tag "html" []
     [Tag "head" []
        [Tag "title" [] [NavigableString "Network repair"]; Samples.line_break;
         Tag "script" [] [ContainerString "script" "var support = 1;"];
         Tag "style" [] [ContainerString "style" "body { security: none }"]];
      Samples.line_break;
      Tag "body" []
        [Tag "h1" [] [NavigableString "Repair ";
                      Tag "script" [] [ContainerString "script" "track()"]];
         Comment " managed services ";
         Tag "p" []
           [NavigableString
              (" and " ++ KeywordSpec.marked "network" ++ " "
               ++ KeywordSpec.marked "repair")];
         Tag "template" []
           [Tag "p" [] [ContainerString "template" (KeywordSpec.marked "security")]];
         Tag "script" []
           [ContainerString "script" (KeywordSpec.marked "business" ++ " wichita")]]]].

End TextSpec.

(* ================================================================== *)
(** * The printed report, line by line *)
(* ================================================================== *)

Module ReportSpec.
Import PyStr Analyzer.
Local Open Scope string_scope.

Definition banner : string := repeat_string "=" 70.

(** The lines of one heading level: the number of headings, then the first
    three, each cut to 60 characters and followed by three dots. *)
Definition heading_lines (level : string) (hs : list string) : list string :=
  (upper level ++ ": " ++ str_int (llen hs) ++ " tags")
  :: map (fun h => "  - " ++ take 60 h ++ "...") (firstn 3 hs).

(** The items, numbered from 1 in a field of width two. *)
Definition numbered (items : list string) : list string :=
  map (fun '(i, item) => str_int_2d i ++ ". " ++ item) (enumerate 1 items).

(** A numbered section; nothing at all for no item. *)
Definition section (header : string) (items : list string) : list string :=
  match items with
  | [] => []
  | _ :: _ => (nl ++ header) :: numbered items
  end.

Definition keyword_lines (kws : list (string * Z)) : list string :=
  map (fun '(i, (keyword, count)) =>
         str_int_2d i ++ ". " ++ keyword ++ " (" ++ str_int count ++ " times)")
      (enumerate 1 (firstn 10 kws)).

Definition score_line (score : Z) : string :=
  nl ++ "SEO SCORE: " ++ str_int score ++ "/100".

(** The opening lines, up to the headings. *)
Definition opening_lines (page_data : PageData) : list string :=
  [ banner;
    "SEO ANALYSIS REPORT FOR: " ++ url page_data;
    banner;
    nl ++ "BASIC INFO:";
    "Title: " ++ str_opt (title page_data);
    "Title Length: " ++ str_int (title_length page_data) ++ " characters";
    "Meta Description: " ++ str_opt (meta_description page_data);
    "Meta Description Length: " ++ str_int (meta_desc_length page_data)
      ++ " characters";
    "Word Count: " ++ str_int (word_count page_data);
    nl ++ "HEADINGS:" ].

Definition image_lines (page_data : PageData) : list string :=
  [ nl ++ "IMAGES:";
    "Total Images: " ++ str_int (total_images page_data);
    "Images Without Alt Text: " ++ str_int (images_without_alt page_data);
    nl ++ "TOP 10 KEYWORDS:" ].

Definition structured_data_lines (page_data : PageData) : list string :=
  [ nl ++ "STRUCTURED DATA:";
    "Has Structured Data: " ++ str_bool (has_structured_data page_data);
    "Structured Data Blocks: " ++ str_int (structured_data_count page_data) ].

Definition closing_lines (r : Report) : list string :=
  [ score_line (score r); banner ].

(** The lines printed for a page and the report returned for it. *)
Definition report_lines (page_data : PageData) (r : Report) : list string :=
  List.concat
    [ opening_lines page_data;
      heading_lines "h1" (h1 (headings page_data));
      heading_lines "h2" (h2 (headings page_data));
      heading_lines "h3" (h3 (headings page_data));
      image_lines page_data;
      keyword_lines (keywords page_data);
      structured_data_lines page_data;
      section "ISSUES TO FIX:" (issues r);
      section "RECOMMENDations:" (recommendations r);
      closing_lines r ].

(** The number of lines of a section. *)
Definition section_size (items : list string) : nat :=
  match items with [] => 0 | _ :: _ => S (List.length items) end.

End ReportSpec.

(* ================================================================== *)
(** * The text of the results file *)
(* ================================================================== *)

Module FileSpec.
Import PyStr.

(** A printable ASCII character or a line break. *)
Definition plain (c : ascii) : bool := in_range 32 126 c || (code c =? 10)%N.

(** A page whose title and heading hold characters beyond ASCII, a quote
    and a tab. *)
Definition doc_latin1 : Soup.soup :=
  [Soup.Tag "html" []
     [Soup.Tag "head" []
        [Soup.Tag "title" []
           [Soup.NavigableString
              (String "067" (String "097" (String "102" (String "233"
                 (String "032" (String "034" (String "009" (String "034"
                    EmptyString))))))))]];
      Soup.Tag "body" []
        [Soup.Tag "h1" []
           [Soup.NavigableString
              (String "220" (String "098" (String "101" (String "114"
                 EmptyString))))]]]].

End FileSpec.

(* ================================================================== *)
(** * How a run ends *)
(* ================================================================== *)

Module EndingSpec.
Import PyStr Analyzer Run.
Local Open Scope string_scope.

Definition saved_notice : event :=
  Print (nl ++ "Detailed results saved to: seo_analysis.json").

Definition failed_notice : event :=
  Print "Failed to analyze the website. Check the URL and try again.".

(** The last event of a run, if any. *)
Definition last_event {A} (m : M A) : option event :=
  match rev (trace m) with
  | [] => None
  | e :: _ => Some e
  end.

(** The lines a computation prints, in order. *)
Definition printed_lines {A} (m : M A) : list string :=
  flat_map (fun e => match e with Print l => [l] | WriteFile _ _ => [] end) (trace m).

(** A world whose URL [urlparse] rejects. *)
Definition world_bad_url : world :=
  {| argv := ["seo_analyzer.py"; "http://[::1"];
     sys_version := "3.11.4";
     clock := 1700000000;
     urlparse := fun _ => None;
     requests_get := fun _ => GetRaises ConnectionError "unreachable";
     parse := fun _ => Parsed [] |}.

(** A world whose host name [urllib3] cannot encode: the exception is no
    [RequestException]. *)
Definition world_bad_host : world :=
  {| argv := ["seo_analyzer.py"; "http://a..b/"];
     sys_version := "3.11.4";
     clock := 1700000000;
     urlparse := fun _ => Some "a..b";
     requests_get := fun _ => GetCrashes "LocationParseError";
     parse := fun _ => Parsed [] |}.

(** A world whose page the parser rejects. *)
Definition world_rejected : world :=
  {| argv := ["seo_analyzer.py"; Samples.sample_url];
     sys_version := "3.11.4";
     clock := 1700000000;
     urlparse := fun _ => Some "example.test";
     requests_get :=
       fun _ => GetReturns (Samples.ok_response "<![if x]>" 200 "OK");
     parse := fun _ => Rejected "ParserRejectedMarkup" |}.

End EndingSpec.

(* ================================================================== *)
(** * A page with the character U+0008 in its text *)
(* ================================================================== *)

Module MarkedSample.
Import PyStr Analyzer Soup KeywordSpec.
Local Open Scope string_scope.

(** Three words of the paragraph are followed by the character U+0008
    (markup holds it as it is, or as a character reference). *)
Definition doc_marked : soup :=
  [Tag "html" []
     [Tag "head" [] [Samples.title_tag Samples.title_44]; Samples.line_break;
      Tag "body" []
        [Tag "h1" [] [NavigableString "Computer repair"]; Samples.line_break;
         Tag "p" []
           [NavigableString
              (marked "service" ++ " and " ++ marked "service" ++ " for "
               ++ marked "business")]]]].

End MarkedSample.

(* ================================================================== *)
(** * Facts about computations *)
(* ================================================================== *)

Section MonadFacts.
Import Analyzer Run.

Lemma outcome_bind {A B} (m : M A) (f : A -> M B) :
  outcome (bind m f) =
  match outcome m with Ok a => outcome (f a) | Raised e => Raised e end.
Proof.
  destruct m as [t [a | e]]; simpl; [destruct (f a); reflexivity | reflexivity].
Qed.

Lemma trace_bind {A B} (m : M A) (f : A -> M B) :
  trace (bind m f) =
  match outcome m with
  | Ok a => (trace m ++ trace (f a))%list
  | Raised _ => trace m
  end.
Proof.
  destruct m as [t [a | e]]; simpl; [destruct (f a); reflexivity | reflexivity].
Qed.

Lemma outcome_for_each {A} (xs : list A) (body : A -> M unit) :
  (forall x, outcome (body x) = Ok tt) -> outcome (for_each xs body) = Ok tt.
Proof.
  intros Hbody; induction xs as [| x xs IH]; simpl; [reflexivity |].
  rewrite outcome_bind, Hbody. exact IH.
Qed.

Lemma writes_for_each {A} (xs : list A) (body : A -> M unit) :
  (forall x, outcome (body x) = Ok tt) ->
  (forall x, writes (body x) = []) -> writes (for_each xs body) = [].
Proof.
  intros Hok Hw; induction xs as [| x xs IH]; simpl; [reflexivity |].
  unfold writes in *. rewrite trace_bind, Hok, filter_app, Hw, IH. reflexivity.
Qed.

Lemma outcome_print_numbered (items : list string) :
  outcome (print_numbered items) = Ok tt.
Proof.
  unfold print_numbered. apply outcome_for_each. intros [i item]. reflexivity.
Qed.

Lemma writes_print_numbered (items : list string) :
  writes (print_numbered items) = [].
Proof.
  unfold print_numbered.
  apply writes_for_each; intros [i item]; reflexivity.
Qed.

Lemma outcome_print_heading_level (level : string) (hs : list string) :
  outcome (print_heading_level level hs) = Ok tt.
Proof.
  unfold print_heading_level. rewrite outcome_bind. simpl.
  apply outcome_for_each. reflexivity.
Qed.

Lemma writes_print_heading_level (level : string) (hs : list string) :
  writes (print_heading_level level hs) = [].
Proof.
  unfold print_heading_level, writes. rewrite trace_bind. simpl.
  apply (writes_for_each (firstn 3 hs)); reflexivity.
Qed.

End MonadFacts.

(* ================================================================== *)
(** * The report and its score *)
(* ================================================================== *)

Section ReportFacts.
Import Analyzer Run.
Local Open Scope Z_scope.

Lemma outcome_seq {A} (m : M unit) (k : M A) :
  outcome m = Ok tt -> outcome (m ;; k) = outcome k.
Proof. intros H. rewrite outcome_bind, H. reflexivity. Qed.

Lemma writes_seq {A} (m : M unit) (k : M A) :
  outcome m = Ok tt -> writes m = [] -> writes (m ;; k) = writes k.
Proof.
  intros H Hw. unfold writes in *. rewrite trace_bind, H, filter_app, Hw. reflexivity.
Qed.

Lemma outcome_numbered_section (header : string) (items : list string) :
  outcome (match items with
           | [] => ret tt
           | _ :: _ => print header ;; print_numbered items
           end) = Ok tt.
Proof.
  destruct items; [reflexivity |].
  rewrite outcome_seq by reflexivity. apply outcome_print_numbered.
Qed.

Lemma writes_numbered_section (header : string) (items : list string) :
  writes (match items with
          | [] => ret tt
          | _ :: _ => print header ;; print_numbered items
          end) = [].
Proof.
  destruct items; [reflexivity |].
  rewrite writes_seq by reflexivity. apply writes_print_numbered.
Qed.

Ltac report_step :=
  first [ reflexivity
        | apply outcome_print_heading_level
        | apply writes_print_heading_level
        | apply outcome_numbered_section
        | apply writes_numbered_section
        | apply outcome_for_each; intros [i [k c]]; reflexivity
        | apply writes_for_each; intros [i [k c]]; reflexivity ].

(** The report that [generate_report] returns. *)
Lemma generate_report_returns (page_data : PageData) :
  outcome (generate_report page_data) =
  Ok {| score := seo_score (fst (generate_seo_issues page_data));
        issues := fst (generate_seo_issues page_data);
        recommendations := snd (generate_seo_issues page_data) |}.
Proof.
  unfold generate_report.
  destruct (generate_seo_issues page_data) as [iss recs]. cbn [fst snd].
  repeat (rewrite outcome_seq by report_step).
  reflexivity.
Qed.

(** [generate_report] prints; it writes no file. *)
Lemma generate_report_writes (page_data : PageData) :
  writes (generate_report page_data) = [].
Proof.
  unfold generate_report.
  destruct (generate_seo_issues page_data) as [iss recs].
  repeat (rewrite writes_seq by report_step).
  reflexivity.
Qed.

Lemma llen_nonneg {A} (l : list A) : 0 <= llen l.
Proof. unfold llen. lia. Qed.

Lemma seo_score_formula (iss : list string) :
  seo_score iss = Z.max 0 (100 - 10 * llen iss).
Proof. unfold seo_score. f_equal. lia. Qed.

Lemma seo_score_range (iss : list string) : 0 <= seo_score iss <= 100.
Proof. rewrite seo_score_formula. pose proof (llen_nonneg iss). lia. Qed.

Lemma seo_score_monotone (is1 is2 : list string) :
  llen is1 <= llen is2 -> seo_score is2 <= seo_score is1.
Proof. intros H. rewrite !seo_score_formula. lia. Qed.

Lemma seo_score_floor (iss : list string) : 10 <= llen iss -> seo_score iss = 0.
Proof. intros H. rewrite seo_score_formula. lia. Qed.

End ReportFacts.

(* ================================================================== *)
(** * The issue engine *)
(* ================================================================== *)

Section IssueFacts.
Import PyStr Analyzer Run Messages.
Local Open Scope Z_scope.

(** A decimal numeral starts with a digit or a minus sign. *)
Lemma str_int_head (n : Z) :
  exists c r, str_int n = String c r /\ (Json.is_digit c = true \/ c = "-"%char).
Proof.
  assert (Hu : forall d, exists c r,
             NilZero.string_of_uint d = String c r /\ Json.is_digit c = true).
  { intros d. destruct d; simpl; eexists; eexists; split; reflexivity. }
  unfold str_int. destruct n as [| p | p]; simpl.
  - exists "0"%char, EmptyString. split; [reflexivity | left; reflexivity].
  - destruct (Hu (Pos.to_uint p)) as (c & r & Hc & Hd).
    exists c, r. split; [exact Hc | left; exact Hd].
  - exists "-"%char. eexists. split; [reflexivity | right; reflexivity].
Qed.

Lemma str_int_not_title (n : Z) (rest : string) :
  starts_with "Title too " (str_int n ++ rest) = false.
Proof.
  destruct (str_int_head n) as (c & r & -> & [Hd | ->]); [| reflexivity].
  cbn [append starts_with]. destruct (Ascii.eqb "T" c) eqn:E; [| reflexivity].
  apply Ascii.eqb_eq in E. subst c. discriminate Hd.
Qed.

Lemma str_int_not_meta (n : Z) (rest : string) :
  starts_with "Meta description too " (str_int n ++ rest) = false.
Proof.
  destruct (str_int_head n) as (c & r & -> & [Hd | ->]); [| reflexivity].
  cbn [append starts_with]. destruct (Ascii.eqb "M" c) eqn:E; [| reflexivity].
  apply Ascii.eqb_eq in E. subst c. discriminate Hd.
Qed.

(** Each check appends at most one message. *)
Lemma title_issues_length pd : (List.length (title_issues pd) <= 1)%nat.
Proof.
  unfold title_issues.
  repeat match goal with |- context [if ?b then _ else _] => destruct b end; simpl; lia.
Qed.

Lemma meta_issues_length pd : (List.length (meta_issues pd) <= 1)%nat.
Proof.
  unfold meta_issues.
  repeat match goal with |- context [if ?b then _ else _] => destruct b end; simpl; lia.
Qed.

Lemma heading_issues_length pd : (List.length (heading_issues pd) <= 1)%nat.
Proof.
  unfold heading_issues. destruct (h1 (headings pd)); [simpl; lia |].
  match goal with |- context [if ?b then _ else _] => destruct b end; simpl; lia.
Qed.

Lemma image_issues_length pd : (List.length (image_issues pd) <= 1)%nat.
Proof.
  unfold image_issues.
  match goal with |- context [if ?b then _ else _] => destruct b end; simpl; lia.
Qed.

Lemma content_issues_length pd : (List.length (content_issues pd) <= 1)%nat.
Proof.
  unfold content_issues.
  match goal with |- context [if ?b then _ else _] => destruct b end; simpl; lia.
Qed.

Lemma issues_length pd : llen (fst (generate_seo_issues pd)) <= 5.
Proof.
  unfold generate_seo_issues, llen. cbn [fst]. rewrite !length_app.
  pose proof (title_issues_length pd). pose proof (meta_issues_length pd).
  pose proof (heading_issues_length pd). pose proof (image_issues_length pd).
  pose proof (content_issues_length pd). lia.
Qed.

Ltac one_issue :=
  let H := fresh "H" in
  simpl; intros H; first [ contradiction | destruct H as [<- | []] ].

(** Only the title check produces a title-length message, only the meta
    check a meta-length message. *)
Lemma meta_issues_not_title pd s :
  In s (meta_issues pd) -> is_title_length_issue s = false.
Proof.
  unfold meta_issues.
  repeat match goal with |- context [if ?b then _ else _] => destruct b end;
    one_issue; reflexivity.
Qed.

Lemma heading_issues_other pd s :
  In s (heading_issues pd) ->
  is_title_length_issue s = false /\ is_meta_length_issue s = false.
Proof.
  unfold heading_issues. destruct (h1 (headings pd)).
  - one_issue; split; reflexivity.
  - match goal with |- context [if ?b then _ else _] => destruct b end;
      one_issue; split; reflexivity.
Qed.

Lemma image_issues_other pd s :
  In s (image_issues pd) ->
  is_title_length_issue s = false /\ is_meta_length_issue s = false.
Proof.
  unfold image_issues.
  match goal with |- context [if ?b then _ else _] => destruct b end;
    one_issue.
  split; [apply str_int_not_title | apply str_int_not_meta].
Qed.

Lemma content_issues_other pd s :
  In s (content_issues pd) ->
  is_title_length_issue s = false /\ is_meta_length_issue s = false.
Proof.
  unfold content_issues.
  match goal with |- context [if ?b then _ else _] => destruct b end;
    one_issue; split; reflexivity.
Qed.

Lemma title_issues_not_meta pd s :
  In s (title_issues pd) -> is_meta_length_issue s = false.
Proof.
  unfold title_issues.
  repeat match goal with |- context [if ?b then _ else _] => destruct b end;
    one_issue; reflexivity.
Qed.

(** A title-length message among the issues comes from the title check. *)
Lemma title_length_issue_origin pd s :
  In s (fst (generate_seo_issues pd)) -> is_title_length_issue s = true ->
  In s (title_issues pd).
Proof.
  unfold generate_seo_issues. cbn [fst]. rewrite !in_app_iff.
  intros [H | [H | [H | [H | H]]]] Hs; [exact H | exfalso ..].
  - apply meta_issues_not_title in H. congruence.
  - apply heading_issues_other in H. destruct H; congruence.
  - apply image_issues_other in H. destruct H; congruence.
  - apply content_issues_other in H. destruct H; congruence.
Qed.

Lemma meta_length_issue_origin pd s :
  In s (fst (generate_seo_issues pd)) -> is_meta_length_issue s = true ->
  In s (meta_issues pd).
Proof.
  unfold generate_seo_issues. cbn [fst]. rewrite !in_app_iff.
  intros [H | [H | [H | [H | H]]]] Hs; [exfalso | exact H | exfalso ..].
  - apply title_issues_not_meta in H. congruence.
  - apply heading_issues_other in H. destruct H; congruence.
  - apply image_issues_other in H. destruct H; congruence.
  - apply content_issues_other in H. destruct H; congruence.
Qed.

Lemma title_too_short_is_title_length n : is_title_length_issue (title_too_short n) = true.
Proof. reflexivity. Qed.

Lemma title_too_long_is_title_length n : is_title_length_issue (title_too_long n) = true.
Proof. reflexivity. Qed.

Lemma meta_too_short_is_meta_length n : is_meta_length_issue (meta_too_short n) = true.
Proof. reflexivity. Qed.

Lemma meta_too_long_is_meta_length n : is_meta_length_issue (meta_too_long n) = true.
Proof. reflexivity. Qed.

End IssueFacts.

(* ================================================================== *)
(** * Claims about the score *)
(* ================================================================== *)

Section ScoreClaims.
Import Analyzer Run.
Local Open Scope Z_scope.

(** C2.  For every page data, [generate_report] returns a report whose issues
    are those of the issue engine and whose score is
    max(0, 100 - 10 * number of issues); that score lies in [0,100], does not
    increase when the number of issues grows, and is 0 from ten issues on. *)
Theorem report_score_formula (page_data : PageData) :
  exists report,
    outcome (generate_report page_data) = Ok report /\
    issues report = fst (generate_seo_issues page_data) /\
    score report = Z.max 0 (100 - 10 * llen (issues report)) /\
    0 <= score report <= 100 /\
    score report = seo_score (issues report) /\
    (forall is1 is2 : list string,
        llen is1 <= llen is2 -> seo_score is2 <= seo_score is1) /\
    (forall iss : list string, 10 <= llen iss -> seo_score iss = 0).
Proof.
  eexists. split; [apply generate_report_returns |]. cbn [issues score].
  split; [reflexivity |].
  split; [apply seo_score_formula |].
  split; [apply seo_score_range |].
  split; [reflexivity |].
  split; [exact seo_score_monotone | exact seo_score_floor].
Qed.

(** C9.  For every page data the issue list has at most five entries, one
    at most from each of the five checks, so the score is at least 50 and is
    exactly 100 - 10 * number of issues: the floor at 0 never applies. *)
Theorem at_most_five_issues (page_data : PageData) :
  fst (generate_seo_issues page_data)
    = (title_issues page_data ++ meta_issues page_data ++ heading_issues page_data
       ++ image_issues page_data ++ content_issues page_data)%list /\
  (List.length (title_issues page_data) <= 1)%nat /\
  (List.length (meta_issues page_data) <= 1)%nat /\
  (List.length (heading_issues page_data) <= 1)%nat /\
  (List.length (image_issues page_data) <= 1)%nat /\
  (List.length (content_issues page_data) <= 1)%nat /\
  llen (fst (generate_seo_issues page_data)) <= 5 /\
  exists report,
    outcome (generate_report page_data) = Ok report /\
    50 <= score report /\
    score report = 100 - 10 * llen (issues report).
Proof.
  split; [reflexivity |].
  split; [apply title_issues_length |].
  split; [apply meta_issues_length |].
  split; [apply heading_issues_length |].
  split; [apply image_issues_length |].
  split; [apply content_issues_length |].
  split; [apply issues_length |].
  eexists. split; [apply generate_report_returns |]. cbn [issues score].
  pose proof (issues_length page_data) as H5.
  pose proof (llen_nonneg (fst (generate_seo_issues page_data))) as H0.
  rewrite seo_score_formula. lia.
Qed.

End ScoreClaims.

(* ================================================================== *)
(** * What [analyze_page] extracts *)
(* ================================================================== *)

Section ExtractFacts.
Import PyStr Analyzer Run Messages PageSpec.
Local Open Scope Z_scope.

Lemma extracted_fields u doc pd :
  extracted u doc pd ->
  url pd = u /\
  title pd = option_map (Soup.get_text_after ["script"; "style"])
               (Soup.find (Soup.named "title") doc) /\
  title_length pd =
    match Soup.find (Soup.named "title") doc with
    | Some t => len (Soup.get_text_after ["script"; "style"] t)
    | None => 0
    end /\
  meta_description pd =
    content_of (Soup.find (Soup.named_with "meta" "name" "description") doc) /\
  meta_desc_length pd =
    match content_of (Soup.find (Soup.named_with "meta" "name" "description") doc) with
    | Some c => len c
    | None => 0
    end /\
  h1 (headings pd) = heading_texts "h1" doc /\
  images pd = map image_of (imgs doc) /\
  images_without_alt pd = llen (filter (fun img => negb (has_alt img)) (images pd)) /\
  total_images pd = llen (images pd) /\
  word_count pd =
    llen (split (Soup.get_text_all (Soup.decompose_all ["script"; "style"] doc))).
Proof.
  unfold extracted, extract, content_length, content_of.
  destruct (Soup.find (Soup.named_with "meta" "name" "description") doc) as [t |].
  - destruct (Soup.get (Soup.attrs_of t) "content") as [c |]; [| discriminate].
    cbn. intros H. injection H as <-. cbn. repeat split; reflexivity.
  - cbn. intros H. injection H as <-. cbn. repeat split; reflexivity.
Qed.

(** [title_length] is the length of the title, 0 without one; the same for
    the meta description. *)
Lemma extracted_title_length u doc pd :
  extracted u doc pd ->
  title_length pd = match title pd with Some t => len t | None => 0 end.
Proof.
  intros H. destruct (extracted_fields _ _ _ H) as (_ & Ht & Hl & _).
  rewrite Ht, Hl. destruct (Soup.find (Soup.named "title") doc); reflexivity.
Qed.

Lemma extracted_meta_length u doc pd :
  extracted u doc pd ->
  meta_desc_length pd = match meta_description pd with Some t => len t | None => 0 end.
Proof.
  intros H. destruct (extracted_fields _ _ _ H) as (_ & _ & _ & Hm & Hl & _).
  rewrite Hm, Hl. reflexivity.
Qed.

Lemma len_pos (s : string) : s <> EmptyString -> 0 < len s.
Proof. destruct s; [congruence |]. intros _. unfold len. simpl. lia. Qed.

Lemma truthy_nonempty (s : string) : truthy s = true <-> s <> EmptyString.
Proof. destruct s; simpl; split; congruence. Qed.

Lemma title_present_truthy pd :
  title_present pd <-> truthy_opt (title pd) = true.
Proof.
  unfold title_present. split.
  - intros (t & -> & Ht). simpl. apply truthy_nonempty, Ht.
  - destruct (title pd) as [t |]; simpl; [| discriminate].
    intros Ht. exists t. split; [reflexivity | apply truthy_nonempty, Ht].
Qed.

(** The title check, case by case. *)
Lemma title_issues_cases pd :
  title_issues pd =
    if negb (truthy_opt (title pd)) then [missing_title]
    else if title_length pd <? 30 then [title_too_short (title_length pd)]
    else if title_length pd >? 60 then [title_too_long (title_length pd)]
    else [].
Proof. reflexivity. Qed.

Lemma meta_issues_cases pd :
  meta_issues pd =
    if negb (truthy_opt (meta_description pd)) then [missing_meta_description]
    else if meta_desc_length pd <? 120 then [meta_too_short (meta_desc_length pd)]
    else if meta_desc_length pd >? 160 then [meta_too_long (meta_desc_length pd)]
    else [].
Proof. reflexivity. Qed.

Lemma in_title_issues pd s : In s (title_issues pd) -> In s (issues_of pd).
Proof.
  intros H. unfold issues_of, generate_seo_issues. cbn [fst].
  apply in_or_app. left. exact H.
Qed.

Lemma in_meta_issues pd s : In s (meta_issues pd) -> In s (issues_of pd).
Proof.
  intros H. unfold issues_of, generate_seo_issues. cbn [fst].
  apply in_or_app. right. apply in_or_app. left. exact H.
Qed.

Lemma in_image_issues pd s : In s (image_issues pd) -> In s (issues_of pd).
Proof.
  intros H. unfold issues_of, generate_seo_issues. cbn [fst].
  rewrite !in_app_iff. tauto.
Qed.

End ExtractFacts.

(* ================================================================== *)
(** * Claims about the title and the meta description *)
(* ================================================================== *)

Section TitleClaims.
Import PyStr Analyzer Run Messages PageSpec.
Local Open Scope Z_scope.

(** C4, amended.  With a title that is present and not empty: a length in
    [30,60] gives no title-length issue; a length below 30 gives the
    too-short issue with that length in the message; a length above 60
    gives the too-long issue with that length.  The length is that of the
    extracted title.  For a document without a [title] element the title is
    absent, [title_length] is 0, and "Missing title tag" is among the
    issues; a title that is present and empty is reported as missing too,
    and not as too short. *)
Theorem title_length_checks :
  (forall pd, title_present pd -> 30 <= title_length pd <= 60 ->
     forall n, ~ In (title_too_short n) (issues_of pd) /\
               ~ In (title_too_long n) (issues_of pd)) /\
  (forall pd, title_present pd -> title_length pd < 30 ->
     In (title_too_short (title_length pd)) (issues_of pd)) /\
  (forall pd, title_present pd -> 60 < title_length pd ->
     In (title_too_long (title_length pd)) (issues_of pd)) /\
  (forall u doc pd t, extracted u doc pd -> title pd = Some t ->
     title_length pd = len t) /\
  (forall u doc pd, extracted u doc pd ->
     Soup.find (Soup.named "title") doc = None ->
     title pd = None /\ title_length pd = 0 /\ In missing_title (issues_of pd)) /\
  (forall pd, title pd = Some EmptyString ->
     In missing_title (issues_of pd) /\
     forall n, ~ In (title_too_short n) (issues_of pd)).
Proof.
  split; [| split; [| split; [| split; [| split]]]].
  - intros pd Hp [Hlo Hhi] n.
    apply title_present_truthy in Hp.
    assert (Hnone : title_issues pd = []).
    { rewrite title_issues_cases, Hp. cbn [negb].
      destruct (title_length pd <? 30) eqn:E1; [apply Z.ltb_lt in E1; lia |].
      destruct (title_length pd >? 60) eqn:E2; [| reflexivity].
      apply Z.gtb_lt in E2. lia. }
    split; intros Hin.
    + apply title_length_issue_origin in Hin; [| apply title_too_short_is_title_length].
      rewrite Hnone in Hin. exact Hin.
    + apply title_length_issue_origin in Hin; [| apply title_too_long_is_title_length].
      rewrite Hnone in Hin. exact Hin.
  - intros pd Hp Hlt. apply title_present_truthy in Hp.
    apply in_title_issues. rewrite title_issues_cases, Hp. cbn [negb].
    apply Z.ltb_lt in Hlt. rewrite Hlt. left. reflexivity.
  - intros pd Hp Hgt. apply title_present_truthy in Hp.
    apply in_title_issues. rewrite title_issues_cases, Hp. cbn [negb].
    destruct (title_length pd <? 30) eqn:E1; [apply Z.ltb_lt in E1; lia |].
    assert (E2 : (title_length pd >? 60) = true) by (apply Z.gtb_lt; lia).
    rewrite E2. left. reflexivity.
  - intros u doc pd t Hx Ht. rewrite (extracted_title_length _ _ _ Hx), Ht. reflexivity.
  - intros u doc pd Hx Hnone.
    destruct (extracted_fields _ _ _ Hx) as (_ & Ht & Hl & _).
    rewrite Hnone in Ht, Hl. cbn in Ht. repeat split; try assumption.
    apply in_title_issues. rewrite title_issues_cases, Ht. left. reflexivity.
  - intros pd Ht.
    assert (Hi : title_issues pd = [missing_title])
      by (rewrite title_issues_cases, Ht; reflexivity).
    split.
    + apply in_title_issues. rewrite Hi. left. reflexivity.
    + intros n Hin.
      apply title_length_issue_origin in Hin; [| apply title_too_short_is_title_length].
      rewrite Hi in Hin. destruct Hin as [Hin | []]. discriminate Hin.
Qed.

(** C4 as stated fails: the [title] element of this page is present, its
    text has length 0, which is below 30, and yet no too-short issue is
    produced: the title is reported as missing. *)
Lemma empty_title_is_not_too_short :
  Soup.find (Soup.named "title") Samples.doc_empty_title = Some (Soup.Tag "title" [] []) /\
  title (Samples.page_of Samples.doc_empty_title) = Some EmptyString /\
  title_length (Samples.page_of Samples.doc_empty_title) = 0 /\
  ~ In (title_too_short (title_length (Samples.page_of Samples.doc_empty_title)))
       (issues_of (Samples.page_of Samples.doc_empty_title)) /\
  In missing_title (issues_of (Samples.page_of Samples.doc_empty_title)).
Proof.
  split; [reflexivity |]. split; [reflexivity |]. split; [reflexivity |].
  split.
  - intros Hin. vm_compute in Hin.
    repeat (destruct Hin as [Hin | Hin]; [discriminate Hin |]). exact Hin.
  - vm_compute. left. reflexivity.
Qed.

(** C10.  An empty title, and likewise an empty meta description, is
    reported as missing and not as too short: a [title] element that is
    present with empty text is extracted as the empty string, a description
    tag with an empty [content] attribute too. *)
Theorem empty_title_and_description_are_missing :
  (forall pd, title pd = Some EmptyString ->
     In missing_title (issues_of pd) /\
     forall n, ~ In (title_too_short n) (issues_of pd)) /\
  (forall pd, meta_description pd = Some EmptyString ->
     In missing_meta_description (issues_of pd) /\
     forall n, ~ In (meta_too_short n) (issues_of pd)) /\
  (forall u doc pd t, extracted u doc pd ->
     Soup.find (Soup.named "title") doc = Some t ->
     Soup.get_text_after ["script"; "style"] t = EmptyString ->
     title pd = Some EmptyString /\ title_length pd = 0) /\
  (forall u doc pd t, extracted u doc pd ->
     Soup.find (Soup.named_with "meta" "name" "description") doc = Some t ->
     Soup.get (Soup.attrs_of t) "content" = Some EmptyString ->
     meta_description pd = Some EmptyString /\ meta_desc_length pd = 0).
Proof.
  split; [| split; [| split]].
  - intros pd Ht.
    assert (Hi : title_issues pd = [missing_title])
      by (rewrite title_issues_cases, Ht; reflexivity).
    split.
    + apply in_title_issues. rewrite Hi. left. reflexivity.
    + intros n Hin.
      apply title_length_issue_origin in Hin; [| apply title_too_short_is_title_length].
      rewrite Hi in Hin. destruct Hin as [Hin | []]. discriminate Hin.
  - intros pd Hm.
    assert (Hi : meta_issues pd = [missing_meta_description])
      by (rewrite meta_issues_cases, Hm; reflexivity).
    split.
    + apply in_meta_issues. rewrite Hi. left. reflexivity.
    + intros n Hin.
      apply meta_length_issue_origin in Hin; [| apply meta_too_short_is_meta_length].
      rewrite Hi in Hin. destruct Hin as [Hin | []]. discriminate Hin.
  - intros u doc pd t Hx Hf Htxt.
    destruct (extracted_fields _ _ _ Hx) as (_ & Ht & Hl & _).
    rewrite Hf in Ht, Hl. cbn in Ht. rewrite Htxt in Ht, Hl. split; assumption.
  - intros u doc pd t Hx Hf Hc.
    destruct (extracted_fields _ _ _ Hx) as (_ & _ & _ & Hm & Hl & _).
    rewrite Hf in Hm, Hl. cbn in Hm, Hl. rewrite Hc in Hm, Hl. split; assumption.
Qed.

(** The title checks at lengths 29, 44 and 61 and on a page without a
    title. *)
Lemma title_length_checks_witness :
  In (title_too_short 29) (issues_of (Samples.page_of Samples.doc_title_29)) /\
  In (title_too_long 61) (issues_of (Samples.page_of Samples.doc_title_61)) /\
  (forall n,
     ~ In (title_too_short n) (issues_of (Samples.page_of Samples.doc_title_44)) /\
     ~ In (title_too_long n) (issues_of (Samples.page_of Samples.doc_title_44))) /\
  title_length (Samples.page_of Samples.doc_title_29) = len Samples.title_29 /\
  (title (Samples.page_of Samples.doc_no_title) = None /\
   title_length (Samples.page_of Samples.doc_no_title) = 0 /\
   In missing_title (issues_of (Samples.page_of Samples.doc_no_title))).
Proof.
  destruct title_length_checks as (Hmid & Hshort & Hlong & Hlen & Hnone & _).
  split; [| split; [| split; [| split]]].
  - apply (Hshort (Samples.page_of Samples.doc_title_29)).
    + exists Samples.title_29. split; [reflexivity | discriminate].
    + vm_compute. reflexivity.
  - apply (Hlong (Samples.page_of Samples.doc_title_61)).
    + exists Samples.title_61. split; [reflexivity | discriminate].
    + vm_compute. reflexivity.
  - apply (Hmid (Samples.page_of Samples.doc_title_44)).
    + exists Samples.title_44. split; [reflexivity | discriminate].
    + vm_compute. split; discriminate.
  - apply (Hlen Samples.sample_url Samples.doc_title_29); reflexivity.
  - apply (Hnone Samples.sample_url Samples.doc_no_title); reflexivity.
Defined.

(** The empty title and the empty description on two sample pages. *)
Lemma empty_title_and_description_are_missing_witness :
  (In missing_title (issues_of (Samples.page_of Samples.doc_empty_title)) /\
   forall n, ~ In (title_too_short n) (issues_of (Samples.page_of Samples.doc_empty_title))) /\
  (In missing_meta_description (issues_of (Samples.page_of Samples.doc_empty_meta)) /\
   forall n, ~ In (meta_too_short n) (issues_of (Samples.page_of Samples.doc_empty_meta))) /\
  (title (Samples.page_of Samples.doc_empty_title) = Some EmptyString /\
   title_length (Samples.page_of Samples.doc_empty_title) = 0) /\
  (meta_description (Samples.page_of Samples.doc_empty_meta) = Some EmptyString /\
   meta_desc_length (Samples.page_of Samples.doc_empty_meta) = 0).
Proof.
  destruct empty_title_and_description_are_missing as (Ht & Hm & Hxt & Hxm).
  split; [| split; [| split]].
  - apply (Ht (Samples.page_of Samples.doc_empty_title)). reflexivity.
  - apply (Hm (Samples.page_of Samples.doc_empty_meta)). reflexivity.
  - apply (Hxt Samples.sample_url Samples.doc_empty_title _ (Soup.Tag "title" [] []));
      reflexivity.
  - apply (Hxm Samples.sample_url Samples.doc_empty_meta _
             (Samples.meta_description_tag "")); reflexivity.
Defined.

End TitleClaims.

(* ================================================================== *)
(** * Claims about images *)
(* ================================================================== *)

Section ImageClaims.
Import PyStr Analyzer Run Messages PageSpec.
Local Open Scope Z_scope.

Lemma filter_split_length {A} (f : A -> bool) (l : list A) :
  llen (filter (fun x => negb (f x)) l) + llen (filter f l) = llen l.
Proof.
  unfold llen. induction l as [| x l IH]; [reflexivity |].
  cbn [filter]. destruct (f x); cbn [negb List.length]; lia.
Qed.

Lemma has_alt_image_of (img : Soup.node) :
  has_alt (image_of img) = alt_nonempty img.
Proof.
  unfold image_of, alt_nonempty. cbn [has_alt].
  destruct (Soup.get (Soup.attrs_of img) "alt") as [[| c v] |]; reflexivity.
Qed.

Lemma has_alt_iff (img : Soup.node) :
  has_alt (image_of img) = true <->
  exists v, Soup.get (Soup.attrs_of img) "alt" = Some v /\ v <> EmptyString.
Proof.
  unfold image_of. cbn [has_alt].
  destruct (Soup.get (Soup.attrs_of img) "alt") as [v |]; simpl.
  - rewrite truthy_nonempty. split.
    + intros Hv. exists v. split; [reflexivity | exact Hv].
    + intros (v' & Hv' & Hne). injection Hv' as <-. exact Hne.
  - split; [discriminate | intros (v & Hv & _); discriminate].
Qed.

Lemma filter_has_alt_length (l : list Soup.node) :
  llen (filter has_alt (map image_of l)) = llen (filter alt_nonempty l).
Proof.
  unfold llen. induction l as [| img l IH]; [reflexivity |].
  cbn [map filter]. rewrite has_alt_image_of.
  destruct (alt_nonempty img); cbn [List.length]; lia.
Qed.

(** C5.  For every extracted page: [has_alt] holds exactly for the images
    whose alt attribute is present and non-empty; the images without alt and
    those with alt add up to [total_images]; with N images of which K have a
    non-empty alt, [total_images] is N and [images_without_alt] is N - K; and
    when N - K > 0 the alt-text issue with the value N - K is among the issues. *)
Theorem image_alt_accounting u doc pd :
  extracted u doc pd ->
  images pd = map image_of (imgs doc) /\
  (forall img, has_alt (image_of img) = true <->
     exists v, Soup.get (Soup.attrs_of img) "alt" = Some v /\ v <> EmptyString) /\
  images_without_alt pd + llen (filter has_alt (images pd)) = total_images pd /\
  llen (filter has_alt (images pd)) = llen (filter alt_nonempty (imgs doc)) /\
  total_images pd = llen (imgs doc) /\
  images_without_alt pd = llen (imgs doc) - llen (filter alt_nonempty (imgs doc)) /\
  (llen (imgs doc) - llen (filter alt_nonempty (imgs doc)) > 0 ->
   In (images_missing_alt (llen (imgs doc) - llen (filter alt_nonempty (imgs doc))))
      (issues_of pd)).
Proof.
  intros Hx.
  destruct (extracted_fields _ _ _ Hx) as (_ & _ & _ & _ & _ & _ & Hi & Hw & Ht & _).
  pose proof (filter_split_length has_alt (images pd)) as Hsum.
  assert (Hk : llen (filter has_alt (images pd)) = llen (filter alt_nonempty (imgs doc)))
    by (rewrite Hi; apply filter_has_alt_length).
  assert (Hn : total_images pd = llen (imgs doc))
    by (rewrite Ht, Hi; unfold llen; rewrite length_map; reflexivity).
  assert (Hnk : images_without_alt pd
                = llen (imgs doc) - llen (filter alt_nonempty (imgs doc))) by lia.
  split; [exact Hi |].
  split; [exact has_alt_iff |].
  split; [lia |].
  split; [exact Hk |].
  split; [exact Hn |].
  split; [exact Hnk |].
  intros Hpos. rewrite <- Hnk. apply in_image_issues. unfold image_issues.
  assert (E : (images_without_alt pd >? 0) = true) by (apply Z.gtb_lt; lia).
  rewrite E. left. reflexivity.
Qed.

(** Three images, one of them with a non-empty alt: two lack alt text. *)
Lemma image_alt_accounting_witness :
  total_images (Samples.page_of Samples.doc_three_images) = 3 /\
  images_without_alt (Samples.page_of Samples.doc_three_images) = 2 /\
  In (images_missing_alt 2) (issues_of (Samples.page_of Samples.doc_three_images)).
Proof.
  destruct (image_alt_accounting Samples.sample_url Samples.doc_three_images
              (Samples.page_of Samples.doc_three_images) eq_refl)
    as (_ & _ & _ & _ & Hn & Hnk & Hissue).
  split; [exact Hn |]. split; [exact Hnk |].
  apply Hissue. vm_compute. reflexivity.
Defined.

End ImageClaims.

(* ================================================================== *)
(** * The end-to-end example *)
(* ================================================================== *)

Section EndToEnd.
Import PyStr Analyzer Run Messages PageSpec.
Local Open Scope Z_scope.

(** C3.  An extracted page with the title "Home | IT Support Wichita", no
    meta description, exactly one H1, two images of which one lacks alt
    text, 250 words and no JSON-LD block has exactly four issues: the short
    title with its length (25), the missing meta description, one image
    without alt text, and the low word count 250; its score is 60. *)
Theorem end_to_end_example u doc pd :
  extracted u doc pd ->
  title pd = Some "Home | IT Support Wichita"%string ->
  meta_description pd = None ->
  List.length (h1 (headings pd)) = 1%nat ->
  total_images pd = 2 ->
  images_without_alt pd = 1 ->
  word_count pd = 250 ->
  structured_data_count pd = 0 ->
  title_length pd = len "Home | IT Support Wichita" /\
  issues_of pd =
    [title_too_short 25; missing_meta_description;
     images_missing_alt 1; low_word_count 250] /\
  exists report,
    outcome (generate_report pd) = Ok report /\
    issues report = issues_of pd /\
    score report = 60.
Proof.
  intros Hx Ht Hm Hh Hn Hw Hc _.
  pose proof (extracted_title_length _ _ _ Hx) as Hl. rewrite Ht in Hl.
  assert (Hissues : issues_of pd =
            [title_too_short 25; missing_meta_description;
             images_missing_alt 1; low_word_count 250]).
  { unfold issues_of, generate_seo_issues. cbn [fst].
    rewrite title_issues_cases, meta_issues_cases, Ht, Hm, Hl.
    unfold heading_issues, image_issues, content_issues.
    rewrite Hw, Hc.
    destruct (h1 (headings pd)) as [| x [| y l]]; try discriminate Hh.
    reflexivity. }
  split; [exact Hl |]. split; [exact Hissues |].
  eexists. split; [apply generate_report_returns |]. cbn [issues score].
  split; [reflexivity |].
  fold (issues_of pd). rewrite Hissues. reflexivity.
Qed.

(** The example on a concrete document. *)
Lemma end_to_end_example_witness :
  issues_of (Samples.page_of Samples.doc_end_to_end) =
    [title_too_short 25; missing_meta_description;
     images_missing_alt 1; low_word_count 250] /\
  exists report,
    outcome (generate_report (Samples.page_of Samples.doc_end_to_end)) = Ok report /\
    score report = 60.
Proof.
  destruct (end_to_end_example Samples.sample_url Samples.doc_end_to_end
              (Samples.page_of Samples.doc_end_to_end))
    as (_ & Hissues & report & Hr & _ & Hs);
    try (vm_compute; reflexivity).
  split; [exact Hissues |]. exists report. split; [exact Hr | exact Hs].
Defined.

End EndToEnd.

(* ================================================================== *)
(** * Runs of [main] *)
(* ================================================================== *)

Section MainFacts.
Import PyStr Analyzer Run RunSpec.
Local Open Scope string_scope.
Local Open Scope Z_scope.

Lemma extract_prints_nothing u doc : trace (extract u doc) = [].
Proof.
  unfold extract, content_length.
  destruct (Soup.find (Soup.named_with "meta" "name" "description") doc) as [t |];
    [destruct (Soup.get (Soup.attrs_of t) "content") |]; reflexivity.
Qed.

Lemma extract_pair u doc : extract u doc = ([], outcome (extract u doc)).
Proof.
  rewrite <- (extract_prints_nothing u doc). unfold trace, outcome.
  destruct (extract u doc); reflexivity.
Qed.

(** What [fetch_page] prints and returns. *)
Lemma fetch_page_raises w u :
  fetch_raises (requests_get w u) ->
  exists e, fetch_page w u = ([Print ("Error fetching " ++ u ++ ": " ++ e)], Ok None).
Proof.
  unfold fetch_raises, fetch_page, raise_for_status.
  destruct (requests_get w u) as [k e | r | name].
  - intros _. exists e. reflexivity.
  - intros [Hlo Hhi].
    destruct (status_code r <? 500) eqn:E5.
    + assert (E4 : (400 <=? status_code r) = true) by (apply Z.leb_le; lia).
      rewrite E4. cbn [andb]. eexists. reflexivity.
    + apply Z.ltb_ge in E5.
      assert (E4 : (500 <=? status_code r) = true) by (apply Z.leb_le; lia).
      assert (E6 : (status_code r <? 600) = true) by (apply Z.ltb_lt; lia).
      rewrite E4, E6, andb_false_r. cbn [andb]. eexists. reflexivity.
  - intros [].
Qed.

(** An exception of [requests.get] that is no [RequestException] passes
    through [fetch_page]. *)
Lemma fetch_page_crashes w u name :
  requests_get w u = GetCrashes name ->
  fetch_page w u = ([], Raised (LibraryError name)).
Proof. intros Hget. unfold fetch_page. rewrite Hget. reflexivity. Qed.

Lemma fetch_page_returns w u r :
  requests_get w u = GetReturns r -> ~ (400 <= status_code r < 600) ->
  fetch_page w u = ([], Ok (Some (text r))).
Proof.
  intros Hget Hst. unfold fetch_page, raise_for_status. rewrite Hget.
  destruct ((400 <=? status_code r) && (status_code r <? 500)) eqn:E4.
  { apply andb_true_iff in E4. destruct E4 as [E1 E2].
    apply Z.leb_le in E1. apply Z.ltb_lt in E2. lia. }
  destruct ((500 <=? status_code r) && (status_code r <? 600)) eqn:E5.
  { apply andb_true_iff in E5. destruct E5 as [E1 E2].
    apply Z.leb_le in E1. apply Z.ltb_lt in E2. lia. }
  reflexivity.
Qed.

(** Every call of [fetch_page] is of one of the three kinds. *)
Lemma fetch_page_cases w u :
  fetch_raises (requests_get w u) \/
  (exists r, requests_get w u = GetReturns r /\ ~ (400 <= status_code r < 600)) \/
  (exists name, requests_get w u = GetCrashes name).
Proof.
  unfold fetch_raises. destruct (requests_get w u) as [k e | r | name];
    [left; exact I | | right; right; exists name; reflexivity].
  destruct (Z_le_dec 400 (status_code r));
    [| right; left; exists r; split; [reflexivity | lia]].
  destruct (Z_lt_dec (status_code r) 600); [left; lia |].
  right. left. exists r. split; [reflexivity | lia].
Qed.

(** The parser builds the tree, or rejects the markup. *)
Lemma parse_cases w html :
  parse w html = Parsed (html_parser w html) \/ exists name, parse w html = Rejected name.
Proof.
  unfold html_parser. destruct (parse w html) as [doc | name];
    [left; reflexivity | right; exists name; reflexivity].
Qed.

Lemma BeautifulSoup_parsed w html :
  parse w html = Parsed (html_parser w html) ->
  BeautifulSoup w html = ([], Ok (html_parser w html)).
Proof. intros H. unfold BeautifulSoup. rewrite H. reflexivity. Qed.

Lemma main_started w script u n :
  argv w = [script; u] -> urlparse w u = Some n ->
  main w =
    (print ("Analyzing website: " ++ u) ;;
     print "Please wait..." ;;
     page_data <- analyze_page w u ;;
     match page_data with
     | Some page_data =>
         report <- generate_report page_data ;;
         write_file "seo_analysis.json" (Json.dumps (artifact w page_data report)) ;;
         print (nl ++ "Detailed results saved to: seo_analysis.json")
     | None =>
         print "Failed to analyze the website. Check the URL and try again."
     end).
Proof. intros Ha Hu. unfold main. rewrite Ha, Hu. reflexivity. Qed.

(** A run whose fetch raises: the error is printed, then the failure
    notice; nothing else happens. *)
Lemma main_fetch_raises w script u n :
  argv w = [script; u] -> urlparse w u = Some n ->
  fetch_raises (requests_get w u) ->
  exists e,
    main w =
      ([Print ("Analyzing website: " ++ u); Print "Please wait...";
        Print ("Error fetching " ++ u ++ ": " ++ e);
        Print "Failed to analyze the website. Check the URL and try again."],
       Ok tt).
Proof.
  intros Ha Hu Hf. destruct (fetch_page_raises w u Hf) as [e He].
  exists e. rewrite (main_started w script u n Ha Hu).
  unfold analyze_page. rewrite He. reflexivity.
Qed.

(** A run whose fetch returns an empty body. *)
Lemma main_empty_body w script u n r :
  argv w = [script; u] -> urlparse w u = Some n ->
  requests_get w u = GetReturns r -> ~ (400 <= status_code r < 600) ->
  text r = EmptyString ->
  main w =
    ([Print ("Analyzing website: " ++ u); Print "Please wait...";
      Print "Failed to analyze the website. Check the URL and try again."],
     Ok tt).
Proof.
  intros Ha Hu Hget Hst Hbody. rewrite (main_started w script u n Ha Hu).
  unfold analyze_page. rewrite (fetch_page_returns w u r Hget Hst), Hbody. reflexivity.
Qed.

(** A run whose request raises an exception that is no
    [RequestException]: the run ends with it. *)
Lemma main_fetch_crashes w script u n name :
  argv w = [script; u] -> urlparse w u = Some n ->
  requests_get w u = GetCrashes name ->
  main w = ([Print ("Analyzing website: " ++ u); Print "Please wait..."],
            Raised (LibraryError name)).
Proof.
  intros Ha Hu Hget. rewrite (main_started w script u n Ha Hu).
  unfold analyze_page. rewrite (fetch_page_crashes w u name Hget). reflexivity.
Qed.

(** A run whose page is fetched and rejected by the parser. *)
Lemma main_parse_rejected w script u n r name :
  argv w = [script; u] -> urlparse w u = Some n ->
  requests_get w u = GetReturns r -> ~ (400 <= status_code r < 600) ->
  text r <> EmptyString ->
  parse w (text r) = Rejected name ->
  main w = ([Print ("Analyzing website: " ++ u); Print "Please wait..."],
            Raised (LibraryError name)).
Proof.
  intros Ha Hu Hget Hst Hbody Hp. rewrite (main_started w script u n Ha Hu).
  unfold analyze_page, BeautifulSoup. rewrite (fetch_page_returns w u r Hget Hst).
  cbn [bind]. rewrite Hp.
  destruct (text r) as [| c body] eqn:Ht; [congruence |]. reflexivity.
Qed.

Lemma bind_ret_l {A B} (a : A) (f : A -> M B) : bind ([], Ok a) f = f a.
Proof. unfold bind. destruct (f a); reflexivity. Qed.

(** A page that is fetched and parsed: what is left is the extraction. *)
Lemma analyze_page_parsed w u r :
  requests_get w u = GetReturns r -> ~ (400 <= status_code r < 600) ->
  text r <> EmptyString ->
  parse w (text r) = Parsed (html_parser w (text r)) ->
  analyze_page w u =
    (page_data <- extract u (html_parser w (text r)) ;; ret (Some page_data)).
Proof.
  intros Hget Hst Hbody Hp.
  unfold analyze_page. rewrite (fetch_page_returns w u r Hget Hst), bind_ret_l.
  destruct (text r) as [| c body] eqn:Ht; [congruence |].
  cbn [truthy negb].
  rewrite (BeautifulSoup_parsed w _ Hp), bind_ret_l. reflexivity.
Qed.

(** A run whose page is fetched and parsed and whose extraction raises. *)
Lemma main_extract_raises w script u n r e :
  argv w = [script; u] -> urlparse w u = Some n ->
  requests_get w u = GetReturns r -> ~ (400 <= status_code r < 600) ->
  text r <> EmptyString ->
  parse w (text r) = Parsed (html_parser w (text r)) ->
  outcome (extract u (html_parser w (text r))) = Raised e ->
  main w = ([Print ("Analyzing website: " ++ u); Print "Please wait..."], Raised e).
Proof.
  intros Ha Hu Hget Hst Hbody Hp Hx. rewrite (main_started w script u n Ha Hu).
  rewrite (analyze_page_parsed w u r Hget Hst Hbody Hp).
  rewrite (extract_pair u (html_parser w (text r))), Hx. reflexivity.
Qed.

Lemma analyze_page_extracts w u r pd :
  requests_get w u = GetReturns r -> ~ (400 <= status_code r < 600) ->
  text r <> EmptyString ->
  parse w (text r) = Parsed (html_parser w (text r)) ->
  outcome (extract u (html_parser w (text r))) = Ok pd ->
  analyze_page w u = ([], Ok (Some pd)).
Proof.
  intros Hget Hst Hbody Hp Hx.
  rewrite (analyze_page_parsed w u r Hget Hst Hbody Hp).
  rewrite (extract_pair u (html_parser w (text r))), Hx. reflexivity.
Qed.

Lemma pair_of_run {A} (m : M A) : m = (trace m, outcome m).
Proof. destruct m; reflexivity. Qed.

(** A run whose page is fetched and extracted: the report is printed, the
    file written, the closing line printed. *)
Lemma main_success w script u n r pd :
  argv w = [script; u] -> urlparse w u = Some n ->
  requests_get w u = GetReturns r -> ~ (400 <= status_code r < 600) ->
  text r <> EmptyString ->
  parse w (text r) = Parsed (html_parser w (text r)) ->
  outcome (extract u (html_parser w (text r))) = Ok pd ->
  exists report,
    outcome (generate_report pd) = Ok report /\
    main w =
      (([Print ("Analyzing website: " ++ u); Print "Please wait..."]
        ++ trace (generate_report pd)
        ++ [WriteFile "seo_analysis.json" (Json.dumps (artifact w pd report));
            Print (nl ++ "Detailed results saved to: seo_analysis.json")])%list,
       Ok tt).
Proof.
  intros Ha Hu Hget Hst Hbody Hp Hx. eexists. split; [apply generate_report_returns |].
  rewrite (main_started w script u n Ha Hu).
  rewrite (analyze_page_extracts w u r pd Hget Hst Hbody Hp Hx).
  rewrite (pair_of_run (_ ;; _)).
  repeat (rewrite ?trace_bind, ?outcome_bind; cbn [trace outcome fst snd print]).
  rewrite generate_report_returns.
  repeat (rewrite ?trace_bind, ?outcome_bind; cbn [trace outcome fst snd print write_file]).
  reflexivity.
Qed.

End MainFacts.

(* ================================================================== *)
(** * Claims about failed and successful runs *)
(* ================================================================== *)

Section RunClaims.
Import PyStr Analyzer Run RunSpec.
Local Open Scope string_scope.
Local Open Scope Z_scope.

Lemma banner_head : exists rest, report_banner = String "=" rest.
Proof. eexists. vm_compute. reflexivity. Qed.

Ltac not_banner :=
  let H := fresh "H" in
  let rest := fresh "rest" in
  let Hb := fresh "Hb" in
  unfold printed; cbn [trace fst In];
  destruct banner_head as [rest Hb]; rewrite Hb;
  intros H;
  repeat (destruct H as [H | H]; [discriminate H |]); exact H.

(** Every run of [main] either prints no report and writes nothing, or
    prints the whole report and then writes the one file. *)
Lemma main_all_or_nothing (w : world) :
  (writes (main w) = [] /\ ~ printed report_banner (main w)) \/
  (exists u pd report,
     outcome (generate_report pd) = Ok report /\
     main w =
       (([Print ("Analyzing website: " ++ u); Print "Please wait..."]
         ++ trace (generate_report pd)
         ++ [WriteFile output_file (Json.dumps (artifact w pd report));
             Print (nl ++ "Detailed results saved to: seo_analysis.json")])%list,
        Ok tt) /\
     writes (main w) = [WriteFile output_file (Json.dumps (artifact w pd report))]).
Proof.
  destruct (argv w) as [| script [| u [| x rest]]] eqn:Ha;
    try (left; unfold main; rewrite Ha; split; [reflexivity | not_banner]).
  destruct (urlparse w u) as [n |] eqn:Hu;
    [| left; unfold main; rewrite Ha, Hu; split; [reflexivity | not_banner]].
  destruct (fetch_page_cases w u) as [Hf | [(r & Hget & Hst) | (name & Hget)]].
  - left. destruct (main_fetch_raises w script u n Ha Hu Hf) as [e ->].
    split; [reflexivity | not_banner].
  - destruct (text r) as [| c body] eqn:Hbody.
    + left. rewrite (main_empty_body w script u n r Ha Hu Hget Hst Hbody).
      split; [reflexivity | not_banner].
    + assert (Hne : text r <> EmptyString) by (rewrite Hbody; discriminate).
      destruct (parse_cases w (text r)) as [Hp | (name & Hp)];
        [| left; rewrite (main_parse_rejected w script u n r name Ha Hu Hget Hst Hne Hp);
           split; [reflexivity | not_banner]].
      destruct (outcome (extract u (html_parser w (text r)))) as [pd | e] eqn:Hx.
      * right.
        destruct (main_success w script u n r pd Ha Hu Hget Hst Hne Hp Hx)
          as (report & Hr & Hm).
        exists u, pd, report. split; [exact Hr |]. split; [exact Hm |].
        rewrite Hm. unfold writes. cbn [trace fst].
        rewrite !filter_app. fold (writes (generate_report pd)).
        rewrite generate_report_writes. reflexivity.
      * left. rewrite (main_extract_raises w script u n r e Ha Hu Hget Hst Hne Hp Hx).
        split; [reflexivity | not_banner].
  - left. rewrite (main_fetch_crashes w script u n name Ha Hu Hget).
    split; [reflexivity | not_banner].
Qed.

(** C6, amended.  When the fetch fails, that is when [requests.get] raises
    (transport error, timeout) or the status is 4xx or 5xx, the program
    prints the error, prints that the analysis failed, and ends: no report
    is printed and no file is written.  And every run either prints the full
    report and writes the artifact, or prints no report and writes nothing. *)
Theorem fetch_failure_writes_nothing :
  (forall w script u,
     argv w = [script; u] -> urlparse w u <> None ->
     fetch_raises (requests_get w u) ->
     exists e,
       main w =
         ([Print ("Analyzing website: " ++ u); Print "Please wait...";
           Print ("Error fetching " ++ u ++ ": " ++ e);
           Print "Failed to analyze the website. Check the URL and try again."],
          Ok tt) /\
       writes (main w) = [] /\
       ~ printed report_banner (main w)) /\
  (forall w,
     (writes (main w) = [] /\ ~ printed report_banner (main w)) \/
     (exists u pd report,
        outcome (generate_report pd) = Ok report /\
        main w =
          (([Print ("Analyzing website: " ++ u); Print "Please wait..."]
            ++ trace (generate_report pd)
            ++ [WriteFile output_file (Json.dumps (artifact w pd report));
                Print (nl ++ "Detailed results saved to: seo_analysis.json")])%list,
           Ok tt) /\
        writes (main w) = [WriteFile output_file (Json.dumps (artifact w pd report))])).
Proof.
  split; [| exact main_all_or_nothing].
  intros w script u Ha Hu Hf.
  destruct (urlparse w u) as [n |] eqn:Hn; [| congruence].
  destruct (main_fetch_raises w script u n Ha Hn Hf) as [e He].
  exists e. split; [exact He |]. rewrite He.
  split; [reflexivity | not_banner].
Qed.

(** A timeout and a 404: the error is printed and nothing is written. *)
Lemma fetch_failure_writes_nothing_witness :
  (exists e,
     main Samples.world_timeout =
       ([Print ("Analyzing website: " ++ Samples.sample_url); Print "Please wait...";
         Print ("Error fetching " ++ Samples.sample_url ++ ": " ++ e);
         Print "Failed to analyze the website. Check the URL and try again."],
        Ok tt) /\
     writes (main Samples.world_timeout) = [] /\
     ~ printed report_banner (main Samples.world_timeout)) /\
  (exists e,
     main Samples.world_404 =
       ([Print ("Analyzing website: " ++ Samples.sample_url); Print "Please wait...";
         Print ("Error fetching " ++ Samples.sample_url ++ ": " ++ e);
         Print "Failed to analyze the website. Check the URL and try again."],
        Ok tt) /\
     writes (main Samples.world_404) = [] /\
     ~ printed report_banner (main Samples.world_404)).
Proof.
  split.
  - apply (proj1 fetch_failure_writes_nothing Samples.world_timeout
             "seo_analyzer.py" Samples.sample_url).
    + reflexivity.
    + discriminate.
    + exact I.
  - apply (proj1 fetch_failure_writes_nothing Samples.world_404
             "seo_analyzer.py" Samples.sample_url).
    + reflexivity.
    + discriminate.
    + cbn. lia.
Defined.

(** C6 as stated fails: a response with status 300 and a body is not a 2xx
    response, yet [raise_for_status] lets it through, the page is analysed
    and the artifact is written. *)
Lemma non_2xx_fetch_still_writes :
  fetch_fails_by_status (requests_get Samples.world_300 Samples.sample_url) /\
  exists content,
    writes (main Samples.world_300) = [WriteFile output_file content].
Proof.
  split.
  - cbn. lia.
  - eexists. vm_compute. reflexivity.
Qed.

Lemma analyze_page_success_inv w u pd :
  outcome (analyze_page w u) = Ok (Some pd) ->
  exists r,
    requests_get w u = GetReturns r /\ ~ (400 <= status_code r < 600) /\
    text r <> EmptyString /\
    parse w (text r) = Parsed (html_parser w (text r)) /\
    outcome (extract u (html_parser w (text r))) = Ok pd.
Proof.
  intros H.
  destruct (fetch_page_cases w u) as [Hf | [(r & Hget & Hst) | (name & Hget)]].
  - destruct (fetch_page_raises w u Hf) as [e He].
    unfold analyze_page in H. rewrite He in H. discriminate H.
  - exists r.
    assert (Hne : text r <> EmptyString).
    { intros Hbody. unfold analyze_page in H.
      rewrite (fetch_page_returns w u r Hget Hst), bind_ret_l, Hbody in H.
      discriminate H. }
    destruct (parse_cases w (text r)) as [Hp | (name & Hp)].
    + rewrite (analyze_page_parsed w u r Hget Hst Hne Hp) in H.
      rewrite (extract_pair u (html_parser w (text r))) in H.
      destruct (outcome (extract u (html_parser w (text r)))) as [pd' | e] eqn:Hx;
        [| discriminate H].
      cbn in H. injection H as <-.
      repeat split; [exact Hget | exact Hst | exact Hne | exact Hp].
    + unfold analyze_page, BeautifulSoup in H.
      rewrite (fetch_page_returns w u r Hget Hst), bind_ret_l, Hp in H.
      destruct (text r); [congruence | discriminate H].
  - unfold analyze_page in H. rewrite (fetch_page_crashes w u name Hget) in H.
    discriminate H.
Qed.

(** C7, as the code has it.  On every successful run exactly one file is
    written, [seo_analysis.json], holding the dict with the three keys
    [analysis_date], [page_data] and [report]; the page data and the report
    are the full ones, but [analysis_date] holds the interpreter's version
    string and so is the same whenever the run takes place. *)
Theorem artifact_holds_interpreter_version w script u pd :
  argv w = [script; u] -> urlparse w u <> None ->
  outcome (analyze_page w u) = Ok (Some pd) ->
  exists report,
    outcome (generate_report pd) = Ok report /\
    outcome (main w) = Ok tt /\
    writes (main w) = [WriteFile "seo_analysis.json" (Json.dumps (artifact w pd report))] /\
    artifact w pd report =
      Json.PyDict [("analysis_date", Json.PyStr (sys_version w));
                   ("page_data", page_data_value pd);
                   ("report", report_value report)] /\
    dict_field "analysis_date" (artifact w pd report) = Some (Json.PyStr (sys_version w)) /\
    forall t, main (at_time t w) = main w.
Proof.
  intros Ha Hu Hp.
  destruct (urlparse w u) as [n |] eqn:Hn; [| congruence].
  destruct (analyze_page_success_inv w u pd Hp) as (r & Hget & Hst & Hbody & Hparse & Hx).
  destruct (main_success w script u n r pd Ha Hn Hget Hst Hbody Hparse Hx)
    as (report & Hr & Hm).
  exists report. split; [exact Hr |].
  split; [rewrite Hm; reflexivity |].
  split.
  { rewrite Hm. unfold writes. cbn [trace fst]. rewrite !filter_app.
    fold (writes (generate_report pd)). rewrite generate_report_writes. reflexivity. }
  split; [reflexivity |]. split; [reflexivity |].
  intros t. reflexivity.
Qed.

(** The same page analysed at two times: the same file, with the same
    [analysis_date]. *)
Lemma artifact_holds_interpreter_version_witness :
  clock Samples.world_ok <> clock Samples.world_later /\
  writes (main Samples.world_later) = writes (main Samples.world_ok) /\
  exists report,
    writes (main Samples.world_ok) =
      [WriteFile "seo_analysis.json"
         (Json.dumps (artifact Samples.world_ok
                        (Samples.page_of Samples.doc_end_to_end) report))] /\
    dict_field "analysis_date"
      (artifact Samples.world_ok (Samples.page_of Samples.doc_end_to_end) report)
    = Some (Json.PyStr "3.11.4 (main, Jun  7 2023, 10:13:09) [GCC 12.2.0]").
Proof.
  destruct (artifact_holds_interpreter_version Samples.world_ok "seo_analyzer.py"
              Samples.sample_url (Samples.page_of Samples.doc_end_to_end))
    as (report & _ & _ & Hw & _ & Hd & Ht).
  - reflexivity.
  - discriminate.
  - vm_compute. reflexivity.
  - split; [discriminate |].
    split; [rewrite <- (Ht 1800000000); reflexivity |].
    exists report. split; [exact Hw | exact Hd].
Defined.

End RunClaims.

(* ================================================================== *)
(** * The keyword pattern reads words followed by U+0008 *)
(* ================================================================== *)

Section TokenFacts.
Import PyStr Re KeywordSpec.

Lemma az_is_word (c : ascii) : is_az c = true -> is_word c = true.
Proof.
  unfold is_az, is_word, is_alnum. intros ->.
  rewrite !orb_true_r. reflexivity.
Qed.

Lemma string_length_app (a b : string) :
  String.length (a ++ b) = (String.length a + String.length b)%nat.
Proof. induction a as [| c a IH]; [reflexivity |]. simpl. rewrite IH. reflexivity. Qed.

Lemma span_app p s : s = (fst (span p s) ++ snd (span p s))%string.
Proof.
  induction s as [| c s IH]; [reflexivity |].
  cbn [span]. destruct (p c); [| reflexivity].
  destruct (span p s) as [l rest]. cbn [fst snd] in *. cbn [append]. congruence.
Qed.

Lemma span_length p s :
  (String.length (snd (span p s)) <= String.length s)%nat.
Proof.
  induction s as [| c s IH]; [simpl; lia |].
  cbn [span]. destruct (p c); [| simpl; lia].
  destruct (span p s) as [l rest]. cbn [fst snd String.length] in *. lia.
Qed.

(** What follows the span does not start with a character of the class. *)
Lemma span_rest p s : starts_with_class p (snd (span p s)) = false.
Proof.
  induction s as [| c s IH]; [reflexivity |].
  cbn [span]. destruct (p c) eqn:E.
  - destruct (span p s) as [l rest]. exact IH.
  - cbn [snd starts_with_class]. exact E.
Qed.

Lemma span_all p s : all_chars p (fst (span p s)) = true.
Proof.
  induction s as [| c s IH]; [reflexivity |].
  cbn [span]. destruct (p c) eqn:E; [| reflexivity].
  destruct (span p s) as [l rest]. cbn [fst all_chars] in *. rewrite E, IH. reflexivity.
Qed.

Lemma span_none p s : starts_with_class p s = false -> span p s = (EmptyString, s).
Proof.
  destruct s as [| c s]; [reflexivity |].
  cbn [starts_with_class span]. intros ->. reflexivity.
Qed.

(** A span for a class is a span for a larger class when nothing of the
    larger class follows; and back when the larger span is all in the
    smaller class. *)
Lemma span_widen (p q : ascii -> bool) s :
  (forall c, p c = true -> q c = true) ->
  starts_with_class q (snd (span p s)) = false ->
  span q s = span p s.
Proof.
  intros Hpq. induction s as [| c s IH]; [reflexivity |].
  cbn [span]. destruct (p c) eqn:E.
  - rewrite (Hpq c E). destruct (span p s) as [l rest]. cbn [snd] in *.
    intros H. rewrite (IH H). reflexivity.
  - cbn [snd starts_with_class]. intros ->. reflexivity.
Qed.

Lemma span_narrow (p q : ascii -> bool) s :
  (forall c, p c = true -> q c = true) ->
  all_chars p (fst (span q s)) = true ->
  span p s = span q s.
Proof.
  intros Hpq. induction s as [| c s IH]; [reflexivity |].
  cbn [span]. destruct (q c) eqn:Eq.
  - destruct (span q s) as [l rest]. cbn [fst all_chars] in *.
    intros H. apply andb_true_iff in H. destruct H as [Hc Hl].
    rewrite Hc, (IH Hl). reflexivity.
  - destruct (p c) eqn:Ep; [| reflexivity].
    rewrite (Hpq c Ep) in Eq. discriminate Eq.
Qed.

(** The runs of a class, one span at a time. *)
Lemma runs_skip p c s : p c = false -> runs p (String c s) = runs p s.
Proof. intros H. cbn [runs]. rewrite H. reflexivity. Qed.

Lemma runs_span p s :
  starts_with_class p s = true ->
  runs p s = fst (span p s) :: runs p (snd (span p s)).
Proof.
  induction s as [| c s IH]; [discriminate |].
  cbn [starts_with_class]. intros Hc. cbn [runs span]. rewrite Hc.
  destruct s as [| c' s'].
  - reflexivity.
  - destruct (p c') eqn:Ec'.
    + rewrite (IH Ec'). destruct (span p (String c' s')) as [l rest]. reflexivity.
    + rewrite (span_none p (String c' s')) by exact Ec'. reflexivity.
Qed.

Lemma runs_after_span p s : runs p (snd (span p (snd (span p s)))) = runs p (snd (span p s)).
Proof. rewrite (span_none p (snd (span p s)) (span_rest p s)). reflexivity. Qed.

Lemma last_char_class p a l :
  p a = true -> all_chars p l = true -> p (last_char a l) = true.
Proof.
  revert a. induction l as [| b l IH]; intros a Ha Hl; [exact Ha |].
  cbn [all_chars] in Hl. apply andb_true_iff in Hl. destruct Hl as [Hb Hl].
  cbn [last_char]. apply IH; assumption.
Qed.

Lemma all_chars_app p a b : all_chars p (a ++ b) = all_chars p a && all_chars p b.
Proof.
  induction a as [| c a IH]; [reflexivity |].
  cbn [append all_chars]. rewrite IH, andb_assoc. reflexivity.
Qed.

(** ** The character U+0008 *)

Lemma is_backspace c : is_char backspace c = true -> c = backspace.
Proof. unfold is_char. intros H. apply Ascii.eqb_eq in H. symmetry. exact H. Qed.

Lemma backspace_not_word : is_word backspace = false.
Proof. reflexivity. Qed.

Lemma az_not_backspace c : is_az c = true -> is_char backspace c = false.
Proof.
  intros Ha. destruct (is_char backspace c) eqn:E; [| reflexivity].
  apply is_backspace in E. subst c. vm_compute in Ha. discriminate Ha.
Qed.

Lemma backspace_ahead_no_word s :
  starts_with_class (is_char backspace) s = true -> starts_with_class is_word s = false.
Proof.
  destruct s as [| c s]; [discriminate |]. cbn [starts_with_class].
  intros H. apply is_backspace in H. subst c. reflexivity.
Qed.

Lemma followed_head s :
  followed_by_backspace (head_char s) = starts_with_class (is_char backspace) s.
Proof. destruct s; reflexivity. Qed.

Lemma last_char_marked a l : last_char a (marked l) = backspace.
Proof.
  revert a. induction l as [| b l IH]; intros a; [reflexivity |].
  cbn [marked append last_char]. apply (IH b).
Qed.

(** The letters are taken to the end of their run, and there the character
    U+0008 is asked for: giving letters back never helps, for then a letter
    would have to be that character. *)
Lemma rep_match_letters (n : nat) (s : string) :
  forall cnt prev,
    rep_match n is_az (match_here [Chr (is_char backspace)]) cnt prev s =
      if (n <=? cnt + String.length (fst (span is_az s)))%nat
         && starts_with_class (is_char backspace) (snd (span is_az s))
      then Some (marked (fst (span is_az s)), drop_first (snd (span is_az s)))
      else None.
Proof.
  induction s as [| a s IH]; intros cnt prev.
  - cbn [rep_match span fst snd starts_with_class match_here].
    rewrite andb_false_r. destruct (n <=? cnt)%nat; reflexivity.
  - cbn [rep_match span]. destruct (is_az a) eqn:Ea.
    + rewrite (IH (S cnt) (Some a)).
      destruct (span is_az s) as [l rest]. cbn [fst snd String.length].
      replace (S cnt + String.length l)%nat with (cnt + S (String.length l))%nat by lia.
      destruct ((n <=? cnt + S (String.length l))%nat
                && starts_with_class (is_char backspace) rest); [reflexivity |].
      destruct (n <=? cnt)%nat; [| reflexivity].
      cbn [match_here]. rewrite (az_not_backspace a Ea). reflexivity.
    + cbn [fst snd String.length starts_with_class drop_first]. rewrite Nat.add_0_r.
      destruct (n <=? cnt)%nat; cbn [andb]; [| reflexivity].
      cbn [match_here]. destruct (is_char backspace a) eqn:Eb; [| reflexivity].
      apply is_backspace in Eb. subst a. reflexivity.
Qed.

(** The keyword pattern at one position. *)
Lemma match_here_word (n : nat) prev s :
  match_here (word_re n) prev s =
    if at_boundary prev s
       && (n <=? String.length (fst (span is_az s)))%nat
       && starts_with_class (is_char backspace) (snd (span is_az s))
    then Some (marked (fst (span is_az s)), drop_first (snd (span is_az s)))
    else None.
Proof.
  unfold word_re. cbn [match_here].
  destruct (at_boundary prev s); [| reflexivity].
  fold (match_here [Chr (is_char backspace)]).
  rewrite (rep_match_letters n s 0 prev). rewrite <- andb_assoc. reflexivity.
Qed.

Lemma rep_match_first_nonempty (c : ascii -> bool) k prev s m rest :
  rep_match 1 c k 0 prev s = Some (m, rest) -> m <> EmptyString.
Proof.
  destruct s as [| a s]; cbn [rep_match Nat.leb]; [discriminate |].
  destruct (c a); [| discriminate].
  destruct (rep_match 1 c k 1 (Some a) s) as [[m' rest'] |]; [| discriminate].
  intros H. injection H as <- _. discriminate.
Qed.

(** None of the three patterns matches the empty string. *)
Lemma match_here_nonempty (p : regex) prev s m rest :
  p = tag_re \/ p = ws_re \/ (exists n, (1 <= n)%nat /\ p = word_re n) ->
  match_here p prev s = Some (m, rest) -> m <> EmptyString.
Proof.
  intros [-> | [-> | (n & Hn & ->)]].
  - unfold tag_re. cbn [match_here]. destruct s as [| a s]; [discriminate |].
    destruct (is_char "<" a); [| discriminate].
    destruct (rep_match 1 (not_char ">") _ 0 (Some a) s) as [[m' rest'] |];
      cbn [cons_match]; [| discriminate].
    intros H. injection H as <- _. discriminate.
  - unfold ws_re. cbn [match_here]. apply rep_match_first_nonempty.
  - rewrite (match_here_word n prev s).
    destruct (at_boundary prev s && _ && _); [| discriminate].
    intros H. injection H as <- _.
    destruct (fst (span is_az s)); discriminate.
Qed.

(** ** The scans have fuel to spare *)

Lemma rep_match_split min c k :
  (forall prev s m rest, k prev s = Some (m, rest) -> s = (m ++ rest)%string) ->
  forall s cnt prev m rest,
    rep_match min c k cnt prev s = Some (m, rest) -> s = (m ++ rest)%string.
Proof.
  intros Hk. induction s as [| a s IH]; intros cnt prev m rest; cbn [rep_match].
  - destruct (min <=? cnt)%nat; [apply Hk | discriminate].
  - destruct (c a).
    + destruct (rep_match min c k (S cnt) (Some a) s) as [[m' rest'] |] eqn:E.
      * intros H. injection H as <- <-. cbn [append]. f_equal. apply (IH _ _ _ _ E).
      * destruct (min <=? cnt)%nat; [apply Hk | discriminate].
    + destruct (min <=? cnt)%nat; [apply Hk | discriminate].
Qed.

(** A match is a prefix of the text it is looked for in. *)
Lemma match_here_split (p : regex) :
  forall prev s m rest, match_here p prev s = Some (m, rest) -> s = (m ++ rest)%string.
Proof.
  induction p as [| [c | min c |] k IH]; intros prev s m rest; cbn [match_here].
  - intros H. injection H as <- <-. reflexivity.
  - destruct s as [| a s]; [discriminate |].
    destruct (c a); [| discriminate].
    destruct (match_here k (Some a) s) as [[m' rest'] |] eqn:E; cbn [cons_match];
      [| discriminate].
    intros H. injection H as <- <-. cbn [append]. f_equal. apply (IH _ _ _ _ E).
  - apply rep_match_split. exact IH.
  - destruct (at_boundary prev s); [apply IH | discriminate].
Qed.

Lemma match_here_shorter p prev s a m rest :
  match_here p prev s = Some (String a m, rest) ->
  (String.length rest < String.length s)%nat.
Proof.
  intros H. apply match_here_split in H. subst s.
  cbn [append String.length]. rewrite string_length_app. lia.
Qed.

(** Any fuel above the length of the text gives the same result: every
    step of the scan moves on by at least one character. *)
Lemma sub_from_fuel p repl (fuel : nat) :
  forall fuel' prev s,
    (String.length s < fuel)%nat -> (String.length s < fuel')%nat ->
    sub_from fuel p repl prev s = sub_from fuel' p repl prev s.
Proof.
  induction fuel as [| fuel IH]; intros fuel' prev s Hf Hf'; [lia |].
  destruct fuel' as [| fuel']; [lia |].
  cbn [sub_from].
  destruct (match_here p prev s) as [[[| a m] rest] |] eqn:E.
  - destruct s as [| b s]; [reflexivity |].
    cbn [String.length] in Hf, Hf'. f_equal. apply IH; lia.
  - pose proof (match_here_shorter _ _ _ _ _ _ E) as Hlt.
    f_equal. apply IH; lia.
  - destruct s as [| b s]; [reflexivity |].
    cbn [String.length] in Hf, Hf'. f_equal. apply IH; lia.
Qed.

Lemma findall_from_fuel p (fuel : nat) :
  forall fuel' prev s,
    (String.length s < fuel)%nat -> (String.length s < fuel')%nat ->
    findall_from fuel p prev s = findall_from fuel' p prev s.
Proof.
  induction fuel as [| fuel IH]; intros fuel' prev s Hf Hf'; [lia |].
  destruct fuel' as [| fuel']; [lia |].
  cbn [findall_from].
  destruct (match_here p prev s) as [[[| a m] rest] |] eqn:E.
  - destruct s as [| b s]; [reflexivity |].
    cbn [String.length] in Hf, Hf'. apply IH; lia.
  - pose proof (match_here_shorter _ _ _ _ _ _ E) as Hlt.
    f_equal. apply IH; lia.
  - destruct s as [| b s]; [reflexivity |].
    cbn [String.length] in Hf, Hf'. apply IH; lia.
Qed.

(** With that fuel the scan reaches the end of the text: the replacement of
    the empty text is empty, and a text without match is copied. *)
Lemma sub_from_unfold p repl fuel prev s :
  (String.length s < fuel)%nat ->
  sub_from fuel p repl prev s =
    match match_here p prev s with
    | Some (String a m, rest) =>
        (repl ++ sub_from fuel p repl (Some (last_char a m)) rest)%string
    | _ =>
        match s with
        | EmptyString => EmptyString
        | String a s' => String a (sub_from fuel p repl (Some a) s')
        end
    end.
Proof.
  intros Hf. destruct fuel as [| fuel]; [lia |].
  destruct (match_here p prev s) as [[[| a m] rest] |] eqn:E.
  - destruct s as [| b s]; [cbn [sub_from]; rewrite E; reflexivity |].
    cbn [String.length] in Hf.
    rewrite (sub_from_fuel p repl (S fuel) fuel (Some b) s) by lia.
    cbn [sub_from]. rewrite E. reflexivity.
  - pose proof (match_here_shorter _ _ _ _ _ _ E) as Hlt.
    rewrite (sub_from_fuel p repl (S fuel) fuel (Some (last_char a m)) rest) by lia.
    cbn [sub_from]. rewrite E. reflexivity.
  - destruct s as [| b s]; [cbn [sub_from]; rewrite E; reflexivity |].
    cbn [String.length] in Hf.
    rewrite (sub_from_fuel p repl (S fuel) fuel (Some b) s) by lia.
    cbn [sub_from]. rewrite E. reflexivity.
Qed.

End TokenFacts.

Section FindallFacts.
Import PyStr Re KeywordSpec.

Variable n : nat.
Hypothesis n_positive : (1 <= n)%nat.

Lemma not_word_not_az (c : ascii) : is_word c = false -> is_az c = false.
Proof.
  intros H. destruct (is_az c) eqn:E; [| reflexivity].
  rewrite (az_is_word c E) in H. discriminate H.
Qed.

Lemma word_after_class s : word_after s = starts_with_class is_word s.
Proof. destruct s; reflexivity. Qed.

Lemma runs_next_skip p c s : p c = false -> runs_next p (String c s) = runs_next p s.
Proof. intros H. cbn [runs_next]. rewrite H. reflexivity. Qed.

(** The runs of a class with what follows them, one span at a time. *)
Lemma runs_next_span p s :
  starts_with_class p s = true ->
  runs_next p s =
    (fst (span p s), head_char (snd (span p s))) :: runs_next p (snd (span p s)).
Proof.
  induction s as [| c s IH]; [discriminate |].
  cbn [starts_with_class]. intros Hc. cbn [runs_next span]. rewrite Hc.
  destruct s as [| c' s'].
  - reflexivity.
  - destruct (p c') eqn:Ec'.
    + rewrite (IH Ec'). destruct (span p (String c' s')) as [l rest]. reflexivity.
    + rewrite (span_none p (String c' s')) by exact Ec'. reflexivity.
Qed.

(** No match where no word starts. *)
Lemma no_match_inside_word prev a s :
  word_before prev = true -> is_word a = true ->
  match_here (word_re n) prev (String a s) = None.
Proof.
  intros Hp Ha. rewrite match_here_word.
  unfold at_boundary at 1. rewrite Hp. cbn [word_after]. rewrite Ha. reflexivity.
Qed.

Lemma no_match_at_non_word prev a s :
  is_word a = false -> match_here (word_re n) prev (String a s) = None.
Proof.
  intros Ha. rewrite match_here_word.
  cbn [span]. rewrite (not_word_not_az a Ha). cbn [fst snd String.length].
  replace (n <=? 0)%nat with false by (symmetry; apply Nat.leb_gt; lia).
  rewrite andb_false_r. reflexivity.
Qed.

(** Where a word starts, the pattern matches exactly when the word is made
    of enough letters and the character U+0008 follows it, and then it
    matches the word with that character. *)
Lemma match_at_word_start prev a s :
  word_before prev = false -> is_word a = true ->
  match_here (word_re n) prev (String a s) =
    if is_token n (fst (span is_word (String a s)))
       && starts_with_class (is_char backspace) (snd (span is_word (String a s)))
    then Some (marked (fst (span is_word (String a s))),
               drop_first (snd (span is_word (String a s))))
    else None.
Proof.
  intros Hp Ha. rewrite match_here_word.
  unfold at_boundary at 1. rewrite Hp. cbn [word_after]. rewrite Ha. cbn [xorb andb].
  unfold is_token.
  destruct (all_chars is_az (fst (span is_word (String a s)))) eqn:Hall.
  - (* the word is made of letters: both spans agree *)
    rewrite (span_narrow is_az is_word (String a s) az_is_word Hall).
    reflexivity.
  - (* some character of the word is not a letter *)
    cbn [andb].
    destruct ((n <=? String.length (fst (span is_az (String a s))))%nat
              && starts_with_class (is_char backspace) (snd (span is_az (String a s))))
      eqn:Hc; [| reflexivity].
    exfalso. apply andb_true_iff in Hc. destruct Hc as [_ Hb].
    apply backspace_ahead_no_word in Hb.
    rewrite (span_widen is_az is_word (String a s) az_is_word Hb) in Hall.
    rewrite (span_all is_az (String a s)) in Hall. discriminate Hall.
Qed.

Lemma span_word_nonempty a s :
  is_word a = true ->
  exists b l, fst (span is_word (String a s)) = String b l.
Proof.
  intros Ha. cbn [span]. rewrite Ha. destruct (span is_word s). cbn [fst]. eauto.
Qed.

(** [findall] with the keyword pattern, started anywhere in the text: the
    word the position is inside of, if any, is skipped; every later word
    is kept, with the character U+0008, when it is made of enough letters
    and that character follows it. *)
Lemma findall_word_from (fuel : nat) :
  forall prev s,
    (String.length s < fuel)%nat ->
    findall_from fuel (word_re n) prev s =
      backspace_tokens n (if word_before prev then snd (span is_word s) else s).
Proof.
  unfold backspace_tokens.
  induction fuel as [| fuel IH]; intros prev s Hfuel; [lia |].
  destruct s as [| a s].
  { cbn [findall_from]. rewrite match_here_word.
    cbn [span fst snd starts_with_class]. rewrite andb_false_r.
    destruct (word_before prev); reflexivity. }
  cbn [String.length] in Hfuel.
  destruct (is_word a) eqn:Ha.
  - destruct (word_before prev) eqn:Hp.
    + (* inside a word: move on *)
      cbn [findall_from]. rewrite (no_match_inside_word prev a s Hp Ha).
      rewrite IH by lia. cbn [word_before]. rewrite Ha.
      cbn [span]. rewrite Ha. destruct (span is_word s). reflexivity.
    + (* at the start of a word *)
      rewrite (runs_next_span is_word (String a s)) by exact Ha.
      cbn [filter fst snd findall_from]. rewrite followed_head.
      rewrite (match_at_word_start prev a s Hp Ha).
      destruct (is_token n (fst (span is_word (String a s)))
                && starts_with_class (is_char backspace)
                     (snd (span is_word (String a s)))) eqn:Htok.
      * apply andb_true_iff in Htok. destruct Htok as [_ Hnext].
        destruct (span_word_nonempty a s Ha) as (b & l & Hfst).
        pose proof (span_length is_word (String a s)) as Hlen.
        destruct (span is_word (String a s)) as [w rest]. cbn [fst snd] in *. subst w.
        destruct rest as [| c rest]; [discriminate Hnext |].
        cbn [starts_with_class] in Hnext. apply is_backspace in Hnext. subst c.
        cbn [drop_first String.length] in *.
        change (marked (String b l)) with (String b (marked l)).
        cbn [map fst]. change (marked (String b l)) with (String b (marked l)).
        f_equal. rewrite IH by lia. cbn [word_before].
        rewrite last_char_marked, backspace_not_word.
        rewrite (runs_next_skip is_word backspace rest backspace_not_word).
        reflexivity.
      * rewrite IH by lia. cbn [word_before]. rewrite Ha.
        cbn [span]. rewrite Ha. destruct (span is_word s). reflexivity.
  - (* not a word character: move on *)
    cbn [findall_from]. rewrite (no_match_at_non_word prev a s Ha).
    rewrite IH by lia. cbn [word_before]. rewrite Ha.
    rewrite (span_none is_word (String a s)) by exact Ha.
    destruct (word_before prev); cbn [snd];
      rewrite (runs_next_skip is_word a s Ha); reflexivity.
Qed.

Lemma findall_word s :
  findall (word_re n) s = backspace_tokens n s.
Proof.
  unfold findall. rewrite findall_word_from by lia. reflexivity.
Qed.

End FindallFacts.

(* ================================================================== *)
(** * Counting and ranking *)
(* ================================================================== *)

Section CounterFacts.
Import Keywords KeywordSpec.
Local Open Scope Z_scope.

Lemma Counter_snoc ws w : Counter (ws ++ [w]) = counter_incr w (Counter ws).
Proof. unfold Counter. rewrite fold_left_app. reflexivity. Qed.

Lemma first_occurrences_in ws w : In w (first_occurrences ws) <-> In w ws.
Proof.
  induction ws as [| a ws IH]; [reflexivity |].
  cbn [first_occurrences In]. rewrite filter_In, IH.
  destruct (String.eqb_spec w a) as [-> | Hne].
  - split; [intros _; left; reflexivity | intros _; left; reflexivity].
  - split.
    + intros [H | [H _]]; [left; exact H | right; exact H].
    + intros [H | H]; [congruence |]. right. split; [exact H | reflexivity].
Qed.

Lemma first_occurrences_nodup ws : NoDup (first_occurrences ws).
Proof.
  induction ws as [| a ws IH]; [constructor |].
  cbn [first_occurrences]. constructor.
  - rewrite filter_In. intros [_ H]. rewrite String.eqb_refl in H. discriminate H.
  - apply NoDup_filter, IH.
Qed.

Lemma first_occurrences_snoc ws w :
  first_occurrences (ws ++ [w]) =
    if in_dec string_dec w ws then first_occurrences ws
    else first_occurrences ws ++ [w].
Proof.
  induction ws as [| a ws IH].
  - cbn. reflexivity.
  - cbn [app first_occurrences]. rewrite IH.
    destruct (in_dec string_dec w ws) as [Hin | Hout];
      destruct (in_dec string_dec w (a :: ws)) as [Hin' | Hout'].
    + reflexivity.
    + exfalso. apply Hout'. right. exact Hin.
    + destruct Hin' as [-> | Hin']; [| contradiction].
      rewrite filter_app. cbn [filter]. rewrite String.eqb_refl. cbn [negb].
      rewrite app_nil_r. reflexivity.
    + rewrite filter_app. cbn [filter].
      destruct (String.eqb_spec w a) as [-> | Hne];
        [exfalso; apply Hout'; left; reflexivity |].
      cbn [negb]. reflexivity.
Qed.

Lemma occurrences_snoc k ws w :
  occurrences k (ws ++ [w]) = occurrences k ws + (if String.eqb k w then 1 else 0).
Proof.
  unfold occurrences. rewrite count_occ_app. cbn [count_occ].
  destruct (string_dec w k) as [-> | Hne].
  - rewrite String.eqb_refl. lia.
  - destruct (String.eqb_spec k w) as [-> | _]; [congruence | lia].
Qed.

Lemma occurrences_absent w ws : ~ In w ws -> occurrences w ws = 0.
Proof.
  intros H. unfold occurrences. rewrite (proj1 (count_occ_not_In string_dec ws w) H).
  reflexivity.
Qed.

(** Incrementing a key of the counter that is there, and one that is not. *)
Lemma counter_incr_present (g : string -> Z) w ks :
  NoDup ks -> In w ks ->
  counter_incr w (map (fun k => (k, g k)) ks) =
    map (fun k => (k, g k + (if String.eqb k w then 1 else 0))) ks.
Proof.
  induction ks as [| k ks IH]; intros Hnd Hin; [destruct Hin |].
  apply NoDup_cons_iff in Hnd. destruct Hnd as [Hk Hks].
  cbn [map counter_incr].
  destruct (String.eqb_spec k w) as [Hkw | Hne].
  - f_equal. apply map_ext_in. intros k' Hk'.
    destruct (String.eqb_spec k' w) as [Hk'w | _]; [congruence |].
    rewrite Z.add_0_r. reflexivity.
  - rewrite Z.add_0_r. f_equal. apply IH; [exact Hks |].
    destruct Hin as [Heq | Hin]; [congruence | exact Hin].
Qed.

Lemma counter_incr_absent (g : string -> Z) w ks :
  ~ In w ks ->
  counter_incr w (map (fun k => (k, g k)) ks) =
    map (fun k => (k, g k)) ks ++ [(w, 1)].
Proof.
  induction ks as [| k ks IH]; intros Hout; [reflexivity |].
  cbn [map counter_incr app].
  destruct (String.eqb_spec k w) as [-> | Hne];
    [exfalso; apply Hout; left; reflexivity |].
  f_equal. apply IH. intros H. apply Hout. right. exact H.
Qed.

(** [Counter(words)]: the distinct words in the order of their first
    occurrence, each with the number of its occurrences. *)
Lemma Counter_counts ws : Counter ws = count_tokens ws.
Proof.
  induction ws as [| w ws IH] using rev_ind; [reflexivity |].
  rewrite Counter_snoc, IH. unfold count_tokens.
  rewrite first_occurrences_snoc.
  destruct (in_dec string_dec w ws) as [Hin | Hout].
  - rewrite counter_incr_present;
      [| apply first_occurrences_nodup | apply first_occurrences_in, Hin].
    apply map_ext. intros k. rewrite occurrences_snoc. reflexivity.
  - rewrite counter_incr_absent by (rewrite first_occurrences_in; exact Hout).
    rewrite map_app. cbn [map]. f_equal.
    + apply map_ext_in. intros k Hk. rewrite occurrences_snoc.
      destruct (String.eqb_spec k w) as [Hkw | _].
      * exfalso. apply Hout. apply first_occurrences_in. rewrite <- Hkw. exact Hk.
      * rewrite Z.add_0_r. reflexivity.
    + rewrite occurrences_snoc, String.eqb_refl, (occurrences_absent w ws Hout).
      reflexivity.
Qed.

(** ** [most_common] picks the best entry, then the best of the others *)

Lemma best_ge x l : snd x <= snd (best x l).
Proof.
  revert x. induction l as [| y l IH]; intros x; cbn [best]; [lia |].
  destruct (snd x <? snd y) eqn:E.
  - apply Z.ltb_lt in E. specialize (IH y). lia.
  - apply IH.
Qed.

Lemma best_cons x y l :
  best x (y :: l) = if snd (best y l) <=? snd x then x else best y l.
Proof.
  revert x y. induction l as [| z l IH]; intros x y.
  - cbn [best]. destruct (snd x <? snd y) eqn:E.
    + apply Z.ltb_lt in E.
      replace (snd y <=? snd x) with false by (symmetry; apply Z.leb_gt; lia).
      reflexivity.
    + apply Z.ltb_ge in E.
      replace (snd y <=? snd x) with true by (symmetry; apply Z.leb_le; lia).
      reflexivity.
  - change (best x (y :: z :: l))
      with (if snd x <? snd y then best y (z :: l) else best x (z :: l)).
    destruct (snd x <? snd y) eqn:E.
    + apply Z.ltb_lt in E. pose proof (best_ge y (z :: l)) as Hge.
      replace (snd (best y (z :: l)) <=? snd x) with false
        by (symmetry; apply Z.leb_gt; lia).
      reflexivity.
    + apply Z.ltb_ge in E. rewrite (IH x z), (IH y z).
      destruct (snd (best z l) <=? snd y) eqn:Ey.
      * apply Z.leb_le in Ey.
        replace (snd (best z l) <=? snd x) with true by (symmetry; apply Z.leb_le; lia).
        replace (snd y <=? snd x) with true by (symmetry; apply Z.leb_le; lia).
        reflexivity.
      * reflexivity.
Qed.

Lemma entry_eqb_refl e : entry_eqb e e = true.
Proof. unfold entry_eqb. rewrite String.eqb_refl, Z.eqb_refl. reflexivity. Qed.

Lemma entry_eqb_counts a b : snd a <> snd b -> entry_eqb a b = false.
Proof.
  intros H. unfold entry_eqb. apply Z.eqb_neq in H. rewrite H, andb_false_r. reflexivity.
Qed.

Lemma remove_first_head x l : remove_first x (x :: l) = l.
Proof. cbn [remove_first]. rewrite entry_eqb_refl. reflexivity. Qed.

Lemma remove_first_later e x l :
  snd x <> snd e -> remove_first e (x :: l) = x :: remove_first e l.
Proof. intros H. cbn [remove_first]. rewrite (entry_eqb_counts x e H). reflexivity. Qed.

(** The sorted list starts with the best entry and goes on with the others,
    sorted. *)
Lemma sorted_desc_cons x l :
  sorted_desc (x :: l) =
    best x l :: sorted_desc (remove_first (best x l) (x :: l)).
Proof.
  revert x. induction l as [| y l IH]; intros x.
  - cbn [best]. rewrite remove_first_head. reflexivity.
  - change (sorted_desc (x :: y :: l)) with (insert_desc x (sorted_desc (y :: l))).
    rewrite best_cons.
    destruct (snd (best y l) <=? snd x) eqn:E.
    + rewrite remove_first_head. rewrite (IH y) at 1.
      cbn [insert_desc]. rewrite E. rewrite <- (IH y). reflexivity.
    + rewrite (IH y) at 1. cbn [insert_desc]. rewrite E.
      apply Z.leb_gt in E. rewrite (remove_first_later (best y l) x (y :: l)) by lia.
      reflexivity.
Qed.

Lemma most_common_top n c : most_common n c = top n c.
Proof.
  unfold most_common. revert c. induction n as [| n IH]; intros c; [reflexivity |].
  destruct c as [| x l]; [reflexivity |].
  rewrite sorted_desc_cons. cbn [firstn top]. rewrite IH. reflexivity.
Qed.

End CounterFacts.

(* ================================================================== *)
(** * Claims about the keyword ranker *)
(* ================================================================== *)

Section KeywordClaims.
Import Keywords KeywordSpec.
Local Open Scope Z_scope.

Lemma filter_all {A} (f : A -> bool) (l : list A) :
  (forall x, In x l -> f x = true) -> filter f l = l.
Proof.
  induction l as [| x l IH]; intros H; [reflexivity |].
  cbn [filter]. rewrite (H x (or_introl eq_refl)). f_equal.
  apply IH. intros y Hy. apply H. right. exact Hy.
Qed.

Lemma no_backspace_app a b : no_backspace (a ++ b) = no_backspace a && no_backspace b.
Proof.
  induction a as [| c a IH]; [reflexivity |].
  cbn [append no_backspace]. rewrite IH, andb_assoc. reflexivity.
Qed.

Lemma no_backspace_marked w : no_backspace (marked w) = false.
Proof.
  unfold marked. rewrite no_backspace_app. cbn. apply andb_false_r.
Qed.

(** A token ends in the character U+0008, so it is none of the stop words:
    the filter of line 54 drops nothing. *)
Lemma marked_no_stop_word w : mem (marked w) stop_words = false.
Proof.
  assert (Hstop : forallb no_backspace stop_words = true) by (vm_compute; reflexivity).
  unfold mem. destruct (existsb (String.eqb (marked w)) stop_words) eqn:E; [| reflexivity].
  apply existsb_exists in E. destruct E as (x & Hx & Heq).
  apply String.eqb_eq in Heq. subst x.
  rewrite forallb_forall in Hstop. specialize (Hstop _ Hx).
  rewrite no_backspace_marked in Hstop. discriminate Hstop.
Qed.

Lemma stop_words_kept n s :
  drop_stop_words (backspace_tokens n s) = backspace_tokens n s.
Proof.
  unfold drop_stop_words. apply filter_all. intros x Hx.
  unfold backspace_tokens in Hx. apply in_map_iff in Hx.
  destruct Hx as (r & <- & _). rewrite marked_no_stop_word. reflexivity.
Qed.

(** [extract_keywords], for every minimal length of at least 1. *)
Lemma extract_keywords_tokens text n k :
  (1 <= n)%nat ->
  extract_keywords text n k = top k (count_tokens (backspace_tokens n (normalize text))).
Proof.
  intros Hn. unfold extract_keywords.
  change (Re.sub Re.ws_re " " (PyStr.lower (Re.sub Re.tag_re " " text)))
    with (normalize text).
  rewrite (findall_word n Hn).
  change (filter (fun word => negb (mem word stop_words)) (backspace_tokens n (normalize text)))
    with (drop_stop_words (backspace_tokens n (normalize text))).
  rewrite stop_words_kept, Counter_counts, most_common_top. reflexivity.
Qed.

(** ** A text without the character U+0008 *)

Lemma backspace_lower_char a :
  Re.is_char Re.backspace (PyStr.lower_char a) = Re.is_char Re.backspace a.
Proof.
  destruct a as [[|] [|] [|] [|] [|] [|] [|] [|]]; reflexivity.
Qed.

Lemma no_backspace_lower s : no_backspace (PyStr.lower s) = no_backspace s.
Proof.
  induction s as [| a s IH]; [reflexivity |].
  cbn [PyStr.lower no_backspace]. rewrite backspace_lower_char, IH. reflexivity.
Qed.

Lemma no_backspace_sub_from p repl :
  no_backspace repl = true ->
  forall fuel prev s,
    no_backspace s = true -> no_backspace (Re.sub_from fuel p repl prev s) = true.
Proof.
  intros Hrepl. induction fuel as [| fuel IH]; intros prev s Hs; [exact Hs |].
  cbn [Re.sub_from].
  assert (Hcopy : no_backspace
                    match s with
                    | EmptyString => EmptyString
                    | String a s' => String a (Re.sub_from fuel p repl (Some a) s')
                    end = true).
  { destruct s as [| a s]; [reflexivity |].
    cbn [no_backspace] in Hs |- *. apply andb_true_iff in Hs. destruct Hs as [Ha Hs].
    rewrite Ha. apply IH, Hs. }
  destruct (Re.match_here p prev s) as [[[| a m] rest] |] eqn:E; try exact Hcopy.
  apply match_here_split in E. subst s.
  rewrite no_backspace_app in Hs. apply andb_true_iff in Hs. destruct Hs as [_ Hrest].
  rewrite no_backspace_app, Hrepl. apply IH, Hrest.
Qed.

Lemma no_backspace_normalize text :
  no_backspace text = true -> no_backspace (normalize text) = true.
Proof.
  intros H. unfold normalize, Re.sub.
  apply no_backspace_sub_from; [reflexivity |].
  rewrite no_backspace_lower.
  apply no_backspace_sub_from; [reflexivity | exact H].
Qed.

Lemma runs_next_plain p s :
  no_backspace s = true ->
  forall r, In r (runs_next p s) -> followed_by_backspace (snd r) = false.
Proof.
  induction s as [| c s IH]; intros Hs r Hr; [destruct Hr |].
  cbn [no_backspace] in Hs. apply andb_true_iff in Hs. destruct Hs as [_ Hs].
  cbn [runs_next] in Hr. destruct (p c); [| exact (IH Hs r Hr)].
  destruct s as [| c' s']; [destruct Hr as [<- | []]; reflexivity |].
  destruct (p c').
  - destruct (runs_next p (String c' s')) as [| [r' next] rs] eqn:E.
    + destruct Hr as [<- | []]. reflexivity.
    + destruct Hr as [<- | Hr].
      * apply (IH Hs (r', next)). left. reflexivity.
      * apply (IH Hs r). right. exact Hr.
  - destruct Hr as [<- | Hr]; [| exact (IH Hs r Hr)].
    cbn [snd followed_by_backspace]. cbn [no_backspace] in Hs.
    apply andb_true_iff in Hs. destruct Hs as [Hc' _].
    apply negb_true_iff in Hc'. exact Hc'.
Qed.

Lemma backspace_tokens_plain n s : no_backspace s = true -> backspace_tokens n s = [].
Proof.
  intros Hs. unfold backspace_tokens.
  assert (Hnone : forall l,
            (forall r, In r l -> followed_by_backspace (snd r) = false) ->
            filter (fun r => is_token n (fst r) && followed_by_backspace (snd r)) l = []).
  { induction l as [| r l IH]; intros H; [reflexivity |].
    cbn [filter]. rewrite (H r (or_introl eq_refl)), andb_false_r.
    apply IH. intros r' Hr'. apply H. right. exact Hr'. }
  rewrite (Hnone _ (runs_next_plain PyStr.is_word s Hs)). reflexivity.
Qed.

Lemma top_nil k : top k [] = [].
Proof. destruct k; reflexivity. Qed.

(** C1, as the code has it.  The pattern of line 53 ends in the character
    U+0008, not in a word boundary: the tokens are the runs of at least 3
    letters a-z that start at a word boundary and are directly followed by
    that character, taken with it; no stop word is dropped, since none ends
    in it.  So for every text without the character U+0008 the result is
    empty. *)
Theorem extract_keywords_needs_backspace (text : string) :
  extract_keywords text 3 50 = rank_backspace_tokens text /\
  (no_backspace text = true -> extract_keywords text 3 50 = []).
Proof.
  assert (H : extract_keywords text 3 50 = rank_backspace_tokens text)
    by (apply extract_keywords_tokens; lia).
  split; [exact H |].
  intros Hplain. rewrite H. unfold rank_backspace_tokens.
  rewrite (backspace_tokens_plain 3 _ (no_backspace_normalize text Hplain)).
  reflexivity.
Qed.

(** C1 fails on every ordinary text: the code finds no keyword where the
    runs of letters, counted and ranked, give three; with the character
    U+0008 after a word the word is found, and a stop word is too. *)
Lemma plain_text_has_no_keywords :
  extract_keywords "Windows10 support and network support" 3 50 = [] /\
  rank_letter_runs "Windows10 support and network support"
    = [("support"%string, 2); ("windows"%string, 1); ("network"%string, 1)] /\
  extract_keywords (marked "repair" ++ " " ++ marked "the" ++ " repair") 3 50
    = [(marked "repair", 1); (marked "the", 1)].
Proof. repeat split; vm_compute; reflexivity. Qed.

Lemma in_insert_desc x y l : In y (insert_desc x l) <-> y = x \/ In y l.
Proof.
  induction l as [| z l IH]; cbn [insert_desc In]; [intuition congruence |].
  destruct (snd z <=? snd x); cbn [In]; [intuition congruence |].
  rewrite IH. intuition congruence.
Qed.

Lemma in_sorted_desc y l : In y (sorted_desc l) <-> In y l.
Proof.
  induction l as [| x l IH]; [reflexivity |].
  change (sorted_desc (x :: l)) with (insert_desc x (sorted_desc l)).
  rewrite in_insert_desc, IH. cbn [In]. intuition congruence.
Qed.

Lemma in_firstn_in {A} (n : nat) (l : list A) x : In x (firstn n l) -> In x l.
Proof.
  revert l. induction n as [| n IH]; intros [| y l]; cbn [firstn In]; try tauto.
  intros [-> | H]; [left; reflexivity | right; apply IH, H].
Qed.

Lemma insert_desc_sorted x l :
  StronglySorted (fun a b => snd b <= snd a) l ->
  StronglySorted (fun a b => snd b <= snd a) (insert_desc x l).
Proof.
  induction l as [| y l IH]; intros Hs; cbn [insert_desc].
  - constructor; constructor.
  - inversion Hs as [| ? ? Hl Hy]; subst.
    destruct (snd y <=? snd x) eqn:E.
    + apply Z.leb_le in E. constructor; [exact Hs |].
      constructor; [exact E |].
      rewrite Forall_forall in Hy |- *. intros z Hz. specialize (Hy z Hz). lia.
    + apply Z.leb_gt in E. constructor; [apply IH, Hl |].
      rewrite Forall_forall in Hy |- *. intros z Hz.
      apply in_insert_desc in Hz. destruct Hz as [-> | Hz]; [lia | apply Hy, Hz].
Qed.

Lemma sorted_desc_sorted l : StronglySorted (fun a b => snd b <= snd a) (sorted_desc l).
Proof.
  induction l as [| x l IH]; [constructor |].
  change (sorted_desc (x :: l)) with (insert_desc x (sorted_desc l)).
  apply insert_desc_sorted, IH.
Qed.

Lemma firstn_sorted {A} (R : A -> A -> Prop) n l :
  StronglySorted R l -> StronglySorted R (firstn n l).
Proof.
  revert l. induction n as [| n IH]; intros l Hs; [constructor |].
  destruct l as [| x l]; [constructor |].
  inversion Hs as [| ? ? Hl Hx]; subst. cbn [firstn].
  constructor; [apply IH, Hl |].
  rewrite Forall_forall in Hx |- *. intros y Hy. apply Hx. apply (in_firstn_in n l y Hy).
Qed.

(** X2.  For every text the ranked keywords are at most 50, sorted by
    descending count; every term is a run of at least 3 letters a-z with
    the character U+0008 after it, so no term is made of letters only and
    none is a stop word; every count is at least 1. *)
Theorem keywords_are_ranked_tokens (text : string) :
  (List.length (extract_keywords text 3 50) <= 50)%nat /\
  StronglySorted (fun a b => snd b <= snd a) (extract_keywords text 3 50) /\
  (forall w c, In (w, c) (extract_keywords text 3 50) ->
     (exists l, w = marked l /\
                all_chars PyStr.is_az l = true /\
                (3 <= String.length l)%nat) /\
     all_chars PyStr.is_az w = false /\
     mem w stop_words = false /\
     1 <= c).
Proof.
  split; [| split].
  - unfold extract_keywords, most_common. rewrite length_firstn. lia.
  - unfold extract_keywords, most_common. apply firstn_sorted, sorted_desc_sorted.
  - intros w c Hin. unfold extract_keywords, most_common in Hin.
    apply in_firstn_in in Hin. apply (proj1 (in_sorted_desc _ _)) in Hin.
    rewrite Counter_counts in Hin. unfold count_tokens in Hin.
    apply in_map_iff in Hin. destruct Hin as (w' & Heq & Hw).
    injection Heq as -> <-.
    apply (proj1 (first_occurrences_in _ _)) in Hw.
    assert (Hc : 1 <= occurrences w
                   (filter (fun word => negb (mem word stop_words))
                      (Re.findall (Re.word_re 3)
                         (Re.sub Re.ws_re " "
                            (PyStr.lower (Re.sub Re.tag_re " " text)))))).
    { unfold occurrences. apply (count_occ_In string_dec) in Hw. lia. }
    apply filter_In in Hw. destruct Hw as [Hw _].
    rewrite (findall_word 3) in Hw by lia.
    unfold backspace_tokens in Hw. apply in_map_iff in Hw.
    destruct Hw as (r & <- & Hr). apply filter_In in Hr. destruct Hr as [_ Htok].
    apply andb_true_iff in Htok. destruct Htok as [Htok _].
    unfold is_token in Htok. apply andb_true_iff in Htok. destruct Htok as [Haz Hlen].
    apply Nat.leb_le in Hlen.
    split; [exists (fst r); repeat split; assumption |].
    split; [| split; [apply marked_no_stop_word | exact Hc]].
    unfold marked. rewrite all_chars_app. cbn. apply andb_false_r.
Qed.

End KeywordClaims.

(* ================================================================== *)
(** * Writing JSON and reading it back *)
(* ================================================================== *)

Section JsonFacts.
Import PyStr Json.
Local Open Scope string_scope.

Lemma string_app_assoc (a b c : string) : (a ++ b) ++ c = a ++ (b ++ c).
Proof. induction a as [| x a IH]; [reflexivity |]. cbn [append]. rewrite IH. reflexivity. Qed.

(** ** The shape of what [encode] writes *)

Lemma encode_list_cons level x items :
  encode level (PyList (x :: items)) =
    "[" ++ newline_indent (S level) ++ encode (S level) x ++ encode_more level items
    ++ newline_indent level ++ "]".
Proof.
  cbn [encode]. do 3 f_equal. f_equal.
  induction items as [| y items IH]; [reflexivity |].
  cbn [encode_more]. rewrite <- IH. reflexivity.
Qed.

Lemma encode_tuple level items : encode level (PyTuple items) = encode level (PyList items).
Proof. destruct items; reflexivity. Qed.

Lemma encode_dict_cons level k x items :
  encode level (PyDict ((k, x) :: items)) =
    "{" ++ newline_indent (S level) ++ encode_str k ++ ": " ++ encode (S level) x
    ++ encode_more_members level items ++ newline_indent level ++ "}".
Proof.
  cbn [encode]. do 5 f_equal. f_equal.
  induction items as [| [k' y] items IH]; [reflexivity |].
  cbn [encode_more_members]. rewrite <- IH. reflexivity.
Qed.

Lemma listify_dict items :
  listify (PyDict items) = PyDict (map (fun kv => (fst kv, listify (snd kv))) items).
Proof.
  cbn [listify]. f_equal.
  induction items as [| [k x] items IH]; [reflexivity |].
  cbn [map fst snd]. rewrite <- IH. reflexivity.
Qed.

Lemma size_list items : size (PyList items) = S (sizes items).
Proof. reflexivity. Qed.

Lemma size_dict items : size (PyDict items) = S (member_sizes items).
Proof. reflexivity. Qed.

Lemma well_formed_list items :
  well_formed (PyList items) = forallb well_formed items.
Proof.
  cbn [well_formed].
  induction items as [| x items IH]; [reflexivity |].
  cbn [forallb]. rewrite <- IH. reflexivity.
Qed.

Lemma well_formed_dict items :
  well_formed (PyDict items) =
    distinct (map fst items) && forallb (fun kv => well_formed (snd kv)) items.
Proof.
  cbn [well_formed]. f_equal.
  induction items as [| [k x] items IH]; [reflexivity |].
  cbn [forallb snd]. rewrite <- IH. reflexivity.
Qed.

(** ** White space *)

Lemma skip_ws_spaces n s : skip_ws (spaces n ++ s) = skip_ws s.
Proof. induction n as [| n IH]; [reflexivity |]. cbn. exact IH. Qed.

Lemma skip_ws_newline_indent level s : skip_ws (newline_indent level ++ s) = skip_ws s.
Proof. unfold newline_indent. cbn. apply skip_ws_spaces. Qed.

Lemma skip_ws_stop c s : is_json_ws c = false -> skip_ws (String c s) = String c s.
Proof. intros H. cbn [skip_ws]. rewrite H. reflexivity. Qed.

(** ** How a value starts *)

Lemma value_start_facts c :
  value_start c = true ->
  is_json_ws c = false /\ Ascii.eqb c "]" = false /\ Ascii.eqb c "}" = false.
Proof.
  destruct c as [[|] [|] [|] [|] [|] [|] [|] [|]];
    intros H; vm_compute in H; try discriminate H; repeat split; reflexivity.
Qed.

Lemma str_int_start n :
  exists c r, str_int n = String c r /\ value_start c = true /\
              Ascii.eqb c quote = false /\ Ascii.eqb c "{" = false /\
              Ascii.eqb c "[" = false /\ Ascii.eqb c "n" = false /\
              Ascii.eqb c "t" = false /\ Ascii.eqb c "f" = false.
Proof.
  assert (Hu : forall d, d <> Decimal.Nil -> exists c r,
             NilEmpty.string_of_uint d = String c r /\ value_start c = true /\
              Ascii.eqb c quote = false /\ Ascii.eqb c "{" = false /\
              Ascii.eqb c "[" = false /\ Ascii.eqb c "n" = false /\
              Ascii.eqb c "t" = false /\ Ascii.eqb c "f" = false).
  { intros d Hd. destruct d; [congruence | ..]; cbn [NilEmpty.string_of_uint];
      eexists; eexists; repeat split; reflexivity. }
  unfold str_int. destruct n as [| p | p]; cbn [Z.to_int NilZero.string_of_int].
  - exists "0"%char, EmptyString. repeat split; reflexivity.
  - pose proof (DecimalPos.Unsigned.to_uint_nonnil p) as Hp.
    replace (NilZero.string_of_uint (Pos.to_uint p))
      with (NilEmpty.string_of_uint (Pos.to_uint p))
      by (destruct (Pos.to_uint p); [congruence | reflexivity ..]).
    apply Hu. exact Hp.
  - exists "-"%char. eexists. repeat split; reflexivity.
Qed.

Lemma encode_start level v :
  exists c r, encode level v = String c r /\ value_start c = true.
Proof.
  destruct v as [| [|] | n | s | [| x items] | [| x items] | [| [k x] items]];
    try (eexists; eexists; split; [reflexivity | reflexivity]).
  destruct (str_int_start n) as (c & r & Hc & Hs & _).
  exists c, r. split; [exact Hc | exact Hs].
Qed.

(** ** Strings *)

Lemma scanstring_escape_char c r :
  scanstring (escape_char c ++ r) = cons_char c (scanstring r).
Proof.
  destruct c as [[|] [|] [|] [|] [|] [|] [|] [|]]; reflexivity.
Qed.

Lemma scanstring_escape s rest :
  scanstring (escape s ++ String quote rest) = Some (s, rest).
Proof.
  induction s as [| c s IH]; [reflexivity |].
  cbn [escape]. rewrite string_app_assoc, scanstring_escape_char, IH. reflexivity.
Qed.

Lemma encode_str_app s rest :
  encode_str s ++ rest = String quote (escape s ++ String quote rest).
Proof. unfold encode_str. cbn [append]. rewrite string_app_assoc. reflexivity. Qed.

(** ** Numbers *)

Lemma span_digits_terminated rest :
  terminated rest -> span_digits rest = (EmptyString, rest).
Proof.
  destruct rest as [| c rest]; [reflexivity |].
  intros [-> | ->]; reflexivity.
Qed.

Lemma span_digits_uint d rest :
  terminated rest ->
  span_digits (NilEmpty.string_of_uint d ++ rest) = (NilEmpty.string_of_uint d, rest).
Proof.
  intros Hrest. induction d; cbn [NilEmpty.string_of_uint append];
    [apply span_digits_terminated, Hrest | ..];
    cbn [span_digits]; rewrite IHd; reflexivity.
Qed.

(** The numeral of a positive number does not start with a zero. *)
Lemma to_uint_no_leading_zero p u : Pos.to_uint p <> Decimal.D0 u.
Proof.
  pose proof (DecimalPos.Unsigned.to_of (Pos.to_uint p)) as Hn.
  rewrite DecimalPos.Unsigned.of_to in Hn. cbn [N.to_uint] in Hn.
  pose proof (DecimalPos.Unsigned.to_uint_nonzero p) as Hz.
  assert (Hh : Decimal.nzhead (Pos.to_uint p) <> Decimal.Nil).
  { intros Hnil. unfold Decimal.unorm in Hn. rewrite Hnil in Hn.
    apply Hz. exact Hn. }
  rewrite (DecimalFacts.unorm_nzhead _ Hh) in Hn. rewrite Hn.
  apply DecimalFacts.nzhead_nonzero.
Qed.

Lemma scan_digits_pos p rest :
  terminated rest ->
  scan_digits (NilEmpty.string_of_uint (Pos.to_uint p) ++ rest) = Some (Z.pos p, rest).
Proof.
  intros Hrest. unfold scan_digits.
  rewrite (span_digits_uint (Pos.to_uint p) rest Hrest).
  rewrite NilEmpty.usu.
  pose proof (to_uint_no_leading_zero p) as Hz.
  pose proof (DecimalPos.Unsigned.to_uint_nonnil p) as Hnil.
  assert (Hv : Z.of_uint (Pos.to_uint p) = Z.pos p).
  { unfold Z.of_uint. rewrite DecimalPos.Unsigned.of_to. reflexivity. }
  destruct (Pos.to_uint p) as [| u | u | u | u | u | u | u | u | u | u];
    [congruence | exfalso; apply (Hz u); reflexivity | ..];
    cbn [NilEmpty.string_of_uint append]; rewrite Hv; reflexivity.
Qed.

Lemma terminated_no_float rest : terminated rest -> starts_float_part rest = false.
Proof.
  destruct rest as [| c rest]; [reflexivity |].
  intros [-> | ->]; reflexivity.
Qed.

Lemma nilzero_pos p :
  NilZero.string_of_uint (Pos.to_uint p) = NilEmpty.string_of_uint (Pos.to_uint p).
Proof.
  pose proof (DecimalPos.Unsigned.to_uint_nonnil p) as Hp.
  destruct (Pos.to_uint p); [congruence | reflexivity ..].
Qed.

Lemma scan_number_str_int n rest :
  terminated rest -> scan_number (str_int n ++ rest) = Some (n, rest).
Proof.
  intros Hrest. unfold str_int, scan_number.
  destruct n as [| p | p]; cbn [Z.to_int NilZero.string_of_int].
  - cbn. rewrite (terminated_no_float rest Hrest). reflexivity.
  - rewrite nilzero_pos.
    pose proof (scan_digits_pos p rest Hrest) as Hd.
    pose proof (to_uint_no_leading_zero p) as Hz.
    pose proof (DecimalPos.Unsigned.to_uint_nonnil p) as Hnil.
    destruct (Pos.to_uint p) as [| u | u | u | u | u | u | u | u | u | u];
      [congruence | exfalso; apply (Hz u); reflexivity | ..];
      cbn [NilEmpty.string_of_uint append] in Hd |- *;
      change (Ascii.eqb _ "-") with false; cbn iota;
      rewrite Hd, (terminated_no_float rest Hrest); reflexivity.
  - rewrite nilzero_pos. cbn [append]. change (Ascii.eqb "-" "-") with true. cbn iota.
    rewrite (scan_digits_pos p rest Hrest), (terminated_no_float rest Hrest).
    reflexivity.
Qed.

(** ** Dicts *)

Lemma dict_set_new k v d :
  existsb (String.eqb k) (map fst d) = false -> dict_set k v d = (d ++ [(k, v)])%list.
Proof.
  induction d as [| [k' v'] d IH]; [reflexivity |].
  cbn [map fst existsb dict_set app]. intros H.
  apply orb_false_iff in H. destruct H as [Hk Hd].
  rewrite String.eqb_sym, Hk. rewrite (IH Hd). reflexivity.
Qed.

Lemma distinct_app_cons acc k ks :
  distinct (acc ++ k :: ks) = true ->
  existsb (String.eqb k) acc = false /\ distinct ((acc ++ [k]) ++ ks) = true.
Proof.
  induction acc as [| a acc IH]; cbn [app distinct existsb].
  - intros H. split; [reflexivity | exact H].
  - intros H. apply andb_true_iff in H. destruct H as [Ha Hd].
    destruct (IH Hd) as [Hk Hd'].
    rewrite existsb_app in Ha. cbn [existsb] in Ha.
    rewrite negb_true_iff in Ha. apply orb_false_iff in Ha. destruct Ha as [Ha1 Ha2].
    apply orb_false_iff in Ha2. destruct Ha2 as [Hak Ha2].
    split.
    + rewrite String.eqb_sym, Hak, Hk. reflexivity.
    + rewrite Hd', !existsb_app. cbn [existsb]. rewrite Ha1, Hak, Ha2. reflexivity.
Qed.

Lemma fold_dict_set acc pairs :
  distinct (map fst acc ++ map fst pairs) = true ->
  fold_left (fun d kv => dict_set (fst kv) (snd kv) d) pairs acc = (acc ++ pairs)%list.
Proof.
  revert acc. induction pairs as [| [k v] pairs IH]; intros acc H.
  - rewrite app_nil_r. reflexivity.
  - cbn [fold_left fst snd]. cbn [map fst] in H.
    destruct (distinct_app_cons _ _ _ H) as [Hk Hd].
    rewrite (dict_set_new k v acc Hk).
    rewrite IH by (rewrite map_app; exact Hd).
    rewrite <- app_assoc. reflexivity.
Qed.

Lemma dict_of_pairs_distinct pairs :
  distinct (map fst pairs) = true -> dict_of_pairs pairs = pairs.
Proof. intros H. unfold dict_of_pairs. rewrite fold_dict_set by exact H. reflexivity. Qed.

(** ** One step of the reader *)

Lemma scan_once_quote fuel s :
  scan_once (S fuel) (String quote s) =
    match scanstring s with
    | Some (str, r) => Some (PyStr str, r)
    | None => None
    end.
Proof. reflexivity. Qed.

Lemma scan_once_bracket fuel s :
  scan_once (S fuel) (String "[" s) =
    match skip_ws s with
    | String c1 r1 =>
        if Ascii.eqb c1 "]" then Some (PyList [], r1)
        else
          match scan_items fuel (String c1 r1) with
          | Some (items, r) => Some (PyList items, r)
          | None => None
          end
    | EmptyString => None
    end.
Proof. reflexivity. Qed.

Lemma scan_once_brace fuel s :
  scan_once (S fuel) (String "{" s) =
    match skip_ws s with
    | String c1 r1 =>
        if Ascii.eqb c1 "}" then Some (PyDict [], r1)
        else
          match scan_members fuel (String c1 r1) with
          | Some (pairs, r) => Some (PyDict (dict_of_pairs pairs), r)
          | None => None
          end
    | EmptyString => None
    end.
Proof. reflexivity. Qed.

Lemma scan_once_number fuel c r :
  is_digit c = true \/ c = "-"%char ->
  scan_once (S fuel) (String c r) =
    match scan_number (String c r) with
    | Some (n, r') => Some (PyInt n, r')
    | None => None
    end.
Proof.
  destruct c as [[|] [|] [|] [|] [|] [|] [|] [|]];
    intros [H | H]; try discriminate H; reflexivity.
Qed.

Lemma scan_items_step fuel s :
  scan_items (S fuel) s =
    match scan_once fuel s with
    | Some (v, r) =>
        match skip_ws r with
        | String c r1 =>
            if Ascii.eqb c "]" then Some ([v], r1)
            else if Ascii.eqb c "," then
              match scan_items fuel (skip_ws r1) with
              | Some (items, r2) => Some (v :: items, r2)
              | None => None
              end
            else None
        | EmptyString => None
        end
    | None => None
    end.
Proof. reflexivity. Qed.

Lemma scan_members_step fuel s :
  scan_members (S fuel) (String quote s) =
    match scanstring s with
    | Some (key, r) =>
        match skip_ws r with
        | String c1 r1 =>
            if Ascii.eqb c1 ":" then
              match scan_once fuel (skip_ws r1) with
              | Some (v, r2) =>
                  match skip_ws r2 with
                  | String c2 r3 =>
                      if Ascii.eqb c2 "}" then Some ([(key, v)], r3)
                      else if Ascii.eqb c2 "," then
                        match scan_members fuel (skip_ws r3) with
                        | Some (pairs, r4) => Some ((key, v) :: pairs, r4)
                        | None => None
                        end
                      else None
                  | EmptyString => None
                  end
              | None => None
              end
            else None
        | EmptyString => None
        end
    | None => None
    end.
Proof. reflexivity. Qed.

Lemma size_pos v : (1 <= size v)%nat.
Proof. destruct v; cbn [size]; lia. Qed.

Lemma skip_ws_encode level v s : skip_ws (encode level v ++ s) = encode level v ++ s.
Proof.
  destruct (encode_start level v) as (c & r & -> & Hc).
  cbn [append]. apply skip_ws_stop. apply (value_start_facts c Hc).
Qed.

Lemma terminated_more level items rest :
  terminated (encode_more level items ++ newline_indent level ++ rest).
Proof. destruct items; cbn; [right | left]; reflexivity. Qed.

Lemma terminated_more_members level items rest :
  terminated (encode_more_members level items ++ newline_indent level ++ rest).
Proof. destruct items as [| [k y] items]; cbn; [right | left]; reflexivity. Qed.

(** ** Reading back what was written *)

(** With enough fuel, the reader gives back a value, the items of an array
    and the members of an object as [encode] wrote them, tuples as lists. *)
Lemma scan_roundtrip (fuel : nat) :
  (forall v level rest,
      (size v <= fuel)%nat -> well_formed v = true -> terminated rest ->
      scan_once fuel (encode level v ++ rest) = Some (listify v, rest)) /\
  (forall x items level rest,
      (sizes (x :: items) <= fuel)%nat ->
      forallb well_formed (x :: items) = true ->
      scan_items fuel
        (encode (S level) x ++ encode_more level items
         ++ newline_indent level ++ String "]" rest)
      = Some (map listify (x :: items), rest)) /\
  (forall k x items level rest,
      (member_sizes ((k, x) :: items) <= fuel)%nat ->
      forallb (fun kv => well_formed (snd kv)) ((k, x) :: items) = true ->
      scan_members fuel
        (String quote (escape k ++ String quote (String ":" (String " "
           (encode (S level) x ++ encode_more_members level items
            ++ newline_indent level ++ String "}" rest)))))
      = Some (map (fun kv => (fst kv, listify (snd kv))) ((k, x) :: items), rest)).
Proof.
  induction fuel as [| fuel (IHv & IHi & IHm)].
  { split; [| split].
    - intros v level rest Hs. pose proof (size_pos v). lia.
    - intros x items level rest Hs. cbn [sizes] in Hs. lia.
    - intros k x items level rest Hs. cbn [member_sizes] in Hs. lia. }
  (* arrays, shared by lists and tuples *)
  assert (Harray : forall items level rest,
             (S (sizes items) <= S fuel)%nat -> forallb well_formed items = true ->
             scan_once (S fuel) (encode level (PyList items) ++ rest)
             = Some (PyList (map listify items), rest)).
  { intros [| x items] level rest Hs Hw; [reflexivity |].
    rewrite encode_list_cons, !string_app_assoc. cbn [append].
    rewrite scan_once_bracket, skip_ws_newline_indent, skip_ws_encode.
    destruct (encode_start (S level) x) as (c & r & Hc & Hstart).
    destruct (value_start_facts c Hstart) as (_ & Hb & _).
    rewrite Hc at 1. cbn [append]. rewrite Hb.
    change (String c (r ++ ?t)) with (String c r ++ t). rewrite <- Hc.
    rewrite (IHi x items level rest) by (try lia; exact Hw). reflexivity. }
  split; [| split].
  - intros v level rest Hs Hw Hrest.
    destruct v as [| b | n | str | items | items | items].
    + reflexivity.
    + destruct b; reflexivity.
    + cbn [encode listify].
      destruct (str_int_head n) as (c & r & Hc & Hd).
      pose proof (scan_number_str_int n rest Hrest) as Hn.
      rewrite Hc in Hn |- *. cbn [append] in Hn |- *.
      rewrite (scan_once_number fuel c _ Hd), Hn. reflexivity.
    + cbn [encode listify]. rewrite encode_str_app, scan_once_quote, scanstring_escape.
      reflexivity.
    + rewrite size_list in Hs. rewrite well_formed_list in Hw.
      apply (Harray items level rest Hs Hw).
    + rewrite encode_tuple. change (size (PyTuple items)) with (size (PyList items)) in Hs.
      rewrite size_list in Hs.
      change (well_formed (PyTuple items)) with (well_formed (PyList items)) in Hw.
      rewrite well_formed_list in Hw.
      apply (Harray items level rest Hs Hw).
    + rewrite size_dict in Hs. rewrite well_formed_dict in Hw.
      apply andb_true_iff in Hw. destruct Hw as [Hkeys Hw].
      rewrite listify_dict.
      destruct items as [| [k x] items]; [reflexivity |].
      rewrite encode_dict_cons, !string_app_assoc. cbn [append].
      rewrite scan_once_brace, skip_ws_newline_indent.
      rewrite encode_str_app. rewrite skip_ws_stop by reflexivity.
      change (Ascii.eqb quote "}") with false. cbn iota.
      rewrite (IHm k x items level rest) by (try lia; exact Hw).
      rewrite dict_of_pairs_distinct; [reflexivity |].
      rewrite map_map. cbn [fst]. exact Hkeys.
  - intros x items level rest Hs Hw.
    cbn [sizes] in Hs. cbn [forallb] in Hw.
    apply andb_true_iff in Hw. destruct Hw as [Hx Hw].
    rewrite scan_items_step.
    rewrite (IHv x (S level)) by (try lia; try exact Hx; apply terminated_more).
    destruct items as [| y items].
    + cbn [encode_more append]. rewrite skip_ws_newline_indent. reflexivity.
    + cbn [encode_more]. rewrite !string_app_assoc. cbn [append].
      rewrite skip_ws_stop by reflexivity.
      change (Ascii.eqb "," "]") with false. change (Ascii.eqb "," ",") with true.
      cbn iota. rewrite skip_ws_newline_indent, skip_ws_encode.
      cbn [sizes] in Hs.
      rewrite (IHi y items level rest) by (cbn [sizes]; try lia; exact Hw).
      reflexivity.
  - intros k x items level rest Hs Hw.
    cbn [member_sizes] in Hs. cbn [forallb snd] in Hw.
    apply andb_true_iff in Hw. destruct Hw as [Hx Hw].
    rewrite scan_members_step, scanstring_escape.
    rewrite skip_ws_stop by reflexivity.
    change (Ascii.eqb ":" ":") with true. cbn iota.
    change (String " " ?t) with (spaces 1 ++ t). rewrite skip_ws_spaces, skip_ws_encode.
    rewrite (IHv x (S level)) by (try lia; try exact Hx; apply terminated_more_members).
    destruct items as [| [k' y] items].
    + cbn [encode_more_members append]. rewrite skip_ws_newline_indent. reflexivity.
    + cbn [encode_more_members]. rewrite !string_app_assoc. cbn [append].
      rewrite skip_ws_stop by reflexivity.
      change (Ascii.eqb "," "}") with false. change (Ascii.eqb "," ",") with true.
      cbn iota. rewrite skip_ws_newline_indent.
      rewrite encode_str_app. rewrite skip_ws_stop by reflexivity.
      cbn [member_sizes] in Hs.
      rewrite (IHm k' y items level rest) by (cbn [member_sizes]; try lia; exact Hw).
      reflexivity.
Qed.

Lemma string_app_nil_r (s : string) : s ++ "" = s.
Proof. induction s as [| c s IH]; [reflexivity |]. cbn [append]. rewrite IH. reflexivity. Qed.

(** A value is written with at least as many characters as it needs fuel. *)
Lemma encode_length_bound (n : nat) :
  forall v level, (size v <= n)%nat -> (size v <= String.length (encode level v))%nat.
Proof.
  induction n as [| n IH]; intros v level Hs; [pose proof (size_pos v); lia |].
  assert (Harray : forall items level,
             (S (sizes items) <= S n)%nat ->
             (S (sizes items) <= String.length (encode level (PyList items)))%nat).
  { intros [| x items] lv Hsz; [cbn; lia |].
    rewrite encode_list_cons, !string_length_app. cbn [sizes] in Hsz |- *.
    assert (Hmore : forall l, (sizes l <= n)%nat ->
                (sizes l <= String.length (encode_more lv l))%nat).
    { induction l as [| y l IHl]; intros Hl; [cbn; lia |].
      cbn [sizes encode_more] in Hl |- *. rewrite !string_length_app.
      pose proof (IH y (S lv)). cbn [String.length newline_indent]. lia. }
    pose proof (IH x (S lv)). pose proof (Hmore items).
    cbn [String.length newline_indent]. lia. }
  destruct v as [| [|] | z | str | items | items | items]; try (cbn; lia).
  - cbn [size encode]. destruct (str_int_head z) as (c & r & -> & _). cbn. lia.
  - rewrite size_list in Hs |- *. apply (Harray items level Hs).
  - rewrite encode_tuple. change (size (PyTuple items)) with (size (PyList items)) in Hs |- *.
    rewrite size_list in Hs |- *. apply (Harray items level Hs).
  - rewrite size_dict in Hs |- *.
    destruct items as [| [k x] items]; [cbn; lia |].
    rewrite encode_dict_cons, !string_length_app. cbn [member_sizes] in Hs |- *.
    assert (Hmore : forall l, (member_sizes l <= n)%nat ->
                (member_sizes l <= String.length (encode_more_members level l))%nat).
    { induction l as [| [k' y] l IHl]; intros Hl; [cbn; lia |].
      cbn [member_sizes encode_more_members] in Hl |- *. rewrite !string_length_app.
      pose proof (IH y (S level)). cbn [String.length newline_indent]. lia. }
    pose proof (IH x (S level)). pose proof (Hmore items).
    cbn [String.length newline_indent]. lia.
Qed.

(** [json.loads(json.dumps(v, indent=2))] is [v] with its tuples as lists. *)
Lemma loads_dumps (v : pyval) :
  well_formed v = true -> loads (dumps v) = Some (listify v).
Proof.
  intros Hw. unfold loads, dumps.
  pose proof (encode_length_bound (size v) v 0 (Nat.le_refl _)) as Hlen.
  pose proof (skip_ws_encode 0 v "") as Hskip. rewrite string_app_nil_r in Hskip.
  rewrite Hskip.
  destruct (scan_roundtrip (S (String.length (encode 0 v)))) as (Hv & _ & _).
  specialize (Hv v 0%nat EmptyString). rewrite string_app_nil_r in Hv.
  rewrite Hv; [reflexivity | lia | exact Hw | exact I].
Qed.

End JsonFacts.

(* ================================================================== *)
(** * Claims about the artifact read back *)
(* ================================================================== *)

Section RoundTripClaims.
Import PyStr Analyzer Json RunSpec ArtifactSpec.
Local Open Scope string_scope.

Lemma strings_well_formed (l : list string) : forallb well_formed (map PyStr l) = true.
Proof. induction l as [| x l IH]; [reflexivity | exact IH]. Qed.

Lemma images_well_formed (l : list Image) : forallb well_formed (map image_value l) = true.
Proof. induction l as [| x l IH]; [reflexivity | exact IH]. Qed.

Lemma keywords_well_formed (l : list (string * Z)) :
  forallb well_formed (map keyword_value l) = true.
Proof. induction l as [| x l IH]; [reflexivity | exact IH]. Qed.

Lemma opt_value_well_formed o : well_formed (opt_value o) = true.
Proof. destruct o; reflexivity. Qed.

Lemma artifact_well_formed w pd report : well_formed (artifact w pd report) = true.
Proof.
  unfold artifact, page_data_value, report_value.
  repeat (rewrite !well_formed_dict; cbn [map fst snd forallb distinct existsb]).
  rewrite !well_formed_list, !opt_value_well_formed, !strings_well_formed,
    images_well_formed, keywords_well_formed.
  reflexivity.
Qed.

Lemma listify_strings (l : list string) : map listify (map PyStr l) = map PyStr l.
Proof. rewrite map_map. reflexivity. Qed.

Lemma listify_images (l : list Image) : map listify (map image_value l) = map image_value l.
Proof. rewrite map_map. reflexivity. Qed.

Lemma listify_keywords (l : list (string * Z)) :
  map listify (map keyword_value l) = map keyword_list l.
Proof. rewrite map_map. reflexivity. Qed.

Lemma listify_opt_value o : listify (opt_value o) = opt_value o.
Proof. destruct o; reflexivity. Qed.

Lemma listify_artifact w pd report :
  listify (artifact w pd report) = artifact_read_back w pd report.
Proof.
  unfold artifact, artifact_read_back, page_data_value, page_data_read_back, report_value.
  cbn [listify]. rewrite !listify_opt_value, !listify_strings, listify_images,
    listify_keywords.
  reflexivity.
Qed.

(** C8, amended.  Writing the artifact and reading it back gives the
    in-memory values field for field, except that every keyword pair, a
    tuple (term, count) in memory, comes back as the list [term, count]:
    the field "keywords" differs as soon as there is a keyword, every other
    field of the page data, the report and the date field are equal. *)
Theorem artifact_roundtrip (w : world) (pd : PageData) (report : Report) :
  loads (dumps (artifact w pd report)) = Some (artifact_read_back w pd report) /\
  dict_field "analysis_date" (artifact_read_back w pd report)
    = dict_field "analysis_date" (artifact w pd report) /\
  dict_field "report" (artifact_read_back w pd report)
    = dict_field "report" (artifact w pd report) /\
  dict_field "page_data" (artifact_read_back w pd report)
    = Some (page_data_read_back pd) /\
  dict_field "page_data" (artifact w pd report) = Some (page_data_value pd) /\
  (forall key, key <> "keywords" ->
     dict_field key (page_data_read_back pd) = dict_field key (page_data_value pd)) /\
  dict_field "keywords" (page_data_read_back pd)
    = Some (PyList (map keyword_list (keywords pd))) /\
  dict_field "keywords" (page_data_value pd)
    = Some (PyList (map keyword_value (keywords pd))) /\
  (keywords pd = [] -> py_eq (artifact_read_back w pd report) (artifact w pd report) = true).
Proof.
  split.
  { rewrite loads_dumps by apply artifact_well_formed.
    rewrite listify_artifact. reflexivity. }
  repeat (split; [reflexivity |]).
  split.
  { intros key Hkey. unfold page_data_read_back, page_data_value, dict_field.
    cbn [field].
    repeat match goal with
           | |- context [String.eqb ?k key] =>
               destruct (String.eqb_spec k key) as [? | ?];
               [subst key; first [reflexivity | congruence] |]
           end.
    reflexivity. }
  repeat (split; [reflexivity |]).
  intros Hk. unfold artifact_read_back, artifact, page_data_read_back, page_data_value.
  rewrite Hk.
  assert (Hstr : forall l,
             (fix go (l m : list pyval) : bool :=
                match l, m with
                | [], [] => true
                | x :: l', y :: m' => py_eq x y && go l' m'
                | _, _ => false
                end) (map PyStr l) (map PyStr l) = true).
  { induction l as [| x l IH]; [reflexivity |].
    cbn [map py_eq]. rewrite String.eqb_refl. exact IH. }
  assert (Himg : forall l,
             (fix go (l m : list pyval) : bool :=
                match l, m with
                | [], [] => true
                | x :: l', y :: m' => py_eq x y && go l' m'
                | _, _ => false
                end) (map image_value l) (map image_value l) = true).
  { induction l as [| x l IH]; [reflexivity |].
    cbn [map]. unfold image_value at 1 2. cbn [py_eq].
    rewrite !String.eqb_refl, Bool.eqb_reflx. exact IH. }
  assert (Hopt : forall o, py_eq (opt_value o) (opt_value o) = true)
    by (intros [s |]; [apply String.eqb_refl | reflexivity]).
  cbn [py_eq map]. unfold report_value. cbn [py_eq].
  rewrite !Hopt, !Hstr, Himg, !String.eqb_refl, !Z.eqb_refl, Bool.eqb_reflx.
  reflexivity.
Qed.

(** C8 as stated fails: for a page with keywords the artifact read back is
    not equal to the in-memory value; its first keyword is the list
    [term, 2] where memory holds the tuple (term, 2). *)
Lemma reparsed_keywords_are_lists :
  exists reparsed page_data first,
    loads (dumps (artifact Samples.world_ok
                    (Samples.page_of MarkedSample.doc_marked)
                    (report_of (Samples.page_of MarkedSample.doc_marked))))
      = Some reparsed /\
    py_eq reparsed
      (artifact Samples.world_ok
         (Samples.page_of MarkedSample.doc_marked)
         (report_of (Samples.page_of MarkedSample.doc_marked))) = false /\
    dict_field "page_data" reparsed = Some page_data /\
    dict_field "keywords" page_data
      = Some (PyList (PyList [PyStr (KeywordSpec.marked "service"); PyInt 2] :: first)) /\
    hd_error (keywords (Samples.page_of MarkedSample.doc_marked))
      = Some (KeywordSpec.marked "service", 2%Z).
Proof.
  eexists. eexists. eexists.
  split; [vm_compute; reflexivity |].
  split; [vm_compute; reflexivity |].
  split; [vm_compute; reflexivity |].
  split; vm_compute; reflexivity.
Qed.

End RoundTripClaims.

(* ================================================================== *)
(** * Structured data is searched after the scripts are removed *)
(* ================================================================== *)

Section StructuredDataFacts.
Import PyStr Analyzer Soup PageSpec StructuredDataSample.
Local Open Scope Z_scope.

Lemma tags_of_tag name attrs contents :
  tags_of (Tag name attrs contents) = Tag name attrs contents :: flat_map tags_of contents.
Proof. reflexivity. Qed.

Lemma decompose_tag names name attrs contents :
  decompose names (Tag name attrs contents) =
    if existsb (String.eqb name) names then []
    else [Tag name attrs (flat_map (decompose names) contents)].
Proof.
  cbn [decompose]. destruct (existsb (String.eqb name) names); reflexivity.
Qed.

(** No tag with one of the names is left after the decomposition. *)
Lemma decompose_removes names :
  forall n t, In t (flat_map tags_of (decompose names n)) ->
              matches (named_any names) t = false.
Proof.
  fix IH 1. intros n t. destruct n as [s | s | c s | name attrs contents].
  - cbn. intros [].
  - cbn. intros [].
  - cbn. intros [].
  - rewrite decompose_tag.
    destruct (existsb (String.eqb name) names) eqn:E; [intros [] |].
    cbn [flat_map]. rewrite app_nil_r, tags_of_tag.
    intros [<- | Hin]; [exact E |].
    induction contents as [| c cs IHcs]; [destruct Hin |].
    cbn [flat_map] in Hin. rewrite flat_map_app in Hin.
    apply in_app_or in Hin. destruct Hin as [Hc | Hcs].
    + exact (IH c t Hc).
    + exact (IHcs Hcs).
Qed.

Lemma decompose_all_removes names doc t :
  In t (descendants (decompose_all names doc)) -> matches (named_any names) t = false.
Proof.
  unfold descendants, decompose_all.
  induction doc as [| n doc IH]; [intros [] |].
  cbn [flat_map]. rewrite flat_map_app. intros Hin.
  apply in_app_or in Hin. destruct Hin as [Hn | Hdoc].
  - exact (decompose_removes names n t Hn).
  - exact (IH Hdoc).
Qed.

Lemma no_script_left doc :
  find_all (named_with "script" "type" "application/ld+json")
           (decompose_all ["script"; "style"] doc) = [].
Proof.
  unfold find_all.
  destruct (filter _ _) as [| t l] eqn:E; [reflexivity |].
  assert (Hin : In t (t :: l)) by (left; reflexivity).
  rewrite <- E in Hin. apply filter_In in Hin. destruct Hin as [Hd Hm].
  apply decompose_all_removes in Hd.
  destruct t as [s | s | c s | name attrs contents]; try discriminate Hm.
  cbn [matches] in Hm, Hd. unfold named_with in Hm. unfold named_any in Hd.
  apply andb_true_iff in Hm. destruct Hm as [Hname _].
  cbn [existsb] in Hd. rewrite Hname in Hd. discriminate Hd.
Qed.

(** X1.  The JSON-LD blocks are counted after every [script] element has
    been removed from the tree: for every extracted page the count is 0,
    [has_structured_data] is false, and the recommendation to add structured
    data is made, whatever the document holds. *)
Theorem structured_data_never_found u doc pd :
  extracted u doc pd ->
  structured_data_count pd = 0 /\
  has_structured_data pd = false /\
  In structured_data_recommendation (snd (generate_seo_issues pd)).
Proof.
  unfold extracted, extract, content_length. intros Hx.
  assert (Hs : structured_data_count pd = 0 /\ has_structured_data pd = false).
  { destruct (find (named_with "meta" "name" "description") doc) as [t |];
      [destruct (get (attrs_of t) "content") as [c |]; [| discriminate Hx] |];
      cbn in Hx; injection Hx as <-;
      cbn [structured_data_count has_structured_data];
      rewrite no_script_left; split; reflexivity. }
  destruct Hs as [Hc Hh]. split; [exact Hc |]. split; [exact Hh |].
  unfold generate_seo_issues. cbn [snd]. apply in_or_app. left.
  unfold structured_data_recommendations. rewrite Hh. left. reflexivity.
Qed.

(** A page with one JSON-LD block: none is reported. *)
Lemma structured_data_never_found_witness :
  List.length (json_ld_blocks doc_with_json_ld) = 1%nat /\
  structured_data_count (Samples.page_of doc_with_json_ld) = 0 /\
  has_structured_data (Samples.page_of doc_with_json_ld) = false /\
  In structured_data_recommendation
     (snd (generate_seo_issues (Samples.page_of doc_with_json_ld))).
Proof.
  split; [reflexivity |].
  apply (structured_data_never_found Samples.sample_url doc_with_json_ld).
  reflexivity.
Defined.

End StructuredDataFacts.

(* ================================================================== *)
(** * Concrete runs *)
(* ================================================================== *)

Section Examples.
Import PyStr Analyzer Run.
Local Open Scope string_scope.

Example lower_ex : lower "IT Support, Wichita!" = "it support, wichita!".
Proof. reflexivity. Qed.

Example split_ex : split ("  two  words" ++ nl ++ " here ") = ["two"; "words"; "here"].
Proof. reflexivity. Qed.

Example strip_ex : strip "  Managed IT  " = "Managed IT".
Proof. reflexivity. Qed.

Example str_int_ex :
  (str_int 250, str_int 0, str_int (-3), str_int_2d 7, str_int_2d 10)
  = ("250", "0", "-3", " 7", "10").
Proof. reflexivity. Qed.

Example contains_ex :
  (contains "computer repair" "repair", contains "computers" "network") = (true, false).
Proof. reflexivity. Qed.

Example sub_tag_ex : Re.sub Re.tag_re " " "a<b>c<>d<e" = "a c<>d<e".
Proof. reflexivity. Qed.

Example sub_tag_nested_ex : Re.sub Re.tag_re " " "x<<i>y</i>z" = "x y z".
Proof. reflexivity. Qed.

Example sub_ws_ex : Re.sub Re.ws_re " " ("a  b" ++ nl ++ "  c ") = "a b c ".
Proof. reflexivity. Qed.

Example findall_plain_ex :
  Re.findall (Re.word_re 3) "it support, well-known abc1 2fast x_y win10 the end" = [].
Proof. reflexivity. Qed.

Example findall_ex :
  Re.findall (Re.word_re 3)
    (KeywordSpec.marked "it" ++ " " ++ KeywordSpec.marked "support" ++ ", well-"
     ++ KeywordSpec.marked "known" ++ " " ++ KeywordSpec.marked "abc1" ++ " "
     ++ KeywordSpec.marked "1abc" ++ " x_" ++ KeywordSpec.marked "yyy" ++ " "
     ++ KeywordSpec.marked "the" ++ " end")
  = [KeywordSpec.marked "support"; KeywordSpec.marked "known"; KeywordSpec.marked "the"].
Proof. reflexivity. Qed.

Example extract_keywords_plain_ex :
  Keywords.extract_keywords
    "<p>Computer repair and <b>network</b> repair: the network, the REPAIR.</p>" 3 50
  = [].
Proof. reflexivity. Qed.

Example extract_keywords_ex :
  Keywords.extract_keywords
    ("<p>Computer " ++ KeywordSpec.marked "repair" ++ " and <b>"
     ++ KeywordSpec.marked "network" ++ "</b> repair: " ++ KeywordSpec.marked "the"
     ++ " network, the " ++ KeywordSpec.marked "REPAIR" ++ ".</p>") 3 50
  = [(KeywordSpec.marked "repair", 2%Z); (KeywordSpec.marked "network", 1%Z);
     (KeywordSpec.marked "the", 1%Z)].
Proof. reflexivity. Qed.

Example extract_keywords_ties_ex :
  Keywords.extract_keywords
    (KeywordSpec.marked "zeta" ++ " " ++ KeywordSpec.marked "alpha" ++ " "
     ++ KeywordSpec.marked "zeta" ++ " " ++ KeywordSpec.marked "alpha" ++ " "
     ++ KeywordSpec.marked "mid") 3 2
  = [(KeywordSpec.marked "zeta", 2%Z); (KeywordSpec.marked "alpha", 2%Z)].
Proof. reflexivity. Qed.

Example dumps_ex :
  Json.dumps (Json.PyDict [("a", Json.PyList [Json.PyInt 1; Json.PyNone]);
                           ("b", Json.PyTuple [])])
  = "{" ++ nl ++ "  " ++ Json.encode_str "a" ++ ": [" ++ nl ++ "    1," ++ nl
    ++ "    null" ++ nl ++ "  ]," ++ nl ++ "  " ++ Json.encode_str "b" ++ ": []"
    ++ nl ++ "}".
Proof. reflexivity. Qed.

Example loads_ex :
  (Json.loads "[1, 2 , 03]", Json.loads "[1.5]", Json.loads " [ 1 ,-2 ] ")
  = (None, None, Some (Json.PyList [Json.PyInt 1; Json.PyInt (-2)])).
Proof. reflexivity. Qed.

Example main_404_ex :
  main Samples.world_404 =
    ([Print "Analyzing website: https://example.test/";
      Print "Please wait...";
      Print ("Error fetching https://example.test/: "
             ++ "404 Client Error: Not Found for url: https://example.test/");
      Print "Failed to analyze the website. Check the URL and try again."],
     Ok tt).
Proof. reflexivity. Qed.

Example main_usage_ex :
  main {| argv := ["seo_analyzer.py"]; sys_version := "3";
          clock := 0; urlparse := fun _ => None;
          requests_get := fun _ => GetRaises Timeout "";
          parse := fun _ => Parsed [] |}
  = ([Print "Usage: python3 seo_analyzer.py <website_url>";
      Print "Example: python3 seo_analyzer.py https://wichitacomputersolutions.com"],
     Raised (SystemExit 1)).
Proof. reflexivity. Qed.

Example report_of_sample_ex :
  outcome (generate_report (Samples.page_of Samples.doc_end_to_end))
  = Ok {| score := 60;
          issues := ["Title too short (25 chars). Aim for 30-60 characters";
                     "Missing meta description";
                     "1 images missing alt text";
                     "Low word count (250). Aim for at least 300 words"];
          recommendations :=
            ["Add structured data (JSON-LD) for better search visibility";
             "Consider adding IT-related keywords: computer, repair, support, network, security"] |}.
Proof. vm_compute. reflexivity. Qed.

End Examples.

(* ================================================================== *)
(** * More about the issue engine *)
(* ================================================================== *)

Section CheckFacts.
Import PyStr Analyzer Run Messages PageSpec CheckSpec.
Local Open Scope Z_scope.

Lemma str_int_not_prefix (c0 : ascii) (p : string) (n : Z) (rest : string) :
  Json.is_digit c0 = false -> c0 <> "-"%char ->
  starts_with (String c0 p) (str_int n ++ rest) = false.
Proof.
  intros Hd Hm. destruct (str_int_head n) as (c & r & -> & Hc).
  cbn [append starts_with]. destruct (Ascii.eqb c0 c) eqn:E; [| reflexivity].
  apply Ascii.eqb_eq in E. subst c. destruct Hc as [Hc | Hc]; congruence.
Qed.

Ltac split_ifs :=
  repeat match goal with |- context [if ?b then _ else _] => destruct b end.

Ltac one_of :=
  let H := fresh "H" in
  simpl; intros H; first [ contradiction | destruct H as [<- | []] ].

Lemma title_issues_not_h1 pd s : In s (title_issues pd) -> is_h1_issue s = false.
Proof. unfold title_issues. split_ifs; one_of; reflexivity. Qed.

Lemma meta_issues_not_h1 pd s : In s (meta_issues pd) -> is_h1_issue s = false.
Proof. unfold meta_issues. split_ifs; one_of; reflexivity. Qed.

Lemma image_issues_not_h1 pd s : In s (image_issues pd) -> is_h1_issue s = false.
Proof.
  unfold image_issues. split_ifs; one_of. unfold is_h1_issue.
  rewrite !str_int_not_prefix by (reflexivity || discriminate). reflexivity.
Qed.

Lemma content_issues_not_h1 pd s : In s (content_issues pd) -> is_h1_issue s = false.
Proof. unfold content_issues. split_ifs; one_of; reflexivity. Qed.

Lemma h1_issue_origin pd s :
  In s (issues_of pd) -> is_h1_issue s = true -> In s (heading_issues pd).
Proof.
  unfold issues_of, generate_seo_issues. cbn [fst]. rewrite !in_app_iff.
  intros [H | [H | [H | [H | H]]]] Hs; [exfalso | exfalso | exact H | exfalso ..].
  - apply title_issues_not_h1 in H. congruence.
  - apply meta_issues_not_h1 in H. congruence.
  - apply image_issues_not_h1 in H. congruence.
  - apply content_issues_not_h1 in H. congruence.
Qed.

Lemma in_heading_issues pd s : In s (heading_issues pd) -> In s (issues_of pd).
Proof.
  intros H. unfold issues_of, generate_seo_issues. cbn [fst].
  rewrite !in_app_iff. tauto.
Qed.

Lemma heading_issues_cases pd :
  heading_issues pd =
    match h1 (headings pd) with
    | [] => [missing_h1]
    | [_] => []
    | _ :: _ :: _ => [multiple_h1 (llen (h1 (headings pd)))]
    end.
Proof.
  unfold heading_issues. destruct (h1 (headings pd)) as [| x [| y l]]; try reflexivity.
  assert (E : (llen (x :: y :: l) >? 1) = true)
    by (apply Z.gtb_lt; unfold llen; cbn [List.length]; lia).
  rewrite E. reflexivity.
Qed.

Lemma meta_present_truthy pd :
  meta_present pd <-> truthy_opt (meta_description pd) = true.
Proof.
  unfold meta_present. split.
  - intros (t & -> & Ht). simpl. apply truthy_nonempty, Ht.
  - destruct (meta_description pd) as [t |]; simpl; [| discriminate].
    intros Ht. exists t. split; [reflexivity | apply truthy_nonempty, Ht].
Qed.

(** X3.  The meta description check: with a description present, a length
    in [120,160] gives no description-length issue, a length below 120 the
    too-short issue and a length above 160 the too-long issue, each with the
    length in the message; an absent description gives "Missing meta
    description".  For an extracted page the length is that of the
    description, and without a description tag the description is absent
    with length 0. *)
Theorem meta_description_checks :
  (forall pd, meta_present pd -> 120 <= meta_desc_length pd <= 160 ->
     forall n, ~ In (meta_too_short n) (issues_of pd) /\
               ~ In (meta_too_long n) (issues_of pd)) /\
  (forall pd, meta_present pd -> meta_desc_length pd < 120 ->
     In (meta_too_short (meta_desc_length pd)) (issues_of pd)) /\
  (forall pd, meta_present pd -> 160 < meta_desc_length pd ->
     In (meta_too_long (meta_desc_length pd)) (issues_of pd)) /\
  (forall pd, meta_description pd = None ->
     In missing_meta_description (issues_of pd) /\
     forall n, ~ In (meta_too_short n) (issues_of pd) /\
               ~ In (meta_too_long n) (issues_of pd)) /\
  (forall u doc pd d, extracted u doc pd -> meta_description pd = Some d ->
     meta_desc_length pd = len d) /\
  (forall u doc pd, extracted u doc pd ->
     Soup.find (Soup.named_with "meta" "name" "description") doc = None ->
     meta_description pd = None /\ meta_desc_length pd = 0).
Proof.
  split; [| split; [| split; [| split; [| split]]]].
  - intros pd Hp [Hlo Hhi] n. apply meta_present_truthy in Hp.
    assert (Hnone : meta_issues pd = []).
    { rewrite meta_issues_cases, Hp. cbn [negb].
      destruct (meta_desc_length pd <? 120) eqn:E1; [apply Z.ltb_lt in E1; lia |].
      destruct (meta_desc_length pd >? 160) eqn:E2; [| reflexivity].
      apply Z.gtb_lt in E2. lia. }
    split; intros Hin.
    + apply meta_length_issue_origin in Hin; [| apply meta_too_short_is_meta_length].
      rewrite Hnone in Hin. exact Hin.
    + apply meta_length_issue_origin in Hin; [| apply meta_too_long_is_meta_length].
      rewrite Hnone in Hin. exact Hin.
  - intros pd Hp Hlt. apply meta_present_truthy in Hp.
    apply in_meta_issues. rewrite meta_issues_cases, Hp. cbn [negb].
    apply Z.ltb_lt in Hlt. rewrite Hlt. left. reflexivity.
  - intros pd Hp Hgt. apply meta_present_truthy in Hp.
    apply in_meta_issues. rewrite meta_issues_cases, Hp. cbn [negb].
    destruct (meta_desc_length pd <? 120) eqn:E1; [apply Z.ltb_lt in E1; lia |].
    assert (E2 : (meta_desc_length pd >? 160) = true) by (apply Z.gtb_lt; lia).
    rewrite E2. left. reflexivity.
  - intros pd Hnone.
    assert (Hi : meta_issues pd = [missing_meta_description])
      by (rewrite meta_issues_cases, Hnone; reflexivity).
    split; [apply in_meta_issues; rewrite Hi; left; reflexivity |].
    intros n. split; intros Hin.
    + apply meta_length_issue_origin in Hin; [| apply meta_too_short_is_meta_length].
      rewrite Hi in Hin. destruct Hin as [Hin | []]. discriminate Hin.
    + apply meta_length_issue_origin in Hin; [| apply meta_too_long_is_meta_length].
      rewrite Hi in Hin. destruct Hin as [Hin | []]. discriminate Hin.
  - intros u doc pd d Hx Hd. rewrite (extracted_meta_length _ _ _ Hx), Hd. reflexivity.
  - intros u doc pd Hx Hnone.
    destruct (extracted_fields _ _ _ Hx) as (_ & _ & _ & Hm & Hl & _).
    rewrite Hnone in Hm, Hl. cbn in Hm, Hl. split; assumption.
Qed.

(** The description checks at lengths 10, 127 and 161, and without a tag. *)
Lemma meta_description_checks_witness :
  In (meta_too_short 10) (issues_of (Samples.page_of Samples.doc_no_title)) /\
  (forall n, ~ In (meta_too_short n) (issues_of good_page) /\
             ~ In (meta_too_long n) (issues_of good_page)) /\
  In (meta_too_long 161) (issues_of (with_meta (Some "x"%string) 161 good_page)) /\
  In missing_meta_description (issues_of (with_meta None 0 good_page)) /\
  meta_desc_length (Samples.page_of Samples.doc_no_title) = len "IT support" /\
  (meta_description (Samples.page_of Samples.doc_title_44) = None /\
   meta_desc_length (Samples.page_of Samples.doc_title_44) = 0).
Proof.
  destruct meta_description_checks as (Hmid & Hshort & Hlong & Hnone & Hlen & Hno).
  split; [| split; [| split; [| split; [| split]]]].
  - apply (Hshort (Samples.page_of Samples.doc_no_title)).
    + exists "IT support"%string. split; [reflexivity | discriminate].
    + vm_compute. reflexivity.
  - apply (Hmid good_page).
    + eexists. split; [reflexivity | discriminate].
    + vm_compute. split; discriminate.
  - apply (Hlong (with_meta (Some "x"%string) 161 good_page)).
    + exists "x"%string. split; [reflexivity | discriminate].
    + vm_compute. reflexivity.
  - apply (Hnone (with_meta None 0 good_page)). reflexivity.
  - apply (Hlen Samples.sample_url Samples.doc_no_title); reflexivity.
  - apply (Hno Samples.sample_url Samples.doc_title_44); reflexivity.
Defined.

(** X4.  The H1 check: no H1 gives "Missing H1 tag", exactly one gives no
    H1 issue, more than one gives the multiple-H1 issue with their number;
    for an extracted page the H1 headings are those of the document's [h1]
    elements, one each, in document order. *)
Theorem h1_checks :
  (forall pd, h1 (headings pd) = [] ->
     In missing_h1 (issues_of pd) /\ forall n, ~ In (multiple_h1 n) (issues_of pd)) /\
  (forall pd, List.length (h1 (headings pd)) = 1%nat ->
     forall s, In s (issues_of pd) -> is_h1_issue s = false) /\
  (forall pd, (1 < List.length (h1 (headings pd)))%nat ->
     In (multiple_h1 (llen (h1 (headings pd)))) (issues_of pd) /\
     ~ In missing_h1 (issues_of pd)) /\
  (forall u doc pd, extracted u doc pd ->
     h1 (headings pd) =
       map (fun h => strip (Soup.get_text h)) (Soup.find_all (Soup.named "h1") doc)).
Proof.
  split; [| split; [| split]].
  - intros pd Hh.
    assert (Hi : heading_issues pd = [missing_h1])
      by (rewrite heading_issues_cases, Hh; reflexivity).
    split; [apply in_heading_issues; rewrite Hi; left; reflexivity |].
    intros n Hin. apply h1_issue_origin in Hin; [| reflexivity].
    rewrite Hi in Hin. destruct Hin as [Hin | []]. discriminate Hin.
  - intros pd Hh s Hin.
    destruct (is_h1_issue s) eqn:E; [| reflexivity].
    apply h1_issue_origin in Hin; [| exact E].
    rewrite heading_issues_cases in Hin.
    destruct (h1 (headings pd)) as [| x [| y l]]; try discriminate Hh.
    destruct Hin.
  - intros pd Hh.
    assert (Hi : heading_issues pd = [multiple_h1 (llen (h1 (headings pd)))]).
    { rewrite heading_issues_cases.
      destruct (h1 (headings pd)) as [| x [| y l]]; cbn [List.length] in Hh; try lia.
      reflexivity. }
    split; [apply in_heading_issues; rewrite Hi; left; reflexivity |].
    intros Hin. apply h1_issue_origin in Hin; [| reflexivity].
    rewrite Hi in Hin. destruct Hin as [Hin | []]. discriminate Hin.
  - intros u doc pd Hx.
    destruct (extracted_fields _ _ _ Hx) as (_ & _ & _ & _ & _ & Hh & _). exact Hh.
Qed.

(** The H1 check with no, one and two H1 headings. *)
Lemma h1_checks_witness :
  In missing_h1 (issues_of (with_h1 [] good_page)) /\
  (forall s, In s (issues_of good_page) -> is_h1_issue s = false) /\
  In (multiple_h1 2) (issues_of (with_h1 ["Repair"; "Support"]%string good_page)) /\
  h1 (headings (Samples.page_of Samples.doc_end_to_end)) = ["Welcome"%string].
Proof.
  destruct h1_checks as (Hnone & Hone & Hmany & Hx).
  split; [| split; [| split]].
  - apply (Hnone (with_h1 [] good_page)). reflexivity.
  - apply (Hone good_page). reflexivity.
  - apply (Hmany (with_h1 ["Repair"; "Support"]%string good_page)). cbn. lia.
  - rewrite (Hx Samples.sample_url Samples.doc_end_to_end
               (Samples.page_of Samples.doc_end_to_end) eq_refl).
    reflexivity.
Defined.

Lemma title_issues_nil pd :
  title_issues pd = [] <-> title_present pd /\ 30 <= title_length pd <= 60.
Proof.
  rewrite title_present_truthy, title_issues_cases.
  destruct (truthy_opt (title pd)); cbn [negb];
    [| split; [discriminate | intros [H _]; discriminate H]].
  destruct (title_length pd <? 30) eqn:E1.
  { apply Z.ltb_lt in E1. split; [discriminate | intros [_ H]; lia]. }
  apply Z.ltb_ge in E1.
  destruct (title_length pd >? 60) eqn:E2.
  { apply Z.gtb_lt in E2. split; [discriminate | intros [_ H]; lia]. }
  assert (title_length pd <= 60).
  { destruct (Z_le_dec (title_length pd) 60) as [H | H]; [exact H |].
    assert (E : (title_length pd >? 60) = true) by (apply Z.gtb_lt; lia).
    congruence. }
  split; [intros _; split; [reflexivity | lia] | reflexivity].
Qed.

Lemma meta_issues_nil pd :
  meta_issues pd = [] <-> meta_present pd /\ 120 <= meta_desc_length pd <= 160.
Proof.
  rewrite meta_present_truthy, meta_issues_cases.
  destruct (truthy_opt (meta_description pd)); cbn [negb];
    [| split; [discriminate | intros [H _]; discriminate H]].
  destruct (meta_desc_length pd <? 120) eqn:E1.
  { apply Z.ltb_lt in E1. split; [discriminate | intros [_ H]; lia]. }
  apply Z.ltb_ge in E1.
  destruct (meta_desc_length pd >? 160) eqn:E2.
  { apply Z.gtb_lt in E2. split; [discriminate | intros [_ H]; lia]. }
  assert (meta_desc_length pd <= 160).
  { destruct (Z_le_dec (meta_desc_length pd) 160) as [H | H]; [exact H |].
    assert (E : (meta_desc_length pd >? 160) = true) by (apply Z.gtb_lt; lia).
    congruence. }
  split; [intros _; split; [reflexivity | lia] | reflexivity].
Qed.

Lemma heading_issues_nil pd :
  heading_issues pd = [] <-> List.length (h1 (headings pd)) = 1%nat.
Proof.
  rewrite heading_issues_cases.
  destruct (h1 (headings pd)) as [| x [| y l]]; cbn [List.length];
    split; try discriminate; reflexivity.
Qed.

Lemma image_issues_nil pd : image_issues pd = [] <-> images_without_alt pd <= 0.
Proof.
  unfold image_issues. destruct (images_without_alt pd >? 0) eqn:E.
  - apply Z.gtb_lt in E. split; [discriminate | lia].
  - split; [intros _ | reflexivity].
    destruct (Z_le_dec (images_without_alt pd) 0) as [H | H]; [exact H |].
    assert (E' : (images_without_alt pd >? 0) = true) by (apply Z.gtb_lt; lia).
    congruence.
Qed.

Lemma content_issues_nil pd : content_issues pd = [] <-> 300 <= word_count pd.
Proof.
  unfold content_issues. destruct (word_count pd <? 300) eqn:E.
  - apply Z.ltb_lt in E. split; [discriminate | lia].
  - apply Z.ltb_ge in E. split; [intros _; exact E | reflexivity].
Qed.

Lemma app_nil_both {A} (l l' : list A) : (l ++ l')%list = [] <-> l = [] /\ l' = [].
Proof.
  split; [apply app_eq_nil | intros [-> ->]; reflexivity].
Qed.

Lemma issues_nil_iff pd : issues_of pd = [] <-> passes_all pd.
Proof.
  unfold issues_of, generate_seo_issues, passes_all. cbn [fst].
  rewrite !app_nil_both, title_issues_nil, meta_issues_nil, heading_issues_nil,
    image_issues_nil, content_issues_nil.
  unfold title_present, meta_present. tauto.
Qed.

(** X5.  A page gets no issue, and with it the score 100, exactly when it
    passes all the checks: a non-empty title of 30 to 60 characters, a
    non-empty description of 120 to 160 characters, exactly one H1, no image
    without alt text and at least 300 words. *)
Theorem full_score_iff_passes_all (pd : PageData) :
  (issues_of pd = [] <-> passes_all pd) /\
  exists report,
    outcome (generate_report pd) = Ok report /\
    (score report = 100 <-> passes_all pd) /\
    (score report = 100 <-> issues report = []).
Proof.
  split; [apply issues_nil_iff |].
  eexists. split; [apply generate_report_returns |]. cbn [score issues].
  fold (issues_of pd).
  assert (Hs : seo_score (issues_of pd) = 100 <-> issues_of pd = []).
  { rewrite seo_score_formula. unfold llen.
    destruct (issues_of pd); cbn [List.length]; split; try discriminate; try reflexivity.
    lia. }
  split; [rewrite Hs; apply issues_nil_iff | exact Hs].
Qed.

End CheckFacts.

(* ================================================================== *)
(** * More about runs: crashes, empty bodies, exit status *)
(* ================================================================== *)

Section RunEdgeFacts.
Import PyStr Analyzer Run RunSpec PageSpec RunSamples.
Local Open Scope string_scope.
Local Open Scope Z_scope.

Lemma extract_outcome_cases u doc :
  match Soup.find (Soup.named_with "meta" "name" "description") doc with
  | Some t =>
      match Soup.get (Soup.attrs_of t) "content" with
      | Some _ => exists pd, extract u doc = ([], Ok pd)
      | None => extract u doc = ([], Raised TypeError)
      end
  | None => exists pd, extract u doc = ([], Ok pd)
  end.
Proof.
  unfold extract, content_length.
  destruct (Soup.find (Soup.named_with "meta" "name" "description") doc) as [t |];
    [destruct (Soup.get (Soup.attrs_of t) "content") |];
    try (eexists; reflexivity); reflexivity.
Qed.

(** X6.  The extraction fails exactly when the document has a description
    tag without a [content] attribute: [len(None)] raises [TypeError].  The
    exception is not caught: the run ends with it after the two opening
    lines, no report is printed and no file written.  A keywords tag without
    [content] does no harm: [meta_keywords] is then absent. *)
Theorem description_without_content_raises :
  (forall u doc e,
     outcome (extract u doc) = Raised e <->
     e = TypeError /\
     exists t, Soup.find (Soup.named_with "meta" "name" "description") doc = Some t /\
               Soup.get (Soup.attrs_of t) "content" = None) /\
  (forall w script u r t,
     argv w = [script; u] -> urlparse w u <> None ->
     requests_get w u = GetReturns r -> ~ (400 <= status_code r < 600) ->
     text r <> EmptyString ->
     Soup.find (Soup.named_with "meta" "name" "description") (html_parser w (text r))
       = Some t ->
     Soup.get (Soup.attrs_of t) "content" = None ->
     main w = ([Print ("Analyzing website: " ++ u); Print "Please wait..."],
               Raised TypeError)) /\
  (forall u doc pd t,
     extracted u doc pd ->
     Soup.find (Soup.named_with "meta" "name" "keywords") doc = Some t ->
     Soup.get (Soup.attrs_of t) "content" = None ->
     meta_keywords pd = None).
Proof.
  split; [| split].
  - intros u doc e. pose proof (extract_outcome_cases u doc) as Hc.
    destruct (Soup.find (Soup.named_with "meta" "name" "description") doc) as [t |].
    + destruct (Soup.get (Soup.attrs_of t) "content") as [c |] eqn:Hg.
      * destruct Hc as [pd ->]. cbn [outcome snd]. split; [discriminate |].
        intros (_ & t' & Ht' & Hn). injection Ht' as <-. congruence.
      * rewrite Hc. cbn [outcome snd]. split.
        -- intros H. injection H as <-. split; [reflexivity |].
           exists t. split; [reflexivity | exact Hg].
        -- intros (-> & _). reflexivity.
    + destruct Hc as [pd ->]. cbn [outcome snd]. split; [discriminate |].
      intros (_ & t' & Ht' & _). discriminate Ht'.
  - intros w script u r t Ha Hu Hget Hst Hbody Hf Hg.
    destruct (urlparse w u) as [n |] eqn:Hn; [| congruence].
    assert (Hp : parse w (text r) = Parsed (html_parser w (text r))).
    { destruct (parse_cases w (text r)) as [Hp | (name & Hp)]; [exact Hp |].
      unfold html_parser in Hf. rewrite Hp in Hf. discriminate Hf. }
    apply (main_extract_raises w script u n r TypeError Ha Hn Hget Hst Hbody Hp).
    pose proof (extract_outcome_cases u (html_parser w (text r))) as Hc.
    rewrite Hf, Hg in Hc. rewrite Hc. reflexivity.
  - intros u doc pd t Hx Hf Hg. unfold extracted, extract, content_length in Hx.
    destruct (Soup.find (Soup.named_with "meta" "name" "description") doc) as [d |];
      [destruct (Soup.get (Soup.attrs_of d) "content"); [| discriminate Hx] |];
      cbn in Hx; injection Hx as <-; cbn [meta_keywords];
      rewrite Hf; cbn [content_of]; exact Hg.
Qed.

(** A page whose description tag has no content, and one whose keywords tag
    has none. *)
Lemma description_without_content_raises_witness :
  outcome (extract Samples.sample_url doc_bare_description) = Raised TypeError /\
  main world_bare_description =
    ([Print ("Analyzing website: " ++ Samples.sample_url); Print "Please wait..."],
     Raised TypeError) /\
  meta_keywords (Samples.page_of doc_bare_keywords) = None.
Proof.
  destruct description_without_content_raises as (Hiff & Hmain & Hkw).
  split; [| split].
  - apply (Hiff Samples.sample_url doc_bare_description TypeError).
    split; [reflexivity |]. exists bare_description_tag. split; reflexivity.
  - apply (Hmain world_bare_description "seo_analyzer.py"%string Samples.sample_url
             (Samples.ok_response "<html>...</html>" 200 "OK") bare_description_tag).
    + reflexivity.
    + discriminate.
    + reflexivity.
    + cbn. lia.
    + discriminate.
    + reflexivity.
    + reflexivity.
  - apply (Hkw Samples.sample_url doc_bare_keywords _ bare_keywords_tag); reflexivity.
Defined.

(** X7.  A response that is no HTTP error but has an empty body counts as a
    failed analysis: the page is not parsed, no "Error fetching" line is
    printed, only the failure notice; nothing is written and the run ends
    normally. *)
Theorem empty_body_is_a_failure w script u r :
  argv w = [script; u] -> urlparse w u <> None ->
  requests_get w u = GetReturns r -> ~ (400 <= status_code r < 600) ->
  text r = EmptyString ->
  analyze_page w u = ([], Ok None) /\
  main w =
    ([Print ("Analyzing website: " ++ u); Print "Please wait..."; failure_notice],
     Ok tt) /\
  writes (main w) = [].
Proof.
  intros Ha Hu Hget Hst Hbody.
  destruct (urlparse w u) as [n |] eqn:Hn; [| congruence].
  split; [| split].
  - unfold analyze_page. rewrite (fetch_page_returns w u r Hget Hst), Hbody. reflexivity.
  - apply (main_empty_body w script u n r Ha Hn Hget Hst Hbody).
  - rewrite (main_empty_body w script u n r Ha Hn Hget Hst Hbody). reflexivity.
Qed.

(** A 204 response without body. *)
Lemma empty_body_is_a_failure_witness :
  main world_empty_body =
    ([Print ("Analyzing website: " ++ Samples.sample_url); Print "Please wait...";
      failure_notice], Ok tt) /\
  writes (main world_empty_body) = [].
Proof.
  destruct (empty_body_is_a_failure world_empty_body "seo_analyzer.py"%string
              Samples.sample_url (Samples.ok_response "" 204 "No Content"))
    as (_ & Hm & Hw).
  - reflexivity.
  - discriminate.
  - reflexivity.
  - cbn. lia.
  - reflexivity.
  - split; [exact Hm | exact Hw].
Defined.

Lemma main_wrong_argv w :
  List.length (argv w) <> 2%nat -> main w = (usage_lines, Raised (SystemExit 1)).
Proof.
  intros Hlen. unfold main.
  destruct (argv w) as [| a [| b [| c l]]]; cbn [List.length] in Hlen;
    try reflexivity; lia.
Qed.

Lemma main_two_args_outcome w script u :
  argv w = [script; u] ->
  outcome (main w) = Ok tt \/ outcome (main w) = Raised ValueError
  \/ outcome (main w) = Raised TypeError
  \/ exists name, outcome (main w) = Raised (LibraryError name).
Proof.
  intros Ha.
  destruct (urlparse w u) as [n |] eqn:Hu;
    [| right; left; unfold main; rewrite Ha, Hu; reflexivity].
  destruct (fetch_page_cases w u) as [Hf | [(r & Hget & Hst) | (name & Hget)]];
    [| | right; right; right; exists name;
         rewrite (main_fetch_crashes w script u n name Ha Hu Hget); reflexivity].
  - left. destruct (main_fetch_raises w script u n Ha Hu Hf) as [e ->]. reflexivity.
  - destruct (text r) as [| c body] eqn:Hbody.
    + left. rewrite (main_empty_body w script u n r Ha Hu Hget Hst Hbody). reflexivity.
    + assert (Hne : text r <> EmptyString) by (rewrite Hbody; discriminate).
      destruct (parse_cases w (text r)) as [Hp | (name & Hp)];
        [| right; right; right; exists name;
           rewrite (main_parse_rejected w script u n r name Ha Hu Hget Hst Hne Hp);
           reflexivity].
      destruct (outcome (extract u (html_parser w (text r)))) as [pd | e] eqn:Hx.
      * left. destruct (main_success w script u n r pd Ha Hu Hget Hst Hne Hp Hx)
          as (report & _ & ->). reflexivity.
      * right. right. left.
        rewrite (main_extract_raises w script u n r e Ha Hu Hget Hst Hne Hp Hx).
        cbn [outcome snd]. f_equal.
        pose proof (extract_outcome_cases u (html_parser w (text r))) as Hc.
        destruct (Soup.find _ _) as [t |].
        -- destruct (Soup.get _ _).
           ++ destruct Hc as [pd Hpd]. rewrite Hpd in Hx. discriminate Hx.
           ++ rewrite Hc in Hx. cbn [outcome snd] in Hx. congruence.
        -- destruct Hc as [pd Hpd]. rewrite Hpd in Hx. discriminate Hx.
Qed.

(** X8.  The exit status: [sys.exit(1)] is reached exactly when the program
    is not given one argument, and then only the two usage lines are
    printed.  With one argument a failed fetch ends the run normally, like
    a successful one, so the exit status does not tell them apart. *)
Theorem exit_status_only_for_usage (w : world) :
  (List.length (argv w) <> 2%nat ->
     main w = (usage_lines, Raised (SystemExit 1))) /\
  (forall status, outcome (main w) = Raised (SystemExit status) ->
     status = 1 /\ List.length (argv w) <> 2%nat) /\
  (forall script u, argv w = [script; u] -> urlparse w u <> None ->
     fetch_raises (requests_get w u) ->
     outcome (main w) = Ok tt /\ writes (main w) = []).
Proof.
  split; [apply main_wrong_argv | split].
  - intros status Hs.
    destruct (Nat.eq_dec (List.length (argv w)) 2) as [Hlen | Hlen].
    + destruct (argv w) as [| a [| b [| c l]]] eqn:Ha; cbn [List.length] in Hlen;
        try lia.
      destruct (main_two_args_outcome w a b Ha) as [H | [H | [H | [name H]]]];
        rewrite H in Hs; discriminate Hs.
    + rewrite (main_wrong_argv w Hlen) in Hs. cbn [outcome snd] in Hs.
      injection Hs as <-. split; [reflexivity | exact Hlen].
  - intros script u Ha Hu Hf.
    destruct (urlparse w u) as [n |] eqn:Hn; [| congruence].
    destruct (main_fetch_raises w script u n Ha Hn Hf) as [e ->].
    split; reflexivity.
Qed.

(** No argument, and a timeout with one argument. *)
Lemma exit_status_only_for_usage_witness :
  main world_no_argument = (usage_lines, Raised (SystemExit 1)) /\
  outcome (main Samples.world_timeout) = Ok tt /\
  writes (main Samples.world_timeout) = [].
Proof.
  split.
  - apply (proj1 (exit_status_only_for_usage world_no_argument)). cbn. lia.
  - apply (proj2 (proj2 (exit_status_only_for_usage Samples.world_timeout))
             "seo_analyzer.py"%string Samples.sample_url).
    + reflexivity.
    + discriminate.
    + exact I.
Defined.

End RunEdgeFacts.

(* ================================================================== *)
(** * The keyword recommendation *)
(* ================================================================== *)

Section GapFacts.
Import PyStr Analyzer Run GapSpec CheckSpec.
Local Open Scope string_scope.

(** A prefix without space does not reach over a space. *)
Lemma starts_with_before_space p :
  no_space p = true ->
  forall x b, starts_with p (x ++ String " " b) = starts_with p x.
Proof.
  induction p as [| a p IH]; intros Hp x b; [destruct x; reflexivity |].
  cbn [no_space] in Hp. apply andb_true_iff in Hp. destruct Hp as [Ha Hp].
  apply negb_true_iff in Ha.
  destruct x as [| c x]; cbn [append starts_with].
  - rewrite Ha. reflexivity.
  - rewrite (IH Hp). reflexivity.
Qed.

Lemma contains_unfold s p :
  contains s p =
    (starts_with p s || match s with EmptyString => false | String _ s' => contains s' p end).
Proof. destruct s; reflexivity. Qed.

(** A string without space that occurs in [a b] occurs in [a] or in [b]. *)
Lemma contains_across_space p a b :
  no_space p = true -> p <> EmptyString ->
  contains (a ++ String " " b) p = contains a p || contains b p.
Proof.
  intros Hp Hne. induction a as [| c a IH].
  - cbn [append]. rewrite (contains_unfold (String " " b)), (contains_unfold "").
    pose proof (starts_with_before_space p Hp "" b) as Hs. cbn [append] in Hs.
    rewrite Hs. destruct p; [congruence | reflexivity].
  - rewrite (contains_unfold (String c a ++ String " " b)), (contains_unfold (String c a)).
    rewrite (starts_with_before_space p Hp (String c a) b).
    cbn [append]. rewrite IH, orb_assoc. reflexivity.
Qed.

Lemma contains_join p ks :
  no_space p = true -> p <> EmptyString ->
  contains (join " " ks) p = existsb (fun k => contains k p) ks.
Proof.
  intros Hp Hne. induction ks as [| x ks IH].
  - cbn. destruct p; [congruence | reflexivity].
  - destruct ks as [| y ks].
    + cbn [join existsb]. rewrite orb_false_r. reflexivity.
    + change (join " " (x :: y :: ks)) with (x ++ String " " (join " " (y :: ks))).
      rewrite (contains_across_space p x _ Hp Hne), IH. reflexivity.
Qed.

Lemma targets_have_no_space target :
  In target it_keywords -> no_space target = true /\ target <> EmptyString.
Proof.
  unfold it_keywords. cbn [In].
  intros H. repeat (destruct H as [<- | H]; [split; [reflexivity | discriminate] |]).
  destruct H.
Qed.

Lemma missing_targets_filter pd :
  filter (fun kw => negb (contains (join " " (top_terms pd)) kw)) it_keywords
  = missing_targets pd.
Proof.
  unfold missing_targets, covered. apply filter_ext_in. intros kw Hkw.
  destruct (targets_have_no_space kw Hkw) as [Hs Hne].
  rewrite (contains_join kw (top_terms pd) Hs Hne). reflexivity.
Qed.

(** X9.  The keyword recommendation names the target terms that none of the
    ten top-ranked keywords contains, at most five of them, in the order of
    the target list; a target contained in a top keyword (as "computer" in
    "computers") is covered, a keyword below rank ten covers nothing.  With
    every target covered there is no keyword recommendation, and there are
    never more than two recommendations. *)
Theorem keyword_gap_by_terms (pd : PageData) :
  keyword_recommendations pd =
    match missing_targets pd with
    | [] => []
    | _ :: _ => [gap_message (missing_targets pd)]
    end /\
  (forall target, In target (missing_targets pd) <->
     In target it_keywords /\
     forall k, In k (top_terms pd) -> contains k target = false) /\
  (List.length (firstn 5 (missing_targets pd)) <= 5)%nat /\
  (List.length (snd (generate_seo_issues pd)) <= 2)%nat.
Proof.
  assert (Hrec : keyword_recommendations pd =
            match missing_targets pd with
            | [] => []
            | _ :: _ => [gap_message (missing_targets pd)]
            end).
  { unfold keyword_recommendations. fold (top_terms pd).
    rewrite missing_targets_filter. destruct (missing_targets pd); reflexivity. }
  split; [exact Hrec |]. split; [| split].
  - intros target. unfold missing_targets. rewrite filter_In. unfold covered.
    split.
    + intros [Hin Hneg]. split; [exact Hin |].
      apply negb_true_iff in Hneg. intros k Hk.
      destruct (contains k target) eqn:E; [| reflexivity].
      assert (Hex : existsb (fun k => contains k target) (top_terms pd) = true)
        by (apply existsb_exists; exists k; split; assumption).
      congruence.
    + intros [Hin Hall]. split; [exact Hin |]. apply negb_true_iff.
      destruct (existsb (fun k => contains k target) (top_terms pd)) eqn:E;
        [| reflexivity].
      apply existsb_exists in E. destruct E as (k & Hk & Hc).
      rewrite (Hall k Hk) in Hc. discriminate Hc.
  - rewrite length_firstn. lia.
  - unfold generate_seo_issues. cbn [snd]. rewrite length_app, Hrec.
    unfold structured_data_recommendations.
    destruct (negb (has_structured_data pd)); destruct (missing_targets pd);
      cbn [List.length]; lia.
Qed.

End GapFacts.

(* ================================================================== *)
(** * More about the ranking *)
(* ================================================================== *)

Section RankFacts.
Import PyStr Keywords KeywordSpec RankSpec.
Local Open Scope Z_scope.

Lemma extract_keywords_most_common text n k :
  extract_keywords text n k = most_common k (all_counts text n).
Proof. reflexivity. Qed.

Lemma in_keys_insert_desc x l key :
  In key (map fst (insert_desc x l)) <-> key = fst x \/ In key (map fst l).
Proof.
  rewrite !in_map_iff. split.
  - intros (e & <- & He). apply in_insert_desc in He.
    destruct He as [-> | He]; [left; reflexivity | right; exists e; split; auto].
  - intros [-> | (e & <- & He)].
    + exists x. split; [reflexivity | apply in_insert_desc; left; reflexivity].
    + exists e. split; [reflexivity | apply in_insert_desc; right; exact He].
Qed.

Lemma nodup_keys_insert_desc x l :
  ~ In (fst x) (map fst l) -> NoDup (map fst l) -> NoDup (map fst (insert_desc x l)).
Proof.
  induction l as [| y l IH]; intros Hx Hl; cbn [insert_desc map].
  - constructor; [intros [] | constructor].
  - destruct (snd y <=? snd x).
    + cbn [map]. constructor; assumption.
    + cbn [map] in Hx, Hl |- *. apply NoDup_cons_iff in Hl. destruct Hl as [Hy Hl].
      constructor.
      * rewrite in_keys_insert_desc. intros [Heq | Hin]; [| contradiction].
        apply Hx. left. exact Heq.
      * apply IH; [| exact Hl]. intros H. apply Hx. right. exact H.
Qed.

Lemma in_keys_sorted_desc l key :
  In key (map fst (sorted_desc l)) <-> In key (map fst l).
Proof.
  rewrite !in_map_iff. split; intros (e & He & Hin); exists e; split; try exact He.
  - apply (proj1 (in_sorted_desc e l)), Hin.
  - apply (proj2 (in_sorted_desc e l)), Hin.
Qed.

Lemma nodup_keys_sorted_desc l :
  NoDup (map fst l) -> NoDup (map fst (sorted_desc l)).
Proof.
  induction l as [| x l IH]; intros Hl; [constructor |].
  cbn [map] in Hl. apply NoDup_cons_iff in Hl. destruct Hl as [Hx Hl].
  change (sorted_desc (x :: l)) with (insert_desc x (sorted_desc l)).
  apply nodup_keys_insert_desc; [| apply IH, Hl].
  rewrite in_keys_sorted_desc. exact Hx.
Qed.

Lemma nodup_firstn {A} (n : nat) (l : list A) : NoDup l -> NoDup (firstn n l).
Proof.
  revert l. induction n as [| n IH]; intros l Hl; [constructor |].
  destruct l as [| x l]; [constructor |].
  apply NoDup_cons_iff in Hl. destruct Hl as [Hx Hl]. cbn [firstn].
  constructor; [| apply IH, Hl].
  intros H. apply Hx. apply (in_firstn_in n l x H).
Qed.

Lemma count_tokens_keys ws : map fst (count_tokens ws) = first_occurrences ws.
Proof.
  unfold count_tokens. rewrite map_map. cbn [fst]. apply map_id.
Qed.

Lemma sorted_app_order {A} (R : A -> A -> Prop) (l1 l2 : list A) :
  StronglySorted R (l1 ++ l2) -> forall a b, In a l1 -> In b l2 -> R a b.
Proof.
  induction l1 as [| x l1 IH]; intros Hs a b Ha Hb; [destruct Ha |].
  cbn [app] in Hs. inversion Hs as [| ? ? Hl Hx]; subst.
  destruct Ha as [-> | Ha].
  - rewrite Forall_forall in Hx. apply Hx. apply in_or_app. right. exact Hb.
  - apply (IH Hl a b Ha Hb).
Qed.

(** X10.  The ranked keywords, for every text and every parameter: no term
    occurs twice; an entry of the count is left out only if its count is
    not above that of any returned entry; the result has [max_keywords]
    entries or, when there are fewer distinct tokens, all of them; each
    returned entry is an entry of the count. *)
Theorem ranking_keeps_the_most_frequent (text : string) (n k : nat) :
  NoDup (map fst (extract_keywords text n k)) /\
  (forall e, In e (extract_keywords text n k) -> In e (all_counts text n)) /\
  (forall e, In e (all_counts text n) ->
     In e (extract_keywords text n k) \/
     forall e', In e' (extract_keywords text n k) -> snd e <= snd e') /\
  List.length (extract_keywords text n k)
    = Nat.min k (List.length (first_occurrences (tokens_of text n))).
Proof.
  rewrite extract_keywords_most_common. unfold most_common.
  split; [| split; [| split]].
  - rewrite <- firstn_map. apply nodup_firstn, nodup_keys_sorted_desc.
    unfold all_counts. rewrite Counter_counts, count_tokens_keys.
    apply first_occurrences_nodup.
  - intros e He. apply in_firstn_in in He. apply (proj1 (in_sorted_desc _ _) He).
  - intros e He. apply (proj2 (in_sorted_desc e _)) in He.
    rewrite <- (firstn_skipn k (sorted_desc (all_counts text n))) in He.
    apply in_app_or in He. destruct He as [He | He]; [left; exact He | right].
    intros e' He'.
    pose proof (sorted_desc_sorted (all_counts text n)) as Hs.
    rewrite <- (firstn_skipn k (sorted_desc (all_counts text n))) in Hs.
    apply (sorted_app_order _ _ _ Hs e' e He' He).
  - rewrite length_firstn. f_equal.
    assert (Hlen : forall l, List.length (sorted_desc l) = List.length l).
    { induction l as [| x l IH]; [reflexivity |].
      change (sorted_desc (x :: l)) with (insert_desc x (sorted_desc l)).
      cbn [List.length]. rewrite <- IH.
      generalize (sorted_desc l). intros m.
      induction m as [| y m IHm]; [reflexivity |].
      cbn [insert_desc]. destruct (snd y <=? snd x); cbn [List.length];
        [reflexivity | rewrite IHm; reflexivity]. }
    rewrite Hlen. unfold all_counts. rewrite Counter_counts. unfold count_tokens.
    apply length_map.
Qed.

(** X11.  For every minimal length of at least 1 and every number of
    keywords, [extract_keywords] returns the top entries, by descending
    count and first occurrence, of the count of the tokens the pattern
    finds: the runs of word characters of the normalised text that are made
    of at least that many letters a-z and are directly followed by the
    character U+0008, each taken with that character. *)
Theorem extract_keywords_for_all_parameters (text : string) (n k : nat) :
  (1 <= n)%nat ->
  extract_keywords text n k =
    top k (count_tokens (backspace_tokens n (normalize text))).
Proof.
  intros Hn. apply extract_keywords_tokens, Hn.
Qed.

(** With minimal length 5 and two keywords. *)
Lemma extract_keywords_for_all_parameters_witness :
  extract_keywords
    (marked "Network" ++ " " ++ marked "repair" ++ ", " ++ marked "network"
     ++ " support and " ++ marked "REPAIR" ++ " of " ++ marked "net")%string 5 2
  = top 2 (count_tokens (backspace_tokens 5
             (normalize
                (marked "Network" ++ " " ++ marked "repair" ++ ", " ++ marked "network"
                 ++ " support and " ++ marked "REPAIR" ++ " of " ++ marked "net")%string))).
Proof.
  apply extract_keywords_for_all_parameters. lia.
Defined.

End RankFacts.

(* ================================================================== *)
(** * Letter case *)
(* ================================================================== *)

Section CaseFacts.
Import PyStr Re Keywords TextSpec.

Lemma lower_char_idem a : lower_char (lower_char a) = lower_char a.
Proof.
  destruct a as [[|] [|] [|] [|] [|] [|] [|] [|]]; reflexivity.
Qed.

Lemma lower_idem s : lower (lower s) = lower s.
Proof.
  induction s as [| a s IH]; [reflexivity |].
  cbn [lower]. rewrite lower_char_idem, IH. reflexivity.
Qed.

Lemma lower_app s t : lower (s ++ t) = (lower s ++ lower t)%string.
Proof.
  induction s as [| a s IH]; [reflexivity |].
  cbn [append lower]. rewrite IH. reflexivity.
Qed.

Lemma lower_length s : String.length (lower s) = String.length s.
Proof.
  induction s as [| a s IH]; [reflexivity |].
  cbn [lower String.length]. rewrite IH. reflexivity.
Qed.

Lemma is_char_lt_lower a : is_char "<" (lower_char a) = is_char "<" a.
Proof.
  destruct a as [[|] [|] [|] [|] [|] [|] [|] [|]]; reflexivity.
Qed.

Lemma is_char_gt_lower a : is_char ">" (lower_char a) = is_char ">" a.
Proof.
  destruct a as [[|] [|] [|] [|] [|] [|] [|] [|]]; reflexivity.
Qed.

Lemma tag_re_caseless : caseless tag_re.
Proof.
  cbn [caseless tag_re]. split; [apply is_char_lt_lower |].
  split; [| split; [apply is_char_gt_lower | exact I]].
  intros a. unfold not_char. f_equal. apply is_char_gt_lower.
Qed.

Lemma rep_match_lower min c k :
  (forall a, c (lower_char a) = c a) ->
  (forall prev prev' s, k prev' (lower s) = lower_match (k prev s)) ->
  forall s cnt prev prev',
    rep_match min c k cnt prev' (lower s) = lower_match (rep_match min c k cnt prev s).
Proof.
  intros Hc Hk. induction s as [| a s IH]; intros cnt prev prev'.
  - cbn [lower rep_match]. destruct (min <=? cnt)%nat; [| reflexivity].
    apply (Hk prev prev' EmptyString).
  - cbn [lower rep_match]. rewrite Hc.
    assert (Hstop :
      (if (min <=? cnt)%nat then k prev' (String (lower_char a) (lower s)) else None)
      = lower_match (if (min <=? cnt)%nat then k prev (String a s) else None)).
    { destruct (min <=? cnt)%nat; [| reflexivity].
      apply (Hk prev prev' (String a s)). }
    destruct (c a); [| exact Hstop].
    rewrite (IH (S cnt) (Some a) (Some (lower_char a))).
    destruct (rep_match min c k (S cnt) (Some a) s) as [[m rest] |];
      [reflexivity | exact Hstop].
Qed.

Lemma match_here_lower p :
  caseless p ->
  forall prev prev' s,
    match_here p prev' (lower s) = lower_match (match_here p prev s).
Proof.
  induction p as [| [c | min c |] k IH]; intros Hp prev prev' s.
  - reflexivity.
  - destruct Hp as [Hc Hk]. destruct s as [| a s]; [reflexivity |].
    cbn [lower match_here]. rewrite Hc. destruct (c a); [| reflexivity].
    rewrite (IH Hk (Some a) (Some (lower_char a)) s).
    destruct (match_here k (Some a) s) as [[m rest] |]; reflexivity.
  - destruct Hp as [Hc Hk]. cbn [match_here].
    apply rep_match_lower; [exact Hc | exact (IH Hk)].
  - destruct Hp.
Qed.

Lemma sub_from_lower p repl :
  caseless p -> lower repl = repl ->
  forall fuel prev prev' s,
    sub_from fuel p repl prev' (lower s) = lower (sub_from fuel p repl prev s).
Proof.
  intros Hp Hrepl. induction fuel as [| fuel IH]; intros prev prev' s; [reflexivity |].
  cbn [sub_from]. rewrite (match_here_lower p Hp prev prev' s).
  assert (Hcopy :
    match lower s with
    | EmptyString => EmptyString
    | String a s' => String a (sub_from fuel p repl (Some a) s')
    end
    = lower match s with
            | EmptyString => EmptyString
            | String a s' => String a (sub_from fuel p repl (Some a) s')
            end).
  { destruct s as [| a s]; [reflexivity |]. cbn [lower]. f_equal.
    apply (IH (Some a) (Some (lower_char a)) s). }
  destruct (match_here p prev s) as [[[| a m] rest] |]; cbn [lower_match lower];
    try exact Hcopy.
  rewrite lower_app, Hrepl. f_equal. apply IH.
Qed.

Lemma sub_lower p repl s :
  caseless p -> lower repl = repl -> sub p repl (lower s) = lower (sub p repl s).
Proof.
  intros Hp Hrepl. unfold sub. rewrite lower_length. apply sub_from_lower; assumption.
Qed.

Lemma extract_keywords_lower text n k :
  extract_keywords (lower text) n k = extract_keywords text n k.
Proof.
  unfold extract_keywords.
  rewrite (sub_lower tag_re " " text tag_re_caseless eq_refl), lower_idem.
  reflexivity.
Qed.

(** X12.  The keywords do not depend on letter case: two texts that are
    equal once put in small letters have the same keywords with the same
    counts, for every minimal length and number of keywords; so a text and
    its small-letter form do. *)
Theorem keywords_ignore_case (t1 t2 : string) (n k : nat) :
  lower t1 = lower t2 ->
  extract_keywords t1 n k = extract_keywords t2 n k /\
  extract_keywords (lower t1) n k = extract_keywords t1 n k.
Proof.
  intros H. split; [| apply extract_keywords_lower].
  rewrite <- (extract_keywords_lower t1), <- (extract_keywords_lower t2), H.
  reflexivity.
Qed.

Lemma keywords_ignore_case_witness :
  extract_keywords "<B>Network</B> REPAIR and network Support" 3 50
  = extract_keywords "<b>NETWORK</b> repair And Network support" 3 50 /\
  extract_keywords (lower "<B>Network</B> REPAIR and network Support") 3 50
  = extract_keywords "<B>Network</B> REPAIR and network Support" 3 50.
Proof.
  apply keywords_ignore_case. reflexivity.
Defined.

End CaseFacts.

(* ================================================================== *)
(** * The text that is analysed *)
(* ================================================================== *)

Section VisibleTextFacts.
Import PyStr Analyzer Soup PageSpec TextSpec.
Local Open Scope Z_scope.

Lemma strings_tag types name attrs contents :
  strings types (Tag name attrs contents) = strings_all types contents.
Proof.
  cbn [strings]. induction contents as [| c cs IH]; [reflexivity |].
  cbn [strings_all]. rewrite IH. reflexivity.
Qed.

Lemma strings_all_app types l1 l2 :
  strings_all types (l1 ++ l2) = (strings_all types l1 ++ strings_all types l2)%string.
Proof.
  induction l1 as [| c l1 IH]; [reflexivity |].
  cbn [app strings_all]. rewrite IH, string_app_assoc. reflexivity.
Qed.

Lemma visible_text_tag names name attrs contents :
  visible_text names (Tag name attrs contents) =
    if existsb (String.eqb name) names then EmptyString
    else visible_text_all names contents.
Proof.
  cbn [visible_text]. destruct (existsb (String.eqb name) names); [reflexivity |].
  induction contents as [| c cs IH]; [reflexivity |].
  cbn [visible_text_all]. rewrite IH. reflexivity.
Qed.

(** Removing the elements and reading the text is one pass over the text
    strings outside them. *)
Lemma strings_decompose names :
  forall n, strings_all None (decompose names n) = visible_text names n.
Proof.
  fix IH 1. intros n.
  destruct n as [s | s | c s | name attrs contents].
  - cbn. apply string_app_nil_r.
  - reflexivity.
  - reflexivity.
  - rewrite (decompose_tag names name attrs contents), visible_text_tag.
    destruct (existsb (String.eqb name) names); [reflexivity |].
    cbn [strings_all]. rewrite string_app_nil_r, strings_tag.
    induction contents as [| c cs IHcs]; [reflexivity |].
    cbn [flat_map visible_text_all]. rewrite strings_all_app, (IH c), IHcs.
    reflexivity.
Qed.

Lemma strings_decompose_list names l :
  strings_all None (flat_map (decompose names) l) = visible_text_all names l.
Proof.
  induction l as [| n l IH]; [reflexivity |].
  cbn [flat_map visible_text_all].
  rewrite strings_all_app, IH, strings_decompose. reflexivity.
Qed.

Lemma get_text_decompose_all names doc :
  get_text_all (decompose_all names doc) = visible_text_all names doc.
Proof. apply strings_decompose_list. Qed.

(** A tag found by name has that name. *)
Lemma find_named name doc t :
  find (named name) doc = Some t -> exists attrs contents, t = Tag name attrs contents.
Proof.
  unfold find, find_all. intros H.
  destruct (filter (matches (named name)) (descendants doc)) as [| x l] eqn:E;
    [discriminate H |].
  cbn [hd_error] in H. injection H as ->.
  assert (Hin : In t (t :: l)) by (left; reflexivity).
  rewrite <- E in Hin. apply filter_In in Hin. destruct Hin as [_ Hm].
  destruct t as [s | s | c s | n attrs contents]; try discriminate Hm.
  cbn [matches] in Hm. unfold named in Hm. apply String.eqb_eq in Hm. subst n.
  eauto.
Qed.

Lemma title_text_visible doc t :
  find (named "title") doc = Some t ->
  get_text_after ["script"; "style"] t = visible_text ["script"; "style"] t.
Proof.
  intros H. destruct (find_named "title" doc t H) as (attrs & contents & ->).
  unfold get_text_after. rewrite decompose_tag, visible_text_tag.
  cbn [existsb String.eqb Ascii.eqb Bool.eqb orb get_text interesting_string_types
       string_containers].
  apply strings_decompose_list.
Qed.

(** Where the elements hold no text of the default class, the text outside
    them is all the text. *)
Lemma visible_text_all_text names :
  forall n,
    (forall t, In t (tags_of n) -> matches (named_any names) t = true ->
               strings None t = EmptyString) ->
    visible_text names n = strings None n.
Proof.
  fix IH 1. intros n Hn. destruct n as [s | s | c s | name attrs contents];
    [reflexivity | reflexivity | reflexivity |].
  rewrite visible_text_tag.
  destruct (existsb (String.eqb name) names) eqn:E.
  - symmetry. apply Hn; [rewrite tags_of_tag; left; reflexivity | exact E].
  - rewrite strings_tag.
    assert (Hcs : forall c t, In c contents -> In t (tags_of c) ->
                              matches (named_any names) t = true ->
                              strings None t = EmptyString).
    { intros c t Hc Ht. apply Hn. rewrite tags_of_tag. right.
      apply in_flat_map. exists c. split; assumption. }
    clear Hn E. induction contents as [| c cs IHcs]; [reflexivity |].
    cbn [visible_text_all strings_all]. rewrite (IH c).
    + f_equal. apply IHcs. intros c' t Hc' Ht.
      apply (Hcs c' t); [right; exact Hc' | exact Ht].
    + intros t Ht. apply (Hcs c t); [left; reflexivity | exact Ht].
Qed.

Lemma visible_text_all_doc names doc :
  hold_no_text names doc -> visible_text_all names doc = get_text_all doc.
Proof.
  unfold hold_no_text, get_text_all, descendants.
  induction doc as [| n doc IH]; intros H; [reflexivity |].
  cbn [visible_text_all strings_all]. rewrite (visible_text_all_text names n).
  - f_equal. apply IH. intros t Ht. apply H.
    cbn [flat_map]. apply in_or_app. right. exact Ht.
  - intros t Ht. apply H. cbn [flat_map]. apply in_or_app. left. exact Ht.
Qed.

(** X13.  The text that is analysed is made of the strings of class
    [NavigableString] of the document that lie in no [script] or [style]
    element, in document order; comments and the strings of the other
    classes (the text of scripts, styles and templates) add nothing.  The
    keywords and the word count of an extracted page are those of this
    text, and the title is read the same way.  Where the [script] and
    [style] elements hold no such string, as the parser builds them, this
    text is the text of the whole document: the removal changes nothing in
    it. *)
Theorem analysed_text_is_visible_text u doc pd :
  extracted u doc pd ->
  keywords pd =
    Keywords.extract_keywords (visible_text_all ["script"; "style"] doc) 3 50 /\
  word_count pd = llen (split (visible_text_all ["script"; "style"] doc)) /\
  title pd =
    option_map (visible_text ["script"; "style"]) (find (named "title") doc) /\
  (hold_no_text ["script"; "style"] doc ->
     visible_text_all ["script"; "style"] doc = get_text_all doc).
Proof.
  intros Hx.
  assert (Hk : keywords pd =
            Keywords.extract_keywords
              (get_text_all (decompose_all ["script"; "style"] doc)) 3 50).
  { revert Hx. unfold extracted, extract, content_length.
    destruct (find (named_with "meta" "name" "description") doc) as [t |];
      [destruct (get (attrs_of t) "content") as [c |]; [| discriminate] |];
      cbn; intros H; injection H as <-; reflexivity. }
  destruct (extracted_fields u doc pd Hx)
    as (_ & Ht & _ & _ & _ & _ & _ & _ & _ & Hw).
  rewrite get_text_decompose_all in Hk, Hw.
  split; [exact Hk |]. split; [exact Hw |]. split.
  - rewrite Ht. destruct (find (named "title") doc) as [t |] eqn:Ef; [| reflexivity].
    cbn [option_map]. rewrite (title_text_visible doc t Ef). reflexivity.
  - apply visible_text_all_doc.
Qed.

(** A page with scripts, a style and a template: of the four words with the
    character U+0008 only the two of the paragraph count, and the page has
    five words. *)
Lemma analysed_text_is_visible_text_witness :
  keywords (Samples.page_of doc_with_scripts)
    = [(KeywordSpec.marked "network", 1); (KeywordSpec.marked "repair", 1)] /\
  keywords (Samples.page_of doc_with_scripts) =
    Keywords.extract_keywords (visible_text_all ["script"; "style"] doc_with_scripts) 3 50 /\
  word_count (Samples.page_of doc_with_scripts) = 6 /\
  title (Samples.page_of doc_with_scripts) = Some "Network repair"%string /\
  visible_text_all ["script"; "style"] doc_with_scripts = get_text_all doc_with_scripts.
Proof.
  destruct (analysed_text_is_visible_text Samples.sample_url doc_with_scripts
              (Samples.page_of doc_with_scripts) eq_refl)
    as (Hk & Hw & Ht & Hall).
  split; [rewrite Hk; vm_compute; reflexivity |].
  split; [exact Hk |].
  split; [rewrite Hw; vm_compute; reflexivity |].
  split; [rewrite Ht; vm_compute; reflexivity |].
  apply Hall. intros t Hin Hm. cbn in Hin.
  repeat (destruct Hin as [<- | Hin];
          [first [reflexivity | vm_compute in Hm; discriminate Hm] |]).
  destruct Hin.
Defined.

End VisibleTextFacts.

(* ================================================================== *)
(** * What the report prints *)
(* ================================================================== *)

Section PrintFacts.
Import PyStr Analyzer Run PageSpec ReportSpec.
Local Open Scope Z_scope.

Lemma for_each_prints {A} (f : A -> string) (body : A -> M unit) (xs : list A) :
  (forall x, body x = print (f x)) ->
  for_each xs body = (map Print (map f xs), Ok tt).
Proof.
  intros Hbody. induction xs as [| x xs IH]; [reflexivity |].
  cbn [for_each map]. rewrite Hbody, IH. reflexivity.
Qed.

Lemma print_heading_level_lines level hs :
  print_heading_level level hs = (map Print (heading_lines level hs), Ok tt).
Proof.
  unfold print_heading_level, heading_lines.
  rewrite (for_each_prints (fun h => "  - " ++ take 60 h ++ "...")%string)
    by reflexivity.
  reflexivity.
Qed.

Lemma print_numbered_lines items :
  print_numbered items = (map Print (numbered items), Ok tt).
Proof.
  unfold print_numbered, numbered.
  apply (for_each_prints (fun '(i, item) => str_int_2d i ++ ". " ++ item)%string).
  intros [i item]. reflexivity.
Qed.

Lemma section_lines header items :
  match items with
  | [] => ret tt
  | _ :: _ => print (nl ++ header) ;; print_numbered items
  end = (map Print (section header items), Ok tt).
Proof.
  destruct items as [| x items]; [reflexivity |].
  rewrite print_numbered_lines. reflexivity.
Qed.

Lemma keyword_lines_printed kws :
  for_each (enumerate 1 (firstn 10 kws))
    (fun '(i, (keyword, count)) =>
       print (str_int_2d i ++ ". " ++ keyword ++ " (" ++ str_int count ++ " times)"))
  = (map Print (keyword_lines kws), Ok tt).
Proof.
  unfold keyword_lines.
  apply (for_each_prints
           (fun '(i, (keyword, count)) =>
              str_int_2d i ++ ". " ++ keyword ++ " (" ++ str_int count ++ " times)")%string).
  intros [i [keyword count]]. reflexivity.
Qed.

Lemma generate_report_lines pd :
  generate_report pd =
    (map Print (report_lines pd
       {| score := seo_score (issues_of pd);
          issues := issues_of pd;
          recommendations := snd (generate_seo_issues pd) |}),
     Ok {| score := seo_score (issues_of pd);
           issues := issues_of pd;
           recommendations := snd (generate_seo_issues pd) |}).
Proof.
  unfold generate_report, issues_of, report_lines.
  destruct (generate_seo_issues pd) as [iss recs]. cbn [fst snd score issues recommendations].
  rewrite !print_heading_level_lines, keyword_lines_printed,
    (section_lines "ISSUES TO FIX:" iss), (section_lines "RECOMMENDations:" recs).
  unfold print, ret, opening_lines, image_lines, structured_data_lines, closing_lines.
  cbn [bind app map List.concat score].
  repeat (rewrite map_app; cbn [map app]).
  reflexivity.
Qed.

Lemma in_enumerate {A} (items : list A) :
  forall start i x, nth_error items i = Some x ->
                    In (start + Z.of_nat i, x) (enumerate start items).
Proof.
  induction items as [| y items IH]; intros start i x Hn; [destruct i; discriminate Hn |].
  destruct i as [| i]; cbn [nth_error] in Hn; cbn [enumerate].
  - injection Hn as ->. left. f_equal. cbn. lia.
  - right. replace (start + Z.of_nat (S i)) with (start + 1 + Z.of_nat i) by lia.
    apply IH, Hn.
Qed.

Lemma in_numbered items i x :
  nth_error items i = Some x ->
  In (str_int_2d (Z.of_nat i + 1) ++ ". " ++ x)%string (numbered items).
Proof.
  intros Hn. unfold numbered. apply in_map_iff.
  exists (1 + Z.of_nat i, x). split; [f_equal; f_equal; lia |].
  apply in_enumerate, Hn.
Qed.

Lemma in_section header items i x :
  nth_error items i = Some x ->
  In (str_int_2d (Z.of_nat i + 1) ++ ". " ++ x)%string (section header items).
Proof.
  intros Hn. destruct items as [| y items]; [destruct i; discriminate Hn |].
  right. apply in_numbered, Hn.
Qed.

Lemma length_enumerate {A} (items : list A) :
  forall start, List.length (enumerate start items) = List.length items.
Proof.
  induction items as [| y items IH]; intros start; [reflexivity |].
  cbn [enumerate List.length]. rewrite IH. reflexivity.
Qed.

Lemma length_section header items :
  List.length (section header items) = section_size items.
Proof.
  destruct items as [| y items]; [reflexivity |].
  unfold section, numbered, section_size.
  cbn [List.length]. rewrite length_map, length_enumerate. reflexivity.
Qed.

Lemma length_heading_lines level hs :
  List.length (heading_lines level hs) = S (Nat.min 3 (List.length hs)).
Proof.
  unfold heading_lines. cbn [List.length]. rewrite length_map, length_firstn.
  reflexivity.
Qed.

(** X14.  What [generate_report] prints is fixed by the page data and the
    report it returns: the lines of [report_lines], in this order, and
    nothing else.  Every issue and every recommendation of the returned
    report is printed, numbered by its position from 1; the last two lines
    are the score of the returned report and the banner; of each heading
    level only the first three headings are printed, each cut to 60
    characters and followed by three dots whatever its length; the number of
    lines is 22 plus those of the headings, keywords, issues and
    recommendations. *)
Theorem printed_report_matches_returned (pd : PageData) :
  exists r,
    generate_report pd = (map Print (report_lines pd r), Ok r) /\
    (forall i issue, nth_error (issues r) i = Some issue ->
       printed (str_int_2d (Z.of_nat i + 1) ++ ". " ++ issue) (generate_report pd)) /\
    (forall i rec, nth_error (recommendations r) i = Some rec ->
       printed (str_int_2d (Z.of_nat i + 1) ++ ". " ++ rec) (generate_report pd)) /\
    (exists front, report_lines pd r = (front ++ [score_line (score r); banner])%list) /\
    (forall h, In h (firstn 3 (h1 (headings pd))) ->
       printed ("  - " ++ take 60 h ++ "...") (generate_report pd)) /\
    List.length (trace (generate_report pd)) =
      (22 + Nat.min 3 (List.length (h1 (headings pd)))
          + Nat.min 3 (List.length (h2 (headings pd)))
          + Nat.min 3 (List.length (h3 (headings pd)))
          + Nat.min 10 (List.length (keywords pd))
          + section_size (issues r) + section_size (recommendations r))%nat.
Proof.
  eexists. split; [apply generate_report_lines |].
  unfold printed. rewrite generate_report_lines. cbn [trace fst score issues recommendations].
  set (r := {| score := seo_score (issues_of pd); issues := issues_of pd;
               recommendations := snd (generate_seo_issues pd) |}).
  assert (Hin : forall l,
            In l (section "ISSUES TO FIX:" (issues r)) \/
            In l (section "RECOMMENDations:" (recommendations r)) \/
            In l (heading_lines "h1" (h1 (headings pd))) ->
            In (Print l) (map Print (report_lines pd r))).
  { intros l H. apply in_map. unfold report_lines. apply in_concat.
    destruct H as [H | [H | H]]; eexists; (split; [| exact H]); cbn [In]; tauto. }
  split; [| split; [| split; [| split]]].
  - intros i issue Hn. apply Hin. left. apply (in_section _ (issues r)), Hn.
  - intros i rec Hn. apply Hin. right. left.
    apply (in_section _ (recommendations r)), Hn.
  - unfold report_lines. cbn [List.concat]. rewrite app_nil_r.
    eexists. rewrite !app_assoc. reflexivity.
  - intros h Hh. apply Hin. right. right. unfold heading_lines. right.
    apply in_map_iff. exists h. split; [reflexivity | exact Hh].
  - rewrite length_map. unfold report_lines, keyword_lines.
    cbn [List.concat]. rewrite !length_app.
    rewrite !length_heading_lines, !length_section, length_map, length_enumerate,
      length_firstn.
    cbn [List.length opening_lines image_lines structured_data_lines closing_lines
         recommendations issues].
    subst r. cbn [recommendations issues]. lia.
Qed.

End PrintFacts.

(* ================================================================== *)
(** * The text of the results file *)
(* ================================================================== *)

Section FileFacts.
Import PyStr Json Analyzer Run RunSpec KeywordSpec ArtifactSpec FileSpec.
Local Open Scope string_scope.

(** Induction on a value, with the items of a list, tuple or dict. *)
Lemma pyval_induction (P : pyval -> Prop) :
  P PyNone -> (forall b, P (PyBool b)) -> (forall n, P (PyInt n)) ->
  (forall s, P (PyStr s)) ->
  (forall items, Forall P items -> P (PyList items)) ->
  (forall items, Forall P items -> P (PyTuple items)) ->
  (forall items, Forall (fun kv => P (snd kv)) items -> P (PyDict items)) ->
  forall v, P v.
Proof.
  intros Hnone Hbool Hint Hstr Hlist Htuple Hdict. fix IH 1. intros v.
  destruct v as [| b | n | s | items | items | items].
  - exact Hnone.
  - apply Hbool.
  - apply Hint.
  - apply Hstr.
  - apply Hlist. induction items as [| x items IHi]; constructor; [apply IH | exact IHi].
  - apply Htuple. induction items as [| x items IHi]; constructor; [apply IH | exact IHi].
  - apply Hdict. induction items as [| [k x] items IHi]; constructor;
      [apply IH | exact IHi].
Qed.

Lemma plain_escape_char c : all_chars plain (escape_char c) = true.
Proof.
  destruct c as [[|] [|] [|] [|] [|] [|] [|] [|]]; reflexivity.
Qed.

Lemma plain_encode_str s : all_chars plain (encode_str s) = true.
Proof.
  unfold encode_str. cbn [all_chars]. rewrite all_chars_app.
  assert (He : all_chars plain (escape s) = true).
  { induction s as [| c s IH]; [reflexivity |].
    cbn [escape]. rewrite all_chars_app, plain_escape_char, IH. reflexivity. }
  rewrite He. reflexivity.
Qed.

Lemma plain_uint d : all_chars plain (NilEmpty.string_of_uint d) = true.
Proof.
  induction d as [| d IH | d IH | d IH | d IH | d IH | d IH | d IH | d IH | d IH | d IH];
    [reflexivity | ..]; cbn [NilEmpty.string_of_uint all_chars]; rewrite IH; reflexivity.
Qed.

Lemma plain_str_int n : all_chars plain (str_int n) = true.
Proof.
  assert (Hz : forall d, all_chars plain (NilZero.string_of_uint d) = true).
  { intros d. destruct d; [reflexivity | ..]; apply plain_uint. }
  unfold str_int. destruct n as [| p | p]; cbn [Z.to_int NilZero.string_of_int].
  - reflexivity.
  - apply Hz.
  - cbn [all_chars]. rewrite Hz. reflexivity.
Qed.

Lemma plain_newline_indent level : all_chars plain (newline_indent level) = true.
Proof.
  unfold newline_indent. cbn [all_chars].
  induction (2 * level)%nat as [| n IH]; [reflexivity |].
  cbn [spaces all_chars]. exact IH.
Qed.

Lemma plain_encode : forall v level, all_chars plain (encode level v) = true.
Proof.
  assert (Harray : forall items,
            Forall (fun v => forall level, all_chars plain (encode level v) = true) items ->
            forall level, all_chars plain (encode level (PyList items)) = true).
  { intros items Hitems level. destruct Hitems as [| x items Hx Hitems]; [reflexivity |].
    rewrite encode_list_cons, !all_chars_app, plain_newline_indent, Hx,
      plain_newline_indent.
    assert (Hmore : all_chars plain (encode_more level items) = true).
    { induction Hitems as [| y items Hy Hitems IH]; [reflexivity |].
      cbn [encode_more]. rewrite !all_chars_app, plain_newline_indent, Hy, IH.
      reflexivity. }
    rewrite Hmore. reflexivity. }
  induction v using pyval_induction; intros level.
  - reflexivity.
  - destruct b; reflexivity.
  - apply plain_str_int.
  - apply plain_encode_str.
  - apply Harray. assumption.
  - rewrite encode_tuple. apply Harray. assumption.
  - match goal with H : Forall _ items |- _ => rename H into Hitems end.
    destruct Hitems as [| [k x] items Hx Hitems]; [reflexivity |].
    cbn [snd] in Hx.
    rewrite encode_dict_cons, !all_chars_app, plain_newline_indent, plain_encode_str,
      Hx, plain_newline_indent.
    assert (Hmore : all_chars plain (encode_more_members level items) = true).
    { induction Hitems as [| [k' y] items Hy Hitems IH]; [reflexivity |].
      cbn [snd] in Hy. cbn [encode_more_members].
      rewrite !all_chars_app, plain_newline_indent, plain_encode_str, Hy, IH.
      reflexivity. }
    rewrite Hmore. reflexivity.
Qed.

Lemma in_writes {A} (m : M A) path content :
  In (WriteFile path content) (trace m) -> In (WriteFile path content) (writes m).
Proof.
  intros H. unfold writes. apply filter_In. split; [exact H | reflexivity].
Qed.

(** X15.  Whatever the page holds, a file that a run writes is
    [seo_analysis.json] and its text consists of printable ASCII characters
    and line breaks only: every other character of a title, heading or
    other string is written as an escape.  A run writes at most one file. *)
Theorem written_file_is_plain_ascii (w : world) :
  (forall path content,
     In (WriteFile path content) (trace (main w)) ->
     path = "seo_analysis.json" /\ all_chars plain content = true) /\
  (List.length (writes (main w)) <= 1)%nat /\
  (forall v, all_chars plain (dumps v) = true).
Proof.
  split; [| split].
  - intros path content Hin. apply in_writes in Hin.
    destruct (main_all_or_nothing w) as [[Hw _] | (u & pd & report & _ & _ & Hw)];
      rewrite Hw in Hin; [destruct Hin |].
    destruct Hin as [Heq | []]. injection Heq as <- <-.
    split; [reflexivity | apply plain_encode].
  - destruct (main_all_or_nothing w) as [[Hw _] | (u & pd & report & _ & _ & Hw)];
      rewrite Hw; cbn [List.length]; lia.
  - intros v. apply plain_encode.
Qed.

(** ** Writing again what was read *)

Lemma encode_listify : forall v level, encode level (listify v) = encode level v.
Proof.
  assert (Harray : forall items,
            Forall (fun v => forall level, encode level (listify v) = encode level v) items ->
            forall level,
              encode level (PyList (map listify items)) = encode level (PyList items)).
  { intros items Hitems level. destruct Hitems as [| x items Hx Hitems]; [reflexivity |].
    cbn [map]. rewrite !encode_list_cons, Hx.
    assert (Hmore : encode_more level (map listify items) = encode_more level items).
    { induction Hitems as [| y items Hy Hitems IH]; [reflexivity |].
      cbn [map encode_more]. rewrite Hy, IH. reflexivity. }
    rewrite Hmore. reflexivity. }
  induction v using pyval_induction; intros level; try reflexivity.
  - apply Harray. assumption.
  - rewrite encode_tuple. apply Harray. assumption.
  - match goal with H : Forall _ items |- _ => rename H into Hitems end.
    rewrite listify_dict.
    destruct Hitems as [| [k x] items Hx Hitems]; [reflexivity |].
    cbn [snd] in Hx. cbn [map fst snd]. rewrite !encode_dict_cons, Hx.
    assert (Hmore :
      encode_more_members level (map (fun kv => (fst kv, listify (snd kv))) items)
      = encode_more_members level items).
    { induction Hitems as [| [k' y] items Hy Hitems IH]; [reflexivity |].
      cbn [snd] in Hy. cbn [map fst snd encode_more_members]. rewrite Hy, IH.
      reflexivity. }
    rewrite Hmore. reflexivity.
Qed.

Lemma well_formed_listify : forall v, well_formed (listify v) = well_formed v.
Proof.
  assert (Harray : forall items,
            Forall (fun v => well_formed (listify v) = well_formed v) items ->
            forallb well_formed (map listify items) = forallb well_formed items).
  { intros items Hitems. induction Hitems as [| x items Hx Hitems IH]; [reflexivity |].
    cbn [map forallb]. rewrite Hx, IH. reflexivity. }
  induction v using pyval_induction; try reflexivity.
  - change (listify (PyList items)) with (PyList (map listify items)).
    rewrite !well_formed_list. apply Harray. assumption.
  - change (listify (PyTuple items)) with (PyList (map listify items)).
    change (well_formed (PyTuple items)) with (well_formed (PyList items)).
    rewrite !well_formed_list. apply Harray. assumption.
  - match goal with H : Forall _ items |- _ => rename H into Hitems end.
    rewrite listify_dict, !well_formed_dict, map_map. cbn [fst]. f_equal.
    induction Hitems as [| [k x] items Hx Hitems IH]; [reflexivity |].
    cbn [snd] in Hx. cbn [map forallb snd]. rewrite Hx, IH. reflexivity.
Qed.

(** X16.  Reading the written text and writing the value read gives the
    same text again, and the value read is read back unchanged from it:
    after one round through the file nothing changes any more, although the
    first value read differs from the one in memory where that holds
    tuples. *)
Theorem rewritten_text_is_stable (v : pyval) :
  well_formed v = true ->
  exists v',
    loads (dumps v) = Some v' /\
    dumps v' = dumps v /\
    loads (dumps v') = Some v'.
Proof.
  intros Hw. exists (listify v).
  split; [apply loads_dumps, Hw |].
  split; [apply encode_listify |].
  unfold dumps at 1. rewrite encode_listify. fold (dumps v).
  apply loads_dumps, Hw.
Qed.

Lemma rewritten_text_is_stable_witness :
  exists v',
    loads (dumps (artifact Samples.world_ok (Samples.page_of Samples.doc_end_to_end)
                    (report_of (Samples.page_of Samples.doc_end_to_end)))) = Some v' /\
    dumps v' = dumps (artifact Samples.world_ok (Samples.page_of Samples.doc_end_to_end)
                        (report_of (Samples.page_of Samples.doc_end_to_end))) /\
    loads (dumps v') = Some v'.
Proof.
  apply rewritten_text_is_stable. vm_compute. reflexivity.
Defined.

End FileFacts.

(* ================================================================== *)
(** * How a run ends *)
(* ================================================================== *)

Section EndingFacts.
Import PyStr Analyzer Run RunSpec PageSpec EndingSpec.
Local Open Scope Z_scope.

Lemma last_event_snoc {A} (t : list event) (e : event) (r : result A) :
  last_event ((t ++ [e])%list, r) = Some e.
Proof. unfold last_event. cbn [trace fst]. rewrite rev_app_distr. reflexivity. Qed.

(** The ways a run can go. *)
Lemma main_cases (w : world) :
  (exists e, outcome (main w) = Raised e) \/
  (exists t, main w = ((t ++ [failed_notice])%list, Ok tt) /\ writes (main w) = []) \/
  (exists t c, main w = ((t ++ [saved_notice])%list, Ok tt) /\
               writes (main w) = [WriteFile output_file c]).
Proof.
  destruct (argv w) as [| script [| u [| x rest]]] eqn:Ha;
    try (left; eexists; unfold main; rewrite Ha; reflexivity).
  destruct (urlparse w u) as [n |] eqn:Hu;
    [| left; eexists; unfold main; rewrite Ha, Hu; reflexivity].
  destruct (fetch_page_cases w u) as [Hf | [(r & Hget & Hst) | (name & Hget)]].
  - right. left. destruct (main_fetch_raises w script u n Ha Hu Hf) as [e ->].
    eexists [_; _; _]. split; reflexivity.
  - destruct (text r) as [| c body] eqn:Hbody.
    + right. left. rewrite (main_empty_body w script u n r Ha Hu Hget Hst Hbody).
      eexists [_; _]. split; reflexivity.
    + assert (Hne : text r <> EmptyString) by (rewrite Hbody; discriminate).
      destruct (parse_cases w (text r)) as [Hp | (name & Hp)];
        [| left; eexists;
           rewrite (main_parse_rejected w script u n r name Ha Hu Hget Hst Hne Hp);
           reflexivity].
      destruct (outcome (extract u (html_parser w (text r)))) as [pd | e] eqn:Hx.
      * right. right.
        destruct (main_success w script u n r pd Ha Hu Hget Hst Hne Hp Hx)
          as (report & Hr & Hm).
        eexists (_ :: _ :: (trace (generate_report pd) ++ [_])%list), _.
        rewrite Hm. split.
        -- cbn [app]. rewrite <- !app_assoc. reflexivity.
        -- unfold writes. cbn [trace fst app filter is_write].
           rewrite filter_app. fold (writes (generate_report pd)).
           rewrite generate_report_writes. reflexivity.
      * left. eexists.
        rewrite (main_extract_raises w script u n r e Ha Hu Hget Hst Hne Hp Hx).
        reflexivity.
  - left. eexists. rewrite (main_fetch_crashes w script u n name Ha Hu Hget).
    reflexivity.
Qed.

(** X17.  The program catches no exception but the [RequestException] of
    the request.  When [urlparse] rejects the URL the run ends with its
    [ValueError] before anything is printed; when [requests.get] raises an
    exception of another class, or the parser rejects the page, the run ends
    with that exception after the two opening lines: no failure notice, no
    report, no file.  A run that ends normally has either written the one
    file and printed the saved notice last, or written nothing and printed
    the failure notice last. *)
Theorem how_a_run_ends (w : world) :
  (forall script u, argv w = [script; u] -> urlparse w u = None ->
     main w = ([], Raised ValueError)) /\
  (forall script u name, argv w = [script; u] -> urlparse w u <> None ->
     requests_get w u = GetCrashes name ->
     main w = ([Print ("Analyzing website: " ++ u); Print "Please wait..."],
               Raised (LibraryError name))) /\
  (forall script u r name, argv w = [script; u] -> urlparse w u <> None ->
     requests_get w u = GetReturns r -> ~ (400 <= status_code r < 600) ->
     text r <> EmptyString -> parse w (text r) = Rejected name ->
     main w = ([Print ("Analyzing website: " ++ u); Print "Please wait..."],
               Raised (LibraryError name))) /\
  (outcome (main w) = Ok tt ->
     (List.length (writes (main w)) = 1%nat /\ last_event (main w) = Some saved_notice) \/
     (writes (main w) = [] /\ last_event (main w) = Some failed_notice)).
Proof.
  split; [| split; [| split]].
  - intros script u Ha Hu. unfold main. rewrite Ha, Hu. reflexivity.
  - intros script u name Ha Hu Hget.
    destruct (urlparse w u) as [n |] eqn:Hn; [| congruence].
    apply (main_fetch_crashes w script u n name Ha Hn Hget).
  - intros script u r name Ha Hu Hget Hst Hbody Hp.
    destruct (urlparse w u) as [n |] eqn:Hn; [| congruence].
    apply (main_parse_rejected w script u n r name Ha Hn Hget Hst Hbody Hp).
  - intros Hok.
    destruct (main_cases w) as [[e He] | [(t & Hm & Hw) | (t & c & Hm & Hw)]].
    + rewrite He in Hok. discriminate Hok.
    + right. split; [exact Hw | rewrite Hm; apply last_event_snoc].
    + left. split; [rewrite Hw; reflexivity | rewrite Hm; apply last_event_snoc].
Qed.

(** The runs on a URL that [urlparse] rejects, on a host name that cannot
    be encoded, on a page the parser rejects, on the sample page and on a
    page that is not found. *)
Example run_endings_ex :
  main world_bad_url = ([], Raised ValueError) /\
  outcome (main world_bad_host) = Raised (LibraryError "LocationParseError") /\
  outcome (main world_rejected) = Raised (LibraryError "ParserRejectedMarkup") /\
  last_event (main Samples.world_ok) = Some saved_notice /\
  last_event (main Samples.world_404) = Some failed_notice.
Proof. repeat split; vm_compute; reflexivity. Qed.

(** X18.  [fetch_page] catches the [RequestException] and nothing else.  It
    returns [None] exactly when [requests.get] raises one or the status is
    in 400..599, and then prints one line, which starts with
    "Error fetching " and the URL.  It raises exactly when [requests.get]
    raises an exception of another class: that exception, with nothing
    printed.  Otherwise it prints nothing and returns the body as it is,
    whatever the status and even when the body is empty. *)
Theorem fetch_page_contract (w : world) (u : string) :
  (outcome (fetch_page w u) = Ok None <-> fetch_raises (requests_get w u)) /\
  (fetch_raises (requests_get w u) ->
     exists line, printed_lines (fetch_page w u) = [line] /\
                  starts_with ("Error fetching " ++ u ++ ": ") line = true) /\
  (forall r, requests_get w u = GetReturns r -> ~ (400 <= status_code r < 600) ->
     fetch_page w u = ([], Ok (Some (text r)))) /\
  (forall e, outcome (fetch_page w u) = Raised e <->
     exists name, requests_get w u = GetCrashes name /\ e = LibraryError name) /\
  (forall name, requests_get w u = GetCrashes name ->
     fetch_page w u = ([], Raised (LibraryError name))).
Proof.
  assert (Hprefix : forall p s, starts_with p (p ++ s) = true).
  { induction p as [| a p IH]; intros s; [reflexivity |].
    cbn [append starts_with]. rewrite Ascii.eqb_refl. apply IH. }
  destruct (fetch_page_cases w u) as [Hf | [(r & Hget & Hst) | (name & Hget)]].
  - destruct (fetch_page_raises w u Hf) as [e He].
    split; [split; [intros _; exact Hf | intros _; rewrite He; reflexivity] |].
    split; [| split; [| split]].
    + intros _. exists ("Error fetching " ++ u ++ ": " ++ e)%string.
      rewrite He. split; [reflexivity |].
      replace ("Error fetching " ++ u ++ ": " ++ e)%string
        with (("Error fetching " ++ u ++ ": ") ++ e)%string
        by (rewrite !string_app_assoc; reflexivity).
      apply Hprefix.
    + intros r Hget Hst. apply fetch_page_returns; assumption.
    + intros e'. rewrite He. split; [discriminate |].
      intros (name & Hget & _). rewrite Hget in Hf. destruct Hf.
    + intros name Hget. rewrite Hget in Hf. destruct Hf.
  - assert (Hnot : ~ fetch_raises (requests_get w u)).
    { rewrite Hget. exact Hst. }
    rewrite (fetch_page_returns w u r Hget Hst).
    split; [split; [discriminate | intros Hf; contradiction] |].
    split; [intros Hf; contradiction |].
    split; [intros r' Hget' _; rewrite Hget in Hget'; injection Hget' as <-;
            reflexivity |].
    split; [intros e; split; [discriminate |];
            intros (name & Hget' & _); rewrite Hget in Hget'; discriminate Hget' |].
    intros name Hget'. rewrite Hget in Hget'. discriminate Hget'.
  - assert (Hnot : ~ fetch_raises (requests_get w u)).
    { rewrite Hget. intros []. }
    rewrite (fetch_page_crashes w u name Hget).
    split; [split; [discriminate | intros Hf; contradiction] |].
    split; [intros Hf; contradiction |].
    split; [intros r Hget'; rewrite Hget in Hget'; discriminate Hget' |].
    split.
    + intros e. split.
      * intros H. injection H as <-. exists name. split; [exact Hget | reflexivity].
      * intros (name' & Hget' & ->). rewrite Hget in Hget'. injection Hget' as <-.
        reflexivity.
    + intros name' Hget'. rewrite Hget in Hget'. injection Hget' as <-. reflexivity.
Qed.

End EndingFacts.

(* ================================================================== *)
(** * More examples *)
(* ================================================================== *)

Section MoreExamples.
Import PyStr Json Analyzer CheckSpec GapSpec ArtifactSpec FileSpec.
Local Open Scope string_scope.

(** A keyword at rank eleven covers nothing; at rank one, "computers"
    covers "computer". *)
Example gap_rank_ex :
  keyword_recommendations
    (with_keywords (fillers ++ [("computer", 1%Z)])%list good_page)
  = ["Consider adding IT-related keywords: computer, repair, support, network, security"] /\
  keyword_recommendations
    (with_keywords (("computers", 9%Z) :: fillers)%list good_page)
  = ["Consider adding IT-related keywords: repair, support, network, security, managed"].
Proof. split; vm_compute; reflexivity. Qed.

(** The e-acute and the tab of a title are written as escapes. *)
Example latin1_title_ex :
  title_length (Samples.page_of doc_latin1) = 8%Z /\
  contains (dumps (artifact Samples.world_ok (Samples.page_of doc_latin1)
                     (report_of (Samples.page_of doc_latin1))))
           "Caf\u00e9 " = true /\
  contains (dumps (artifact Samples.world_ok (Samples.page_of doc_latin1)
                     (report_of (Samples.page_of doc_latin1))))
           "\t" = true /\
  contains (dumps (artifact Samples.world_ok (Samples.page_of doc_latin1)
                     (report_of (Samples.page_of doc_latin1))))
           "\u00dcber" = true.
Proof. repeat split; vm_compute; reflexivity. Qed.

End MoreExamples.
